(** * Index oracle: scraper, dynamic fee and blockchain bridge

    A shallow embedding of [scraping/index_data_scraper.py] and the
    properties of its fee transform, session rotation, retry loops,
    ledger writer, pipeline and storage manager.

    Number model.  A Python [float] is read as the rational it denotes and
    float arithmetic as exact arithmetic on [Q]; a Python [int] is a [Z].
    The literals of the source ([1500.0], [0.33], [2], [1.5], [0.5]) are
    the rationals they spell.  Wall-clock instants are microsecond counts
    in [Z], the resolution of [datetime].  A [str] is held as its UTF-8
    bytes.  The index value of a run is a finite float; NaN and the
    infinities are met in [Binary64] only.

    [Binary64] runs the fee transform once more on IEEE doubles, at the
    constants of the source, to check that this reading changes none of
    the values the statements rely on and to cover NaN and the
    infinities.  The bounds of the fee rate and its monotonicity are
    proved in both readings; the operations on doubles are those of the
    specification of binary64 arithmetic ([SpecFloat]).

    Files.  [DataStorageFiles] runs the storage manager on its two files,
    read as the rows and the entries they hold; whether a file operation
    goes through is for the environment to say. *)

From Stdlib Require Import ZArith QArith Qpower Qround Qabs Lia Lqa List String Ascii Bool.
From Stdlib Require Import DecimalString Floats.
Import ListNotations.

Local Open Scope Z_scope.

(** ** Python primitives used by the source *)

Module Py.

(** [a < b] on floats, as a boolean. *)
Definition Qltb (a b : Q) : bool := negb (Qle_bool b a).

(** [min(a, b)]: the first argument unless the second is smaller. *)
Definition min (a b : Q) : Q := if Qltb b a then b else a.

(** [max(a, b)]: the first argument unless the second is larger. *)
Definition max (a b : Q) : Q := if Qltb a b then b else a.

(** [round(x)] with one argument: nearest integer, ties to the even one. *)
Definition round (x : Q) : Z :=
  let f := Qfloor x in
  match Qcompare (x - inject_Z f)%Q (1 # 2) with
  | Lt => f
  | Gt => f + 1
  | Eq => if Z.even f then f else f + 1
  end.

(** [int(x)] on a float: truncation towards zero. *)
Definition int (x : Q) : Z := Z.quot (Qnum x) (Z.pos (Qden x)).

(** [a / b] on floats: raises [ZeroDivisionError] when [b] is zero. *)
Definition div (a b : Q) : option Q :=
  if Qeq_bool b 0 then None else Some (a / b)%Q.

(** Truthiness of an [Optional[str]]: [None] and the empty string are false. *)
Definition truthy (o : option string) : bool :=
  match o with
  | None => false
  | Some s => negb (String.eqb s EmptyString)
  end.

(** [str(n)] of an int. *)
Definition str_int (n : Z) : string :=
  DecimalString.NilZero.string_of_int (Z.to_int n).

(** [f"{x:.2f}"]: [x] to two decimals, ties to even. *)
Definition format_2f (x : Q) : string :=
  let hundredths := round (Qabs x * 100)%Q in
  let cents := hundredths mod 100 in
  ((if Qltb x 0 then "-" else "")
     ++ str_int (hundredths / 100)%Z ++ "."
     ++ (if (cents <? 10)%Z then "0" else "") ++ str_int cents)%string.

(** [o or ''] for an [Optional[str]]. *)
Definition or_empty (o : option string) : string :=
  match o with
  | None => EmptyString
  | Some s => s
  end.

(** [needle in haystack] on strings. *)
Fixpoint contains (needle haystack : string) : bool :=
  if String.prefix needle haystack then true
  else match haystack with
       | EmptyString => false
       | String _ rest => contains needle rest
       end.

(** The white space of [str.strip] and [str.isspace], on the UTF-8 bytes
    of a [str].  The code points 9 to 13 and 28 to 32 take one byte. *)
Definition is_space (c : ascii) : bool :=
  let n := nat_of_ascii c in
  ((9 <=? n)%nat && (n <=? 13)%nat) || ((28 <=? n)%nat && (n <=? 32)%nat).

(** U+0085 and U+00A0 take the two bytes [C2 85] and [C2 A0]. *)
Definition is_space2 (c1 c2 : ascii) : bool :=
  let n1 := nat_of_ascii c1 in
  let n2 := nat_of_ascii c2 in
  (n1 =? 194)%nat && ((n2 =? 133)%nat || (n2 =? 160)%nat).

(** U+1680 takes [E1 9A 80]; U+2000 to U+200A, U+2028, U+2029 and U+202F
    take [E2 80 80] to [E2 80 8A], [E2 80 A8], [E2 80 A9] and [E2 80 AF];
    U+205F takes [E2 81 9F] and U+3000 takes [E3 80 80]. *)
Definition is_space3 (c1 c2 c3 : ascii) : bool :=
  let n1 := nat_of_ascii c1 in
  let n2 := nat_of_ascii c2 in
  let n3 := nat_of_ascii c3 in
  ((n1 =? 225)%nat && (n2 =? 154)%nat && (n3 =? 128)%nat)
  || ((n1 =? 226)%nat && (n2 =? 128)%nat
      && (((128 <=? n3)%nat && (n3 <=? 138)%nat)
          || (n3 =? 168)%nat || (n3 =? 169)%nat || (n3 =? 175)%nat))
  || ((n1 =? 226)%nat && (n2 =? 129)%nat && (n3 =? 159)%nat)
  || ((n1 =? 227)%nat && (n2 =? 128)%nat && (n3 =? 128)%nat).

(** [s] is one white space character. *)
Definition is_space_char (s : string) : bool :=
  match s with
  | String c1 EmptyString => is_space c1
  | String c1 (String c2 EmptyString) => is_space2 c1 c2
  | String c1 (String c2 (String c3 EmptyString)) => is_space3 c1 c2 c3
  | _ => false
  end.

Fixpoint lstrip (s : string) : string :=
  match s with
  | EmptyString => EmptyString
  | String c1 rest1 =>
      if is_space c1 then lstrip rest1
      else
        match rest1 with
        | EmptyString => s
        | String c2 rest2 =>
            if is_space2 c1 c2 then lstrip rest2
            else
              match rest2 with
              | EmptyString => s
              | String c3 rest3 => if is_space3 c1 c2 c3 then lstrip rest3 else s
              end
        end
  end.

Fixpoint rstrip (s : string) : string :=
  match s with
  | EmptyString => EmptyString
  | String c rest =>
      let kept := String c (rstrip rest) in
      if is_space_char kept then EmptyString else kept
  end.

(** [s.strip()]. *)
Definition strip (s : string) : string := rstrip (lstrip s).

(** [s.replace(c, '')] for a one-character [c]. *)
Fixpoint remove_char (c : ascii) (s : string) : string :=
  match s with
  | EmptyString => EmptyString
  | String d rest =>
      if Ascii.eqb c d then remove_char c rest else String d (remove_char c rest)
  end.

(** [random.choice(seq)] for a generator draw [draw]: the element at
    [randbelow(len(seq))]; [None] is the [IndexError] on an empty sequence. *)
Definition random_choice {A : Type} (draw : nat) (seq : list A) : option A :=
  match seq with
  | [] => None
  | _ => nth_error seq (draw mod List.length seq)%nat
  end.

(** [d[k] = v] on a dict kept in insertion order. *)
Fixpoint dict_set (k v : string) (d : list (string * string)) : list (string * string) :=
  match d with
  | [] => [(k, v)]
  | (k', v') :: rest =>
      if String.eqb k k' then (k, v) :: rest else (k', v') :: dict_set k v rest
  end.

End Py.

(** ** Configuration: the class attributes of [OracleConfig] *)

Record OracleConfig := {
  TARGET_URL : string;
  TARGET_ELEMENT_ID : string;
  INDEX_BASELINE : Q;
  MIN_FEE_RATE : Z;
  MAX_FEE_RATE : Z;
  DEFAULT_FEE_RATE : Z;
  SESSION_DURATION_HOURS : Z;
  MIN_DELAY : Z;
  MAX_DELAY : Z;
  MAX_RETRIES : nat;
  RETRY_DELAY : Z;
  RPC_URL : string;
  PRIVATE_KEY : string;
  CONTRACT_ADDRESS : string;
  CHAIN_ID : Z;
  GAS_LIMIT : Z;
  MAX_GAS_PRICE_GWEI : Z;
  BLOCKCHAIN_RETRY_COUNT : nat;
  BLOCKCHAIN_RETRY_DELAY : Z
}.

(** The values written in the source; the three environment-backed fields
    take the defaults [os.getenv] falls back to. *)
Definition source_config : OracleConfig := {|
  TARGET_URL := "https://example-financial-data.com/index";
  TARGET_ELEMENT_ID := "price-value";
  INDEX_BASELINE := 1500;
  MIN_FEE_RATE := 10;
  MAX_FEE_RATE := 100;
  DEFAULT_FEE_RATE := 50;
  SESSION_DURATION_HOURS := 168;
  MIN_DELAY := 3;
  MAX_DELAY := 8;
  MAX_RETRIES := 3;
  RETRY_DELAY := 60;
  RPC_URL := "https://eth-sepolia.g.alchemy.com/v2/YOUR_API_KEY";
  PRIVATE_KEY := "";
  CONTRACT_ADDRESS := "";
  CHAIN_ID := 11155111;
  GAS_LIMIT := 200000;
  MAX_GAS_PRICE_GWEI := 50;
  BLOCKCHAIN_RETRY_COUNT := 3;
  BLOCKCHAIN_RETRY_DELAY := 30
|}.

(** The two float/string conversions of the Python runtime the source
    relies on: [float(s)] ([None] when it raises [ValueError]) and
    [str(x)] of a float inside an f-string. *)
Record PyRuntime := {
  float_of_str : string -> option Q;
  str_of_float : Q -> string
}.

(** ** DynamicFeeCalculator *)

Module DynamicFeeCalculator.
Section WithConfig.
Variable cfg : OracleConfig.
Variable py : PyRuntime.
Local Open Scope Q_scope.

(** The body of the [try] block of [calculate_fee_rate]; [None] is a
    raised exception (the only operation that can raise is the
    division). *)
Definition calculate_fee_rate_try (index_value : Q) : option Z :=
  let baseline := INDEX_BASELINE cfg in
  let min_fee := MIN_FEE_RATE cfg in
  let max_fee := MAX_FEE_RATE cfg in
  if Qle_bool index_value 0 then Some (DEFAULT_FEE_RATE cfg)
  else if Qle_bool (baseline * 2) index_value then Some min_fee
  else if Qle_bool index_value (baseline * (33 # 100)) then Some max_fee
  else
    let lower_bound := baseline * (33 # 100) in
    let upper_bound := baseline * 2 in
    match Py.div ((index_value - lower_bound) * inject_Z (max_fee - min_fee)%Z)
                 (upper_bound - lower_bound) with
    | None => None
    | Some quotient =>
        let fee_rate := inject_Z max_fee - quotient in
        let fee_rate := Py.max (inject_Z min_fee) (Py.min (inject_Z max_fee) fee_rate) in
        let fee_rate_int := Py.round fee_rate in
        let fee_rate_int := if (fee_rate_int <? min_fee)%Z then min_fee else fee_rate_int in
        let fee_rate_int := if (fee_rate_int >? max_fee)%Z then max_fee else fee_rate_int in
        Some fee_rate_int
    end.

(** [calculate_fee_rate]: the [except] clause maps any exception to the
    default rate. *)
Definition calculate_fee_rate (index_value : Q) : Z :=
  match calculate_fee_rate_try index_value with
  | Some fee => fee
  | None => DEFAULT_FEE_RATE cfg
  end.

(** The value of the local [fee_rate] right after the interpolation
    formula, before clamping and rounding. *)
Definition interpolated_fee (index_value : Q) : Q :=
  let lower_bound := INDEX_BASELINE cfg * (33 # 100) in
  let upper_bound := INDEX_BASELINE cfg * 2 in
  inject_Z (MAX_FEE_RATE cfg)
  - (index_value - lower_bound) * inject_Z (MAX_FEE_RATE cfg - MIN_FEE_RATE cfg)%Z
    / (upper_bound - lower_bound).

(** The local [trend] of [get_fee_explanation]. *)
Definition trend (index_value : Q) : string :=
  let baseline := INDEX_BASELINE cfg in
  if Qle_bool baseline index_value then
    if Qle_bool (baseline * (3 # 2)) index_value
    then "INDEX VERY HIGH -> Market excellent -> Min fee"
    else "INDEX HIGH -> Market good -> Low fee"
  else
    if Qle_bool index_value (baseline * (1 # 2))
    then "INDEX VERY LOW -> Market stressed -> Max fee"
    else "INDEX LOW -> Market weak -> High fee".

(** [get_fee_explanation]: the trend followed by the formatted values. *)
Definition get_fee_explanation (index_value : Q) (fee_rate : Z) : string :=
  (trend index_value
     ++ " | Index: " ++ str_of_float py index_value
     ++ " | Fee: " ++ Py.format_2f (inject_Z fee_rate / 100)%Q
     ++ "% (" ++ Py.str_int fee_rate ++ " bp)")%string.

End WithConfig.
End DynamicFeeCalculator.

(** ** The fee transform on IEEE doubles *)

Module Binary64.

(** The rational a finite double denotes; [None] for NaN and the
    infinities. *)
Definition to_Q (x : float) : option Q :=
  match Prim2SF x with
  | S754_zero _ => Some 0%Q
  | S754_finite negative m e =>
      let magnitude :=
        match e with
        | Z0 => inject_Z (Z.pos m)
        | Zpos k => inject_Z (Z.pos m * 2 ^ Z.pos k)
        | Zneg k => Z.pos m # (2 ^ k)
        end in
      Some (if negative then (- magnitude)%Q else magnitude)
  | S754_infinity _ | S754_nan => None
  end.

(** [round(x)]: raises on NaN and on the infinities. *)
Definition round (x : float) : option Z := option_map Py.round (to_Q x).

Definition min (a b : float) : float := if PrimFloat.ltb b a then b else a.

Definition max (a b : float) : float := if PrimFloat.ltb a b then b else a.

(** The double that the literal [0.33] denotes. *)
Definition lower_factor : float := 0x1.51eb851eb851fp-2%float.

(** The [try] block of [calculate_fee_rate] with [INDEX_BASELINE = 1500.0],
    [MIN_FEE_RATE = 10], [MAX_FEE_RATE = 100] and [DEFAULT_FEE_RATE = 50];
    an int that meets a float in an operation is converted first. *)
Definition calculate_fee_rate_try (index_value : float) : option Z :=
  let baseline := 1500%float in
  let min_fee := 10 in
  let max_fee := 100 in
  if PrimFloat.leb index_value 0 then Some 50
  else if PrimFloat.leb (baseline * 2) index_value then Some min_fee
  else if PrimFloat.leb index_value (baseline * lower_factor) then Some max_fee
  else
    let lower_bound := (baseline * lower_factor)%float in
    let upper_bound := (baseline * 2)%float in
    let fee_rate :=
      (100 - (index_value - lower_bound) * 90 / (upper_bound - lower_bound))%float in
    let fee_rate := max 10 (min 100 fee_rate) in
    match round fee_rate with
    | None => None
    | Some fee_rate_int =>
        let fee_rate_int := if fee_rate_int <? min_fee then min_fee else fee_rate_int in
        let fee_rate_int := if fee_rate_int >? max_fee then max_fee else fee_rate_int in
        Some fee_rate_int
    end.

Definition calculate_fee_rate (index_value : float) : Z :=
  match calculate_fee_rate_try index_value with
  | Some fee => fee
  | None => 50
  end.

End Binary64.

(** ** Data of the running process *)

(** A [requests.Session], identified by the header set the source installs
    on it with [headers.update]. *)
Record Session := { headers : list (string * string) }.

(** The dict handed to [build_transaction], with the two call arguments of
    [updateDynamicFeeRate]. *)
Record Transaction := {
  newFeeRate : Z;
  indexValue : Z;
  tx_from : string;
  tx_gas : Z;
  tx_gasPrice : Z;
  tx_nonce : Z;
  tx_chainId : Z
}.

Record Receipt := { status : Z; blockNumber : Z; gasUsed : Z }.

(** The dict [data_record] of [run_oracle_update]; [timestamp] is the
    instant whose [isoformat()] the source stores. *)
Record DataRecord := {
  timestamp : Z;
  index_value : Q;
  index_text : string;
  fee_rate_bp : Z;
  fee_rate_percent : Q;
  fee_explanation : string;
  extraction_method : string;
  session_age_minutes : Q;
  blockchain_tx_hash : string;
  blockchain_status : string
}.

Inductive level := INFO | WARNING | ERROR.

(** What the process does to the outside world, in order.  A [Log] carries
    the fixed part of the message.  Console [print]s are not recorded, nor
    are the log lines of [DynamicFeeCalculator], whose two methods are pure
    functions here. *)
Inductive event :=
| Log (l : level) (message : string)
| Sleep (seconds : Q)
| HttpGet (url : string) (request_headers : list (string * string)) (timeout : Z)
| RpcIsConnected (rpc_url : string)
| RpcGasPrice
| RpcGetTransactionCount (address : string)
| BuildTransaction (tx : Transaction)
| SignTransaction (tx : Transaction)
| RpcSendRawTransaction (raw : string)
| RpcWaitForReceipt (tx_hash : string) (timeout : Z)
| SaveOracleData (r : DataRecord).

(** The exceptions the modelled code can see. *)
Inductive exn :=
| IndexError
| KeyError
| AttributeError
| ConnectionError
| HTTPError (status_code : Z)
| ElementNotFound
| ValueError
| Web3Error
| DisplayError.

(** The mutable attributes of the objects an [IndexOracleSystem] owns:
    [extractor.anti_detection.current_session] and [.session_start_time],
    [blockchain_bridge.enabled] and [.account] (its address), and the
    effects performed so far. *)
Record Process := {
  current_session : option Session;
  session_start_time : option Z;
  enabled : bool;
  account : option string;
  trace : list event
}.

Definition set_session (s : option Session) (p : Process) : Process :=
  {| current_session := s; session_start_time := session_start_time p;
     enabled := enabled p; account := account p; trace := trace p |}.

Definition set_session_start_time (t : option Z) (p : Process) : Process :=
  {| current_session := current_session p; session_start_time := t;
     enabled := enabled p; account := account p; trace := trace p |}.

Definition set_enabled (b : bool) (p : Process) : Process :=
  {| current_session := current_session p; session_start_time := session_start_time p;
     enabled := b; account := account p; trace := trace p |}.

Definition set_account (a : option string) (p : Process) : Process :=
  {| current_session := current_session p; session_start_time := session_start_time p;
     enabled := enabled p; account := a; trace := trace p |}.

Definition add_event (e : event) (p : Process) : Process :=
  {| current_session := current_session p; session_start_time := session_start_time p;
     enabled := enabled p; account := account p; trace := trace p ++ [e] |}.

(** ** Computations: process state and exceptions *)

Inductive Result (A : Type) :=
| Ok (a : A)
| Raised (e : exn).
Arguments Ok {A} a.
Arguments Raised {A} e.

Definition M (A : Type) : Type := Process -> Result A * Process.

Definition ret {A : Type} (a : A) : M A := fun p => (Ok a, p).

Definition raise {A : Type} (e : exn) : M A := fun p => (Raised e, p).

Definition bind {A B : Type} (c : M A) (k : A -> M B) : M B :=
  fun p => match c p with
           | (Ok a, p') => k a p'
           | (Raised e, p') => (Raised e, p')
           end.

(** [try: c  except Exception as e: handler e]. *)
Definition try_except {A : Type} (c : M A) (handler : exn -> M A) : M A :=
  fun p => match c p with
           | (Ok a, p') => (Ok a, p')
           | (Raised e, p') => handler e p'
           end.

Definition get {A : Type} (field : Process -> A) : M A := fun p => (Ok (field p), p).

Definition modify (f : Process -> Process) : M unit := fun p => (Ok tt, f p).

Definition emit (e : event) : M unit := modify (add_event e).

Definition log (l : level) (message : string) : M unit := emit (Log l message).

(** An external call whose answer the environment supplies; [None] means
    the call raises [e]. *)
Definition external {A : Type} (ev : event) (answer : option A) (e : exn) : M A :=
  fun p => match answer with
           | Some a => (Ok a, add_event ev p)
           | None => (Raised e, add_event ev p)
           end.

(** [for attempt in range(count)], from [attempt = start]: an iteration
    that answers [Some v] leaves the enclosing function with [return v];
    [None] moves on to the next one.  [None] at the end: the loop ran out. *)
Fixpoint for_range {A : Type} (body : nat -> M (option A)) (count start : nat)
  : M (option A) :=
  match count with
  | O => ret None
  | S count' =>
      fun p => match body start p with
               | (Ok (Some v), p') => (Ok (Some v), p')
               | (Ok None, p') => for_range body count' (S start) p'
               | (Raised e, p') => (Raised e, p')
               end
  end.

Declare Scope monad_scope.
Delimit Scope monad_scope with monad.
Notation "x <- c ;; k" := (bind c (fun x => k))
  (at level 61, c at next level, right associativity) : monad_scope.
Notation "c ;; k" := (bind c (fun _ => k))
  (at level 61, right associativity) : monad_scope.
Local Open Scope monad_scope.

(** ** Level5AntiDetection *)

Record BrowserCombination := {
  combo_name : string;
  weight : nat;
  agents : list string;
  combo_headers : list (string * string)
}.

(** What the clock and the random generator answer during one
    [get_session] call; the last three are consulted only when a session is
    created. *)
Record SessionEnv := {
  now : Z;
  combo_draw : nat;
  agent_draw : nat;
  created_at : Z
}.

Module Level5AntiDetection.
Local Open Scope string_scope.
Local Open Scope Z_scope.

Definition browser_combinations : list BrowserCombination := [
  {| combo_name := "chrome_windows"; weight := 45;
     agents := [
       "Mozilla/5.0 (Windows NT 10.0; Win64; x64) AppleWebKit/537.36 (KHTML, like Gecko) Chrome/120.0.0.0 Safari/537.36";
       "Mozilla/5.0 (Windows NT 10.0; Win64; x64) AppleWebKit/537.36 (KHTML, like Gecko) Chrome/119.0.0.0 Safari/537.36" ];
     combo_headers := [
       ("Accept", "text/html,application/xhtml+xml,application/xml;q=0.9,image/avif,image/webp,image/apng,*/*;q=0.8");
       ("Accept-Language", "en-US,en;q=0.9");
       ("Accept-Encoding", "gzip, deflate, br");
       ("DNT", "1");
       ("Connection", "keep-alive");
       ("Upgrade-Insecure-Requests", "1") ] |};
  {| combo_name := "safari_mac"; weight := 25;
     agents := [
       "Mozilla/5.0 (Macintosh; Intel Mac OS X 10_15_7) AppleWebKit/605.1.15 (KHTML, like Gecko) Version/17.1 Safari/605.1.15" ];
     combo_headers := [
       ("Accept", "text/html,application/xhtml+xml,application/xml;q=0.9,*/*;q=0.8");
       ("Accept-Language", "en-US,en;q=0.9");
       ("Accept-Encoding", "gzip, deflate, br");
       ("DNT", "1");
       ("Connection", "keep-alive") ] |};
  {| combo_name := "firefox_windows"; weight := 20;
     agents := [
       "Mozilla/5.0 (Windows NT 10.0; Win64; x64; rv:121.0) Gecko/20100101 Firefox/121.0" ];
     combo_headers := [
       ("Accept", "text/html,application/xhtml+xml,application/xml;q=0.9,image/avif,image/webp,*/*;q=0.8");
       ("Accept-Language", "en-US,en;q=0.5");
       ("Accept-Encoding", "gzip, deflate, br");
       ("DNT", "1");
       ("Connection", "keep-alive") ] |};
  {| combo_name := "edge_windows"; weight := 10;
     agents := [
       "Mozilla/5.0 (Windows NT 10.0; Win64; x64) AppleWebKit/537.36 (KHTML, like Gecko) Chrome/120.0.0.0 Safari/537.36 Edg/120.0.0.0" ];
     combo_headers := [
       ("Accept", "text/html,application/xhtml+xml,application/xml;q=0.9,image/webp,image/apng,*/*;q=0.8");
       ("Accept-Language", "en-US,en;q=0.9");
       ("Accept-Encoding", "gzip, deflate, br");
       ("DNT", "1");
       ("Connection", "keep-alive") ] |} ].

(** [timedelta(hours=SESSION_DURATION_HOURS)], in microseconds. *)
Definition session_duration (cfg : OracleConfig) : Z :=
  SESSION_DURATION_HOURS cfg * 3600 * 1000000.

(** [_select_browser_combination]. *)
Definition _select_browser_combination (draw : nat) : M BrowserCombination :=
  let weighted_choices :=
    flat_map (fun combo => repeat (combo_name combo) (weight combo))
             browser_combinations in
  match Py.random_choice draw weighted_choices with
  | None => raise IndexError
  | Some selected_combo =>
      match find (fun combo => String.eqb (combo_name combo) selected_combo)
                 browser_combinations with
      | Some combo => ret combo
      | None => raise KeyError
      end
  end.

(** [_create_new_session]. *)
Definition _create_new_session (env : SessionEnv) : M unit :=
  browser_combo <- _select_browser_combination (combo_draw env) ;;
  modify (set_session (Some {| headers := [] |})) ;;
  match Py.random_choice (agent_draw env) (agents browser_combo) with
  | None => raise IndexError
  | Some user_agent =>
      let headers := Py.dict_set "User-Agent" user_agent (combo_headers browser_combo) in
      modify (set_session (Some {| headers := headers |})) ;;
      modify (set_session_start_time (Some (created_at env))) ;;
      log INFO "New session"
  end.

(** [get_session]. *)
Definition get_session (cfg : OracleConfig) (env : SessionEnv) : M (option Session) :=
  session <- get current_session ;;
  start <- get session_start_time ;;
  (match session, start with
   | Some _, Some session_start_time =>
       if now env - session_start_time >? session_duration cfg
       then log INFO "Creating new browser session..." ;; _create_new_session env
       else ret tt
   | _, _ => log INFO "Creating new browser session..." ;; _create_new_session env
   end) ;;
  get current_session.

(** [human_delay], for the generator's draw of [random.uniform]. *)
Definition human_delay (delay : Q) : M unit :=
  log INFO "Human delay" ;;
  emit (Sleep delay).

End Level5AntiDetection.

(** ** IndexExtractor *)

(** What the source answers to one [session.get]: no answer at all, or a
    status code with the text of the [td] element carrying the configured
    id, when the page has one. *)
Inductive HttpResult :=
| ConnectionFailed
| Response (status_code : Z) (element_text : option string).

(** The environment of one extraction attempt. *)
Record FetchAttempt := {
  delay_draw : Q;
  session_env : SessionEnv;
  http : HttpResult
}.

Module IndexExtractor.
Section WithConfig.
Variable cfg : OracleConfig.
Variable py : PyRuntime.
Local Open Scope string_scope.
Local Open Scope Z_scope.

(** The [try] block of one iteration of [extract_index_with_retry]. *)
Definition extract_attempt (env : FetchAttempt) : M (Q * string) :=
  log INFO "Index extraction attempt" ;;
  Level5AntiDetection.human_delay (delay_draw env) ;;
  session <- Level5AntiDetection.get_session cfg (session_env env) ;;
  log INFO "Requesting" ;;
  match session with
  | None => raise AttributeError
  | Some session =>
      emit (HttpGet (TARGET_URL cfg) (headers session) 30) ;;
      match http env with
      | ConnectionFailed => raise ConnectionError
      | Response status_code index_element =>
          (if (400 <=? status_code) && (status_code <? 600)
           then raise (HTTPError status_code) else ret tt) ;;
          match index_element with
          | None => raise ElementNotFound
          | Some element_text =>
              let index_text := Py.strip element_text in
              log INFO "Raw index text" ;;
              let index_clean :=
                Py.remove_char " "%char (Py.remove_char ","%char index_text) in
              match float_of_str py index_clean with
              | None => raise ValueError
              | Some index_value =>
                  log INFO "Index extracted" ;;
                  ret (index_value, index_text)
              end
          end
      end
  end.

(** One iteration: the [try] block and its [except] clause. *)
Definition extract_iteration (env : nat -> FetchAttempt) (attempt : nat)
  : M (option (Q * string)) :=
  try_except
    (result <- extract_attempt (env attempt) ;; ret (Some result))
    (fun e =>
       log ERROR "Attempt failed" ;;
       (if Z.of_nat attempt <? Z.of_nat (MAX_RETRIES cfg) - 1
        then log INFO "Waiting before retry..." ;;
             emit (Sleep (inject_Z (RETRY_DELAY cfg)))
        else ret tt) ;;
       ret None).

(** [extract_index_with_retry]. *)
Definition extract_index_with_retry (env : nat -> FetchAttempt)
  : M (option (Q * string)) :=
  result <- for_range (extract_iteration env) (MAX_RETRIES cfg) 0 ;;
  match result with
  | Some found => ret (Some found)
  | None => log ERROR "All index extraction attempts failed" ;; ret None
  end.

End WithConfig.
End IndexExtractor.

(** ** BlockchainBridge *)

(** What the bridge meets while it is constructed: whether [web3] could be
    imported, the answer of [is_connected], the address [Account.from_key]
    derives and the result of [to_checksum_address] ([None]: the call
    raises). *)
Record InitEnv := {
  WEB3_AVAILABLE : bool;
  is_connected : option bool;
  account_from_key : option string;
  checksum_address : option string
}.

(** What the node and the web3 library answer during one attempt of
    [send_fee_update], call by call ([None] or [false]: the call raises):
    [w3.eth.gas_price], the construction of the contract call
    [updateDynamicFeeRate(fee_rate, index_value_int)],
    [get_transaction_count], [build_transaction], [sign_transaction] (the
    raw transaction), [send_raw_transaction] (the hash in hexadecimal) and
    [wait_for_transaction_receipt]. *)
Record ChainAttempt := {
  gas_price : option Z;
  call_ok : bool;
  transaction_count : option Z;
  build_ok : bool;
  signed_raw : option string;
  sent_hash : option string;
  receipt : option Receipt
}.

Module BlockchainBridge.
Section WithConfig.
Variable cfg : OracleConfig.
Local Open Scope string_scope.
Local Open Scope Z_scope.

(** [w3.to_wei(n, 'gwei')]. *)
Definition to_wei_gwei (n : Z) : Z := n * 1000000000.

(** [_initialize_web3]. *)
Definition _initialize_web3 (env : InitEnv) : M unit :=
  try_except
    (if String.eqb (RPC_URL cfg) "" || Py.contains "YOUR_API_KEY" (RPC_URL cfg)
     then log WARNING "RPC_URL not configured - set RPC_URL environment variable"
     else if String.eqb (PRIVATE_KEY cfg) ""
     then log WARNING "ORACLE_PRIVATE_KEY not configured - blockchain updates disabled"
     else if String.eqb (CONTRACT_ADDRESS cfg) ""
     then log WARNING "TRANSFERGUARD_ADDRESS not configured - blockchain updates disabled"
     else
       connected <- external (RpcIsConnected (RPC_URL cfg)) (is_connected env)
                             ConnectionError ;;
       if negb connected
       then log ERROR "Cannot connect to blockchain RPC"
       else
         match account_from_key env with
         | None => raise ValueError
         | Some address =>
             modify (set_account (Some address)) ;;
             match checksum_address env with
             | None => raise ValueError
             | Some _ =>
                 modify (set_enabled true) ;;
                 log INFO "Blockchain bridge initialized" ;;
                 log INFO "   Oracle Address" ;;
                 log INFO "   Contract" ;;
                 log INFO "   Network"
             end
         end)
    (fun e =>
       log ERROR "Blockchain bridge initialization failed" ;;
       modify (set_enabled false)).

(** [__init__]. *)
Definition __init__ (env : InitEnv) : M unit :=
  modify (set_enabled false) ;;
  modify (set_account None) ;;
  if negb (WEB3_AVAILABLE env)
  then log WARNING "Web3 not available - blockchain updates disabled"
  else _initialize_web3 env.

(** The outer [try] block of one iteration of [send_fee_update]; its value
    is what the function returns from inside the loop. *)
Definition send_attempt (fee_rate : Z) (index_value : Q) (env : ChainAttempt)
  : M (option string) :=
  log INFO "Sending fee update to blockchain" ;;
  let index_value_int := Py.int index_value in
  gas_price <- external RpcGasPrice (gas_price env) Web3Error ;;
  let max_gas_price := to_wei_gwei (MAX_GAS_PRICE_GWEI cfg) in
  (if gas_price >? max_gas_price
   then log WARNING "Gas price too high" else ret tt) ;;
  (if call_ok env then ret tt else raise Web3Error) ;;
  account <- get account ;;
  match account with
  | None => raise AttributeError
  | Some address =>
      nonce <- external (RpcGetTransactionCount address) (transaction_count env)
                        Web3Error ;;
      let transaction := {|
        newFeeRate := fee_rate;
        indexValue := index_value_int;
        tx_from := address;
        tx_gas := GAS_LIMIT cfg;
        tx_gasPrice := Z.min gas_price max_gas_price;
        tx_nonce := nonce;
        tx_chainId := CHAIN_ID cfg |} in
      external (BuildTransaction transaction)
               (if build_ok env then Some tt else None) Web3Error ;;
      raw <- external (SignTransaction transaction) (signed_raw env) Web3Error ;;
      tx_hash_hex <- external (RpcSendRawTransaction raw) (sent_hash env) Web3Error ;;
      log INFO "Transaction sent" ;;
      try_except
        (receipt <- external (RpcWaitForReceipt tx_hash_hex 120) (receipt env)
                             Web3Error ;;
         if status receipt =? 1
         then log INFO "Transaction confirmed in block" ;;
              log INFO "   Gas used" ;;
              ret (Some tx_hash_hex)
         else log ERROR "Transaction failed" ;;
              ret None)
        (fun receipt_error =>
           log WARNING "Could not get receipt" ;;
           ret (Some tx_hash_hex))
  end.

(** One iteration: the outer [try] block and its [except] clause. *)
Definition send_iteration (fee_rate : Z) (index_value : Q)
           (env : nat -> ChainAttempt) (attempt : nat)
  : M (option (option string)) :=
  try_except
    (returned <- send_attempt fee_rate index_value (env attempt) ;;
     ret (Some returned))
    (fun e =>
       log ERROR "Blockchain update attempt failed" ;;
       (if Z.of_nat attempt <? Z.of_nat (BLOCKCHAIN_RETRY_COUNT cfg) - 1
        then log INFO "Waiting before retry..." ;;
             emit (Sleep (inject_Z (BLOCKCHAIN_RETRY_DELAY cfg)))
        else ret tt) ;;
       ret None).

(** [send_fee_update]. *)
Definition send_fee_update (fee_rate : Z) (index_value : Q)
           (env : nat -> ChainAttempt) : M (option string) :=
  enabled <- get enabled ;;
  if negb enabled
  then log WARNING "Blockchain bridge not enabled - skipping contract update" ;;
       ret None
  else
    returned <- for_range (send_iteration fee_rate index_value env)
                          (BLOCKCHAIN_RETRY_COUNT cfg) 0 ;;
    match returned with
    | Some tx_hash => ret tx_hash
    | None => log ERROR "All blockchain update attempts failed" ;; ret None
    end.

End WithConfig.
End BlockchainBridge.

(** ** IndexOracleSystem *)

(** The environment of one pipeline run: the answers met by the extraction
    attempts and by the ledger attempts, the two clock readings taken for
    the session age and for the record, whether the storage manager managed
    to write, and whether showing the recent history went through. *)
Record RunEnv := {
  fetch_env : nat -> FetchAttempt;
  chain_env : nat -> ChainAttempt;
  age_now : Z;
  record_now : Z;
  save_ok : bool;
  display_ok : bool
}.

Module DataStorageManager.
Local Open Scope string_scope.
Local Open Scope Z_scope.

(** [save_oracle_data]: the record is handed to the two writers; a
    failure of theirs is logged and goes no further. *)
Definition save_oracle_data (data_record : DataRecord) (save_ok : bool) : M unit :=
  emit (SaveOracleData data_record) ;;
  if save_ok then log INFO "Oracle data saved successfully"
  else log ERROR "Data save error".

End DataStorageManager.

Module IndexOracleSystem.
Section WithConfig.
Variable cfg : OracleConfig.
Variable py : PyRuntime.
Local Open Scope string_scope.
Local Open Scope Z_scope.

(** The attributes a new [IndexOracleSystem] starts from, before its
    bridge is constructed. *)
Definition initial : Process := {|
  current_session := None;
  session_start_time := None;
  enabled := false;
  account := None;
  trace := [] |}.

Definition __init__ (env : InitEnv) : M unit := BlockchainBridge.__init__ cfg env.

(** The dict literal [data_record] of [run_oracle_update], for the values
    of the locals it reads. *)
Definition data_record (timestamp : Z) (index_value : Q) (index_text : string)
           (fee_rate : Z) (fee_explanation : string) (session_age : Q)
           (blockchain_tx_hash : option string) (blockchain_status : string)
  : DataRecord := {|
  timestamp := timestamp;
  index_value := index_value;
  index_text := index_text;
  fee_rate_bp := fee_rate;
  fee_rate_percent := (inject_Z fee_rate / 100)%Q;
  fee_explanation := fee_explanation;
  extraction_method := "Level5_Oracle_Production_Blockchain";
  session_age_minutes := session_age;
  blockchain_tx_hash := Py.or_empty blockchain_tx_hash;
  blockchain_status := blockchain_status |}.

(** [run_oracle_update]. *)
Definition run_oracle_update (env : RunEnv) : M bool :=
  log INFO "=== INDEX ORACLE UPDATE STARTED ===" ;;
  try_except
    (result <- IndexExtractor.extract_index_with_retry cfg py (fetch_env env) ;;
     match result with
     | None => log ERROR "Index extraction failed completely" ;; ret false
     | Some (index_value, index_text) =>
         let fee_rate := DynamicFeeCalculator.calculate_fee_rate cfg index_value in
         let fee_explanation :=
           DynamicFeeCalculator.get_fee_explanation cfg py index_value fee_rate in
         bridge_enabled <- get enabled ;;
         sent <- (if bridge_enabled
                  then
                    blockchain_tx_hash <-
                      BlockchainBridge.send_fee_update cfg fee_rate index_value
                                                       (chain_env env) ;;
                    if Py.truthy blockchain_tx_hash
                    then ret (blockchain_tx_hash, "success")
                    else ret (blockchain_tx_hash, "failed")
                  else ret (None, "disabled")) ;;
         let '(blockchain_tx_hash, blockchain_status) := sent in
         session_start_time <- get session_start_time ;;
         let session_age :=
           match session_start_time with
           | Some started => (inject_Z (age_now env - started) / 1000000 / 60)%Q
           | None => 0%Q
           end in
         let data_record :=
           data_record (record_now env) index_value index_text fee_rate
                       fee_explanation session_age blockchain_tx_hash
                       blockchain_status in
         DataStorageManager.save_oracle_data data_record (save_ok env) ;;
         (if display_ok env then ret tt else raise DisplayError) ;;
         log INFO "Oracle update completed successfully" ;;
         ret true
     end)
    (fun e => log ERROR "Oracle update error" ;; ret false).

End WithConfig.
End IndexOracleSystem.

(** ** Vocabulary of the statements *)

(** *** The fee transform *)

(** The two boundary checks that end [calculate_fee_rate], on an integer. *)
Definition enforce_boundaries (cfg : OracleConfig) (fee_rate_int : Z) : Z :=
  let fee_rate_int :=
    if fee_rate_int <? MIN_FEE_RATE cfg then MIN_FEE_RATE cfg else fee_rate_int in
  if fee_rate_int >? MAX_FEE_RATE cfg then MAX_FEE_RATE cfg else fee_rate_int.

(** Strictly inside the interpolation band. *)
Definition in_band (cfg : OracleConfig) (x : Q) : Prop :=
  (INDEX_BASELINE cfg * (33 # 100) < x /\ x < INDEX_BASELINE cfg * 2)%Q.

(** *** Doubles, their values and their rounding *)

(** The rational [m * 2^e]. *)
Definition scaled (m e : Z) : Q := (inject_Z m * 2 ^ e)%Q.

(** Where [x] lies between [m * 2^e] and [(m + 1) * 2^e]. *)
Definition located (m e : Z) (l : location) (x : Q) : Prop :=
  match l with
  | loc_Exact => (x == scaled m e)%Q
  | loc_Inexact c =>
      (scaled m e < x /\ x < scaled (m + 1) e
       /\ Qcompare (2 * x) (scaled (2 * m + 1) e) = c)%Q
  end.

(** The rational a double denotes, on its specification. *)
Definition SFvalue (x : spec_float) : option Q :=
  match x with
  | S754_zero _ => Some 0%Q
  | S754_finite s m e => Some (if s then (- scaled (Z.pos m) e)%Q else scaled (Z.pos m) e)
  | _ => None
  end.

(** The mantissa and exponent [binary_round_aux] rounds to, before it
    normalises them. *)
Definition rounded (m e : Z) (l : location) : Z * Z :=
  let '(mrs, e') := shr_fexp 53 1024 m e l in
  (round_nearest_even (shr_m mrs) (loc_of_shr_record mrs), e').

(** A double that is zero or positive and finite. *)
Definition SFnot_negative (x : spec_float) : Prop :=
  match x with
  | S754_zero _ => True
  | S754_finite s _ _ => s = false
  | _ => False
  end.

(** [r] is what rounding the positive number [x] to the format gives. *)
Definition rounds_to (x : Q) (r : spec_float) : Prop :=
  exists p e l,
    located (Z.pos p) e l x
    /\ e <= fexp 53 1024 (Z.pos (digits2_pos p) + e)
    /\ r = binary_round_aux 53 1024 false (Z.pos p) e l.

(** A double that is positive and finite. *)
Definition positive_finite (x : float) (v : Q) : Prop :=
  exists m e, Prim2SF x = S754_finite false m e /\ (v == scaled (Z.pos m) e)%Q.


(** *** Reading the trace *)

Definition is_http_get (e : event) : bool :=
  match e with
  | HttpGet _ _ _ => true
  | _ => false
  end.

(** The calls made to the node and to the signing library. *)
Definition is_ledger_call (e : event) : bool :=
  match e with
  | RpcIsConnected _ | RpcGasPrice | RpcGetTransactionCount _
  | BuildTransaction _ | SignTransaction _
  | RpcSendRawTransaction _ | RpcWaitForReceipt _ _ => true
  | _ => false
  end.

(** The effects an extraction can have, and those a commit can have. *)
Definition is_fetch_effect (e : event) : bool :=
  match e with
  | Log _ _ | Sleep _ | HttpGet _ _ _ => true
  | _ => false
  end.

Definition is_commit_effect (e : event) : bool :=
  match e with
  | Log _ _ | Sleep _ => true
  | _ => is_ledger_call e
  end.

(** The number of requests sent to the source, the ledger calls made, the
    records handed to the storage manager. *)
Definition http_gets (events : list event) : nat :=
  List.length (filter is_http_get events).

Definition ledger_calls (events : list event) : list event :=
  filter is_ledger_call events.

Definition saved_records (events : list event) : list DataRecord :=
  flat_map (fun e => match e with SaveOracleData r => [r] | _ => [] end) events.

(** *** How a computation moves the process *)

(** A computation that may raise but moves the process only along [R]. *)
Definition respects (R : Process -> Process -> Prop) {A : Type} (c : M A) : Prop :=
  forall p, R p (snd (c p)).

(** A computation that never raises and moves the process along [R]. *)
Definition safe (R : Process -> Process -> Prop) {A : Type} (c : M A) : Prop :=
  forall p, exists a p', c p = (Ok a, p') /\ R p p'.

Inductive attribute := CurrentSession | SessionStartTime | Enabled | Account.

Definition same_attribute (a : attribute) (p p' : Process) : Prop :=
  match a with
  | CurrentSession => current_session p' = current_session p
  | SessionStartTime => session_start_time p' = session_start_time p
  | Enabled => enabled p' = enabled p
  | Account => account p' = account p
  end.

(** From [p] to [p'] the process only performed further effects, all of
    them accepted by [allowed], and kept every attribute listed in
    [frozen]. *)
Definition moved (allowed : event -> bool) (frozen : list attribute)
           (p p' : Process) : Prop :=
  (exists performed,
      trace p' = trace p ++ performed /\ forallb allowed performed = true)
  /\ Forall (fun a => same_attribute a p p') frozen.

Definition fetch_frame : Process -> Process -> Prop :=
  moved is_fetch_effect [Enabled; Account].

Definition commit_frame : Process -> Process -> Prop :=
  moved is_commit_effect [CurrentSession; SessionStartTime; Enabled; Account].

(** The process leaves the number of requests sent so far as it is. *)
Definition same_http_gets (p p' : Process) : Prop :=
  http_gets (trace p') = http_gets (trace p).

(** *** Sessions *)

(** The identity [_create_new_session] builds from a combination and one
    of its agents, and the process once [get_session] has stored it. *)
Definition new_identity (combo : BrowserCombination) (user_agent : string) : Session :=
  {| headers := Py.dict_set "User-Agent" user_agent (combo_headers combo) |}.

Definition rotated (env : SessionEnv) (identity : Session) (p : Process) : Process :=
  add_event (Log INFO "New session")
    (set_session_start_time (Some (created_at env))
       (set_session (Some identity)
          (add_event (Log INFO "Creating new browser session...") p))).

(** The list [weighted_choices] of [_select_browser_combination], and the
    names in it that lead to a combination with at least one agent. *)
Definition weighted_choices : list string :=
  flat_map (fun combo => repeat (combo_name combo) (weight combo))
           Level5AntiDetection.browser_combinations.

Definition usable (name : string) : bool :=
  match find (fun combo => String.eqb (combo_name combo) name)
             Level5AntiDetection.browser_combinations with
  | Some combo => match agents combo with [] => false | _ => true end
  | None => false
  end.

(** *** Attempts, seen from the environment *)

(** What one answer of the source is worth to an extraction attempt: the
    value and text the attempt returns, or [None] when it raises. *)
Definition attempt_value (py : PyRuntime) (answer : HttpResult) : option (Q * string) :=
  match answer with
  | ConnectionFailed => None
  | Response status_code index_element =>
      if (400 <=? status_code) && (status_code <? 600) then None
      else match index_element with
           | None => None
           | Some element_text =>
               let index_text := Py.strip element_text in
               match float_of_str py
                       (Py.remove_char " "%char (Py.remove_char ","%char index_text)) with
               | None => None
               | Some index_value => Some (index_value, index_text)
               end
           end
  end.

(** The hash one ledger attempt submits: every call up to and including
    [send_raw_transaction] answers. *)
Definition submitted (a : ChainAttempt) : option string :=
  match gas_price a, transaction_count a, signed_raw a, sent_hash a with
  | Some _, Some _, Some _, Some tx_hash =>
      if call_ok a && build_ok a then Some tx_hash else None
  | _, _, _, _ => None
  end.

(** What one ledger attempt makes [send_fee_update] return; the outer
    [None] is an attempt that raises and leaves the loop running. *)
Definition attempt_return (a : ChainAttempt) : option (option string) :=
  match submitted a with
  | None => None
  | Some tx_hash =>
      match receipt a with
      | None => Some (Some tx_hash)
      | Some r => if status r =? 1 then Some (Some tx_hash) else Some None
      end
  end.

(** *** One pipeline run *)

(** The process right after the first log line of [run_oracle_update]. *)
Definition started (p : Process) : Process :=
  add_event (Log INFO "=== INDEX ORACLE UPDATE STARTED ===") p.

(** Step 5 of [run_oracle_update]: the age of the session in minutes. *)
Definition session_age (age_now : Z) (p : Process) : Q :=
  match session_start_time p with
  | Some started => (inject_Z (age_now - started) / 1000000 / 60)%Q
  | None => 0%Q
  end.

(** Step 4, as a relation: from [p1] the commit step ends in [p2] with the
    locals [blockchain_tx_hash] and [blockchain_status] set to [tx] and
    [status]. *)
Definition committed (cfg : OracleConfig) (env : RunEnv) (index_value : Q)
           (p1 : Process) (tx : option string) (status : string) (p2 : Process) : Prop :=
  if enabled p1
  then BlockchainBridge.send_fee_update cfg
         (DynamicFeeCalculator.calculate_fee_rate cfg index_value) index_value
         (chain_env env) p1 = (Ok tx, p2)
       /\ status = (if Py.truthy tx then "success" else "failed")%string
  else p2 = p1 /\ tx = None /\ status = "disabled"%string.

(** Step 6: the record built once the commit step has left the process
    at [p]. *)
Definition run_record (cfg : OracleConfig) (py : PyRuntime) (env : RunEnv)
           (index_value : Q) (index_text : string)
           (blockchain_tx_hash : option string) (blockchain_status : string)
           (p : Process) : DataRecord :=
  let fee_rate := DynamicFeeCalculator.calculate_fee_rate cfg index_value in
  IndexOracleSystem.data_record (record_now env) index_value index_text fee_rate
    (DynamicFeeCalculator.get_fee_explanation cfg py index_value fee_rate)
    (session_age (age_now env) p) blockchain_tx_hash blockchain_status.

(** Steps 6 and 7: the process once the record is handed over, the storage
    manager has answered and the history has been shown or has failed. *)
Definition reported (env : RunEnv) (r : DataRecord) (p : Process) : Process :=
  add_event (if display_ok env
             then Log INFO "Oracle update completed successfully"
             else Log ERROR "Oracle update error")
    (add_event (if save_ok env
                then Log INFO "Oracle data saved successfully"
                else Log ERROR "Data save error")
       (add_event (SaveOracleData r) p)).

(** ** Scenarios: concrete environments the statements are tried on *)

Module Scenario.
Local Open Scope string_scope.
Local Open Scope Z_scope.

Definition py : PyRuntime := {|
  float_of_str := fun s => if String.eqb s "1500.25" then Some (6001 # 4) else None;
  str_of_float := fun _ => "1500.25" |}.

Definition configured : OracleConfig := {|
  TARGET_URL := TARGET_URL source_config;
  TARGET_ELEMENT_ID := TARGET_ELEMENT_ID source_config;
  INDEX_BASELINE := INDEX_BASELINE source_config;
  MIN_FEE_RATE := MIN_FEE_RATE source_config;
  MAX_FEE_RATE := MAX_FEE_RATE source_config;
  DEFAULT_FEE_RATE := DEFAULT_FEE_RATE source_config;
  SESSION_DURATION_HOURS := SESSION_DURATION_HOURS source_config;
  MIN_DELAY := MIN_DELAY source_config;
  MAX_DELAY := MAX_DELAY source_config;
  MAX_RETRIES := MAX_RETRIES source_config;
  RETRY_DELAY := RETRY_DELAY source_config;
  RPC_URL := "https://rpc.example.org/v2/3f9c";
  PRIVATE_KEY := "0x4c0883a6";
  CONTRACT_ADDRESS := "0x5fbdb231";
  CHAIN_ID := CHAIN_ID source_config;
  GAS_LIMIT := GAS_LIMIT source_config;
  MAX_GAS_PRICE_GWEI := MAX_GAS_PRICE_GWEI source_config;
  BLOCKCHAIN_RETRY_COUNT := BLOCKCHAIN_RETRY_COUNT source_config;
  BLOCKCHAIN_RETRY_DELAY := BLOCKCHAIN_RETRY_DELAY source_config |}.

Definition node_up : InitEnv := {|
  WEB3_AVAILABLE := true;
  is_connected := Some true;
  account_from_key := Some "0x90f8bf6a";
  checksum_address := Some "0x5FbDB231" |}.

Definition bridge_ready : Process :=
  snd (BlockchainBridge.__init__ configured node_up IndexOracleSystem.initial).

Definition first_visit : SessionEnv := {|
  now := 1000000; combo_draw := 50; agent_draw := 0; created_at := 1000001 |}.

Definition page : FetchAttempt := {|
  delay_draw := 5; session_env := first_visit;
  http := Response 200 (Some " 1,500.25 ") |}.

(** The no-break space U+00A0, as its two UTF-8 bytes. *)
Definition nbsp : string := String (ascii_of_nat 194) (String (ascii_of_nat 160) EmptyString).

(** A page whose cell pads the number with no-break spaces. *)
Definition padded_page : FetchAttempt := {|
  delay_draw := 5; session_env := first_visit;
  http := Response 200 (Some (nbsp ++ "1,500.25" ++ nbsp)) |}.

Definition outage : FetchAttempt := {|
  delay_draw := 5; session_env := first_visit; http := ConnectionFailed |}.

Definition confirmed : ChainAttempt := {|
  gas_price := Some 80000000000;
  call_ok := true;
  transaction_count := Some 7;
  build_ok := true;
  signed_raw := Some "0xf8a9";
  sent_hash := Some "0x5e1f";
  receipt := Some {| status := 1; blockNumber := 4200000; gasUsed := 51234 |} |}.

Definition unconfirmed : ChainAttempt := {|
  gas_price := Some 80000000000;
  call_ok := true;
  transaction_count := Some 7;
  build_ok := true;
  signed_raw := Some "0xf8a9";
  sent_hash := Some "0x5e1f";
  receipt := None |}.

Definition run_env (fetch : FetchAttempt) (chain : ChainAttempt) : RunEnv := {|
  fetch_env := fun _ => fetch;
  chain_env := fun _ => chain;
  age_now := 61000001;
  record_now := 61000002;
  save_ok := true;
  display_ok := true |}.

(** A process holding an identity created at instant 0. *)
Definition week_old : Process := {|
  current_session := Some {| headers := [("User-Agent", "Mozilla/5.0")] |};
  session_start_time := Some 0;
  enabled := false;
  account := None;
  trace := [] |}.

(** A clock reading exactly 168 hours after instant 0. *)
Definition at_expiry : SessionEnv := {|
  now := 604800000000; combo_draw := 0; agent_draw := 0; created_at := 604800000001 |}.

Definition past_expiry : SessionEnv := {|
  now := 604800000001; combo_draw := 0; agent_draw := 0; created_at := 604800000002 |}.

End Scenario.

(** ** DataStorageManager on its two files *)

(** A value [csv.writer] writes in one field. *)
Inductive cell :=
| CellStr (s : string)
| CellInt (n : Z)
| CellFloat (x : Q)
| CellTime (instant : Z).

(** An element of the list kept in the JSON file: a record as this program
    dumps it, or any other JSON value. *)
Inductive JsonValue :=
| JsonRecord (r : DataRecord)
| JsonOther (text : string).

(** What [json.load] makes of the JSON file: it raises, or it returns a
    value that is not a list, or it returns a list. *)
Inductive JsonContent :=
| Unparsable
| NotAList
| Entries (entries : list JsonValue).

(** The two files ([None]: [os.path.exists] answers [False]) and the lines
    logged by the storage manager.  A CSV file is read as the rows it
    holds. *)
Record Storage := {
  csv_file : option (list (list cell));
  json_file : option JsonContent;
  storage_log : list (level * string)
}.

(** How opening a file and writing to it ends: it completes, or it raises
    and leaves the file in some state. *)
Inductive WriteResult (A : Type) :=
| Completes
| Breaks (left_behind : A).
Arguments Completes {A}.
Arguments Breaks {A} left_behind.

(** What the file system answers during one call: how writing the CSV file
    ends, whether the JSON file can be opened and read, how writing the
    JSON file ends. *)
Record StorageEnv := {
  csv_write : WriteResult (option (list (list cell)));
  json_read_ok : bool;
  json_write : WriteResult (option JsonContent)
}.

(** The exceptions of the storage manager: a file operation fails, or
    [json_data] has no [append]. *)
Inductive storage_exn := OSError | NoAppend.

Inductive Outcome :=
| Returns
| Raises (e : storage_exn).

Module DataStorageFiles.
Local Open Scope string_scope.
Local Open Scope list_scope.

Definition set_csv (content : option (list (list cell))) (s : Storage) : Storage :=
  {| csv_file := content; json_file := json_file s; storage_log := storage_log s |}.

Definition set_json (content : option JsonContent) (s : Storage) : Storage :=
  {| csv_file := csv_file s; json_file := content; storage_log := storage_log s |}.

Definition add_log (l : level) (message : string) (s : Storage) : Storage :=
  {| csv_file := csv_file s; json_file := json_file s;
     storage_log := storage_log s ++ [(l, message)] |}.

(** The list [headers] of [_initialize_csv]. *)
Definition headers : list cell :=
  map CellStr
      ["timestamp"; "index_value"; "index_text"; "fee_rate_bp"; "fee_rate_percent";
       "fee_explanation"; "extraction_method"; "session_age_minutes";
       "blockchain_tx_hash"; "blockchain_status"].

(** [_initialize_csv]. *)
Definition _initialize_csv (env : StorageEnv) (s : Storage) : Outcome * Storage :=
  match csv_file s with
  | Some _ => (Returns, s)
  | None =>
      match csv_write env with
      | Completes =>
          (Returns, add_log INFO "CSV file initialized" (set_csv (Some [headers]) s))
      | Breaks left_behind => (Raises OSError, set_csv left_behind s)
      end
  end.

(** The list [row] of [_save_to_csv]. *)
Definition row (data_record : DataRecord) : list cell :=
  [CellTime (timestamp data_record);
   CellFloat (index_value data_record);
   CellStr (index_text data_record);
   CellInt (fee_rate_bp data_record);
   CellFloat (fee_rate_percent data_record);
   CellStr (fee_explanation data_record);
   CellStr (extraction_method data_record);
   CellFloat (session_age_minutes data_record);
   CellStr (blockchain_tx_hash data_record);
   CellStr (blockchain_status data_record)].

(** [_save_to_csv]: the file is opened in mode ['a'], which creates it
    when it is missing. *)
Definition _save_to_csv (env : StorageEnv) (data_record : DataRecord) (s : Storage)
  : Outcome * Storage :=
  match csv_write env with
  | Completes =>
      let rows := match csv_file s with Some rows => rows | None => [] end in
      (Returns, set_csv (Some (rows ++ [row data_record])) s)
  | Breaks left_behind => (Raises OSError, set_csv left_behind s)
  end.

(** The value of [json_data] when [_save_to_json] reaches its [append];
    [None] is a value that is not a list.  The bare [except] maps every
    failure to open, read or parse the file to the empty list. *)
Definition loaded (env : StorageEnv) (s : Storage) : option (list JsonValue) :=
  match json_file s with
  | None => Some []
  | Some content =>
      if json_read_ok env
      then match content with
           | Unparsable => Some []
           | NotAList => None
           | Entries entries => Some entries
           end
      else Some []
  end.

(** [_save_to_json]. *)
Definition _save_to_json (env : StorageEnv) (data_record : DataRecord) (s : Storage)
  : Outcome * Storage :=
  match loaded env s with
  | None => (Raises NoAppend, s)
  | Some json_data =>
      match json_write env with
      | Completes =>
          (Returns, set_json (Some (Entries (json_data ++ [JsonRecord data_record]))) s)
      | Breaks left_behind => (Raises OSError, set_json left_behind s)
      end
  end.

(** [save_oracle_data]. *)
Definition save_oracle_data (env : StorageEnv) (data_record : DataRecord) (s : Storage)
  : Storage :=
  match _save_to_csv env data_record s with
  | (Raises e, s) => add_log ERROR "Data save error" s
  | (Returns, s) =>
      match _save_to_json env data_record s with
      | (Raises e, s) => add_log ERROR "Data save error" s
      | (Returns, s) => add_log INFO "Oracle data saved successfully" s
      end
  end.

End DataStorageFiles.

(** ** Vocabulary of the further statements *)

(** *** Identities *)

(** [d.get(k)] on a dict kept in insertion order. *)
Fixpoint dict_get (k : string) (d : list (string * string)) : option string :=
  match d with
  | [] => None
  | (k', v) :: rest => if String.eqb k k' then Some v else dict_get k rest
  end.

(** The name of the combination [_select_browser_combination] returns for
    a draw. *)
Definition selected_name (draw : nat) : option string :=
  match fst (Level5AntiDetection._select_browser_combination draw
               IndexOracleSystem.initial) with
  | Ok combo => Some (combo_name combo)
  | Raised _ => None
  end.

(** Among the draws [0 .. 99], those that select the combination [name]. *)
Definition draws_selecting (name : string) : list nat :=
  filter (fun draw => match selected_name draw with
                      | Some selected => String.eqb selected name
                      | None => false
                      end) (seq 0 100).

(** An identity built from a registered combination and one of its own
    agents. *)
Definition registered (s : Session) : Prop :=
  exists combo agent,
    In combo Level5AntiDetection.browser_combinations /\ In agent (agents combo)
    /\ s = new_identity combo agent.

(** The process holds no identity, or a registered one. *)
Definition holds_registered (p : Process) : Prop :=
  forall s, current_session p = Some s -> registered s.

(** *** Loops and what they cost *)

(** The iterations a [for_range] loop runs when iteration [k] answers
    [value k]: it stops after the first answer that is not [None]. *)
Fixpoint executed {A : Type} (value : nat -> option A) (count start : nat) : list nat :=
  match count with
  | O => []
  | S count' =>
      start :: match value start with
               | Some _ => []
               | None => executed value count' (S start)
               end
  end.

Definition count_events (f : event -> bool) (events : list event) : nat :=
  List.length (filter f events).

Definition is_sleep (e : event) : bool :=
  match e with Sleep _ => true | _ => false end.

Definition is_gas_price_read (e : event) : bool :=
  match e with RpcGasPrice => true | _ => false end.

Definition is_receipt_wait (e : event) : bool :=
  match e with RpcWaitForReceipt _ _ => true | _ => false end.

(** The number of retry waits an iteration adds: one after a failed
    attempt that is not the last. *)
Definition retry_wait {A : Type} (value : nat -> option A) (retries : nat) (k : nat) : nat :=
  match value k with
  | Some _ => 0
  | None => if Z.of_nat k <? Z.of_nat retries - 1 then 1 else 0
  end.

(** The number of receipt waits an iteration adds: one when the attempt
    gets as far as submitting. *)
Definition receipt_wait (env : nat -> ChainAttempt) (k : nat) : nat :=
  match attempt_return (env k) with
  | Some _ => 1
  | None => 0
  end.

(** *** What a computation performs *)

(** From [p] to [p'] the process performed [performed]. *)
Definition performs (p p' : Process) (performed : list event) : Prop :=
  trace p' = trace p ++ performed.

(** The requests among some events, as (url, headers, timeout). *)
Definition requests (events : list event) : list (string * list (string * string) * Z) :=
  flat_map (fun e => match e with
                     | HttpGet url request_headers timeout => [(url, request_headers, timeout)]
                     | _ => []
                     end) events.

(** The transactions handed to [build_transaction] or to
    [sign_transaction] among some events. *)
Definition transactions (events : list event) : list Transaction :=
  flat_map (fun e => match e with
                     | BuildTransaction tx | SignTransaction tx => [tx]
                     | _ => []
                     end) events.

(** A request as [extract_index_with_retry] sends it. *)
Definition source_request (cfg : OracleConfig)
           (request : string * list (string * string) * Z) : Prop :=
  let '(url, request_headers, timeout) := request in
  url = TARGET_URL cfg /\ timeout = 30
  /\ registered {| headers := request_headers |}.

(** A transaction as [send_fee_update] builds it for the rate [fee_rate],
    the index value [index_value] and the loaded account [sender]. *)
Definition fee_update (cfg : OracleConfig) (fee_rate : Z) (index_value : Q)
           (sender : option string) (tx : Transaction) : Prop :=
  newFeeRate tx = fee_rate
  /\ indexValue tx = Py.int index_value
  /\ sender = Some (tx_from tx)
  /\ tx_gas tx = GAS_LIMIT cfg
  /\ tx_gasPrice tx <= BlockchainBridge.to_wei_gwei (MAX_GAS_PRICE_GWEI cfg)
  /\ tx_chainId tx = CHAIN_ID cfg.

(** The relation along which the ledger writer moves the process: it keeps
    the bridge's flag and account, and every transaction it builds or
    signs is a fee update from the loaded account. *)
Definition builds_fee_updates (cfg : OracleConfig) (fee_rate : Z) (index_value : Q)
           (p p' : Process) : Prop :=
  account p' = account p /\ enabled p' = enabled p
  /\ exists performed,
      performs p p' performed
      /\ Forall (fee_update cfg fee_rate index_value (account p)) (transactions performed).

(** *** Constructing the bridge *)

(** The three parameter checks that open [_initialize_web3]. *)
Definition parameters_configured (cfg : OracleConfig) : bool :=
  negb (String.eqb (RPC_URL cfg) "" || Py.contains "YOUR_API_KEY" (RPC_URL cfg))
  && negb (String.eqb (PRIVATE_KEY cfg) "")
  && negb (String.eqb (CONTRACT_ADDRESS cfg) "").

(** The node answers that it is connected, the key yields an account and
    the contract address a checksum address. *)
Definition node_ready (env : InitEnv) : Prop :=
  WEB3_AVAILABLE env = true /\ is_connected env = Some true
  /\ account_from_key env <> None /\ checksum_address env <> None.

(** The effects that close a run: log lines and the record handed to the
    storage manager. *)
Definition is_closing_effect (e : event) : bool :=
  match e with
  | Log _ _ | SaveOracleData _ => true
  | _ => false
  end.

(** *** What a run records *)

(** A record as [run_oracle_update] builds it when the bridge is enabled
    or not: the value and text are those of the first extraction attempt
    that succeeds, the fee rate and its explanation are computed from that
    value, and the status tells what became of the commit. *)
Definition record_of_run (cfg : OracleConfig) (py : PyRuntime) (env : RunEnv)
           (bridge_enabled : bool) (r : DataRecord) : Prop :=
  timestamp r = record_now env
  /\ (exists k, (k < MAX_RETRIES cfg)%nat
                /\ attempt_value py (http (fetch_env env k))
                   = Some (index_value r, index_text r)
                /\ forall j, (j < k)%nat ->
                             attempt_value py (http (fetch_env env j)) = None)
  /\ fee_rate_bp r = DynamicFeeCalculator.calculate_fee_rate cfg (index_value r)
  /\ fee_rate_percent r = (inject_Z (fee_rate_bp r) / 100)%Q
  /\ fee_explanation r
     = DynamicFeeCalculator.get_fee_explanation cfg py (index_value r) (fee_rate_bp r)
  /\ extraction_method r = "Level5_Oracle_Production_Blockchain"%string
  /\ (blockchain_status r = "success"%string \/ blockchain_status r = "failed"%string
      \/ blockchain_status r = "disabled"%string)
  /\ (blockchain_status r = "success"%string <-> blockchain_tx_hash r <> ""%string)
  /\ (blockchain_status r = "disabled"%string <-> bridge_enabled = false).

(** *** The storage files *)

(** The two files hold the records [records], in order: the CSV file the
    header and one row per record, the JSON file one entry per record; the
    JSON file appears with the first record. *)
Definition in_step (records : list DataRecord) (s : Storage) : Prop :=
  csv_file s = Some (DataStorageFiles.headers :: map DataStorageFiles.row records)
  /\ json_file s = match records with
                   | [] => None
                   | _ => Some (Entries (map JsonRecord records))
                   end.

(** Every file operation of a call goes through. *)
Definition all_goes_through (env : StorageEnv) : Prop :=
  csv_write env = Completes /\ json_read_ok env = true /\ json_write env = Completes.

(** Whether a call of [save_oracle_data] ends with its success line. *)
Definition saves (env : StorageEnv) (s : Storage) : bool :=
  match csv_write env, DataStorageFiles.loaded env s, json_write env with
  | Completes, Some _, Completes => true
  | _, _, _ => false
  end.

(** *** Doubles *)

(** The double of a whole index value. *)
Definition whole_index (n : Z) : float := PrimFloat.of_uint63 (Uint63.of_Z n).

(** The integers [from], [from + 1], ... , [count] of them. *)
Fixpoint upto (count : nat) (from : Z) : list Z :=
  match count with
  | O => []
  | S count' => from :: upto count' (from + 1)
  end.

(** ** Scenarios for the storage files *)

Module StorageScenario.
Local Open Scope string_scope.

(** A first start: neither file exists. *)
Definition first_start : Storage :=
  {| csv_file := None; json_file := None; storage_log := [] |}.

(** Every file operation goes through. *)
Definition disk_ok : StorageEnv :=
  {| csv_write := Completes; json_read_ok := true; json_write := Completes |}.

(** The CSV file cannot be written. *)
Definition disk_full : StorageEnv :=
  {| csv_write := Breaks None; json_read_ok := true; json_write := Completes |}.

(** A backup truncated by an earlier crash. *)
Definition truncated_backup : Storage :=
  {| csv_file := Some [DataStorageFiles.headers];
     json_file := Some Unparsable;
     storage_log := [] |}.

Definition record : DataRecord :=
  IndexOracleSystem.data_record 61000002 (6001 # 4) "1,500.25" 64
    "INDEX HIGH -> Market good -> Low fee | Index: 1500.25 | Fee: 0.64% (64 bp)"
    1 (Some "0x5e1f") "success".

End StorageScenario.

(** * Properties *)

(** ** The fee transform *)

Section FeeTransform.
Local Open Scope Q_scope.

Lemma Qle_bool_false a b : Qle_bool a b = false <-> b < a.
Proof.
  split; intro H.
  - apply Qnot_le_lt. intro L. apply Qle_bool_iff in L. congruence.
  - destruct (Qle_bool a b) eqn:E; [|reflexivity].
    apply Qle_bool_iff in E. lra.
Qed.

Lemma Qltb_true a b : Py.Qltb a b = true <-> a < b.
Proof. unfold Py.Qltb. rewrite negb_true_iff. apply Qle_bool_false. Qed.

Lemma Qltb_false a b : Py.Qltb a b = false <-> b <= a.
Proof. unfold Py.Qltb. rewrite negb_false_iff. apply Qle_bool_iff. Qed.

Ltac qltb_cases :=
  repeat match goal with
         | |- context [Py.Qltb ?a ?b] =>
             let E := fresh "E" in
             destruct (Py.Qltb a b) eqn:E;
             [apply Qltb_true in E | apply Qltb_false in E]
         end.

Lemma min_mono a x y : x <= y -> Py.min a x <= Py.min a y.
Proof. intro H. unfold Py.min. qltb_cases; lra. Qed.

Lemma max_mono a x y : x <= y -> Py.max a x <= Py.max a y.
Proof. intro H. unfold Py.max. qltb_cases; lra. Qed.

(** Rounding to the nearest integer never reverses an order. *)
Lemma round_mono x y : x <= y -> (Py.round x <= Py.round y)%Z.
Proof.
  intro H. unfold Py.round.
  pose proof (Qfloor_resp_le _ _ H) as Hf.
  pose proof (Qfloor_le x). pose proof (Qlt_floor x).
  pose proof (Qfloor_le y). pose proof (Qlt_floor y).
  destruct (Z.eq_dec (Qfloor x) (Qfloor y)) as [E|N].
  - rewrite E in *.
    destruct (Qcompare_spec (x - inject_Z (Qfloor y)) (1#2));
      destruct (Qcompare_spec (y - inject_Z (Qfloor y)) (1#2));
      try destruct (Z.even (Qfloor y)); try lia; try lra.
  - assert (Qfloor x + 1 <= Qfloor y)%Z by lia.
    destruct (Qcompare (x - _) _); destruct (Qcompare (y - _) _);
      try destruct (Z.even (Qfloor x)); try destruct (Z.even (Qfloor y)); lia.
Qed.

Section WithConfig.
Variable cfg : OracleConfig.
Local Abbreviation lo := (MIN_FEE_RATE cfg).
Local Abbreviation hi := (MAX_FEE_RATE cfg).
Local Abbreviation base := (INDEX_BASELINE cfg).
Local Abbreviation fee := (DynamicFeeCalculator.calculate_fee_rate cfg).
Local Abbreviation interpolated := (DynamicFeeCalculator.interpolated_fee cfg).

Lemma enforce_bounds r :
  (lo <= hi)%Z -> (lo <= enforce_boundaries cfg r <= hi)%Z.
Proof.
  intro H. unfold enforce_boundaries.
  destruct (Z.ltb_spec r lo);
    [destruct (Z.gtb_spec lo hi) | destruct (Z.gtb_spec r hi)]; lia.
Qed.

Lemma enforce_mono r s :
  (r <= s)%Z -> (enforce_boundaries cfg r <= enforce_boundaries cfg s)%Z.
Proof.
  intro H. unfold enforce_boundaries.
  destruct (Z.ltb_spec r lo); destruct (Z.ltb_spec s lo);
    repeat match goal with
           | |- context [(?a >? ?b)%Z] => destruct (Z.gtb_spec a b)
           end; lia.
Qed.

(** Inside the band the division has a non-zero divisor, so the [try]
    block runs to its last line. *)
Lemma try_in_band x :
  0 < base -> in_band cfg x ->
  DynamicFeeCalculator.calculate_fee_rate_try cfg x
  = Some (enforce_boundaries cfg
            (Py.round (Py.max (inject_Z lo) (Py.min (inject_Z hi) (interpolated x))))).
Proof.
  intros Hb [Hl Hu]. unfold DynamicFeeCalculator.calculate_fee_rate_try.
  assert (Qle_bool x 0 = false) as -> by (apply Qle_bool_false; lra).
  assert (Qle_bool (base * 2) x = false) as -> by (apply Qle_bool_false; lra).
  assert (Qle_bool x (base * (33#100)) = false) as -> by (apply Qle_bool_false; lra).
  unfold Py.div.
  destruct (Qeq_bool (base * 2 - base * (33#100)) 0) eqn:E.
  - apply Qeq_bool_iff in E. lra.
  - reflexivity.
Qed.

Lemma fee_in_band x :
  0 < base -> in_band cfg x ->
  fee x = enforce_boundaries cfg
            (Py.round (Py.max (inject_Z lo) (Py.min (inject_Z hi) (interpolated x)))).
Proof.
  intros Hb Hband. unfold DynamicFeeCalculator.calculate_fee_rate.
  rewrite try_in_band by assumption. reflexivity.
Qed.

Lemma interpolated_mono a b :
  (lo <= hi)%Z -> 0 < base -> a <= b -> interpolated b <= interpolated a.
Proof.
  intros Hlh Hb Hab. unfold DynamicFeeCalculator.interpolated_fee.
  assert (0 <= inject_Z (hi - lo)) as Hk.
  { change 0 with (inject_Z 0). rewrite <- Zle_Qle. lia. }
  assert (0 < base * 2 - base * (33#100)) as Hd by lra.
  assert ((a - base * (33#100)) * inject_Z (hi - lo) / (base * 2 - base * (33#100))
          <= (b - base * (33#100)) * inject_Z (hi - lo) / (base * 2 - base * (33#100))).
  { apply Qmult_le_compat_r; [|apply Qlt_le_weak, Qinv_lt_0_compat; exact Hd].
    apply Qmult_le_compat_r; [lra | exact Hk]. }
  lra.
Qed.

(** The three regions a positive index value can fall in. *)
Lemma fee_cases x :
  0 < base -> 0 < x ->
  (base * 2 <= x /\ fee x = lo)
  \/ (x <= base * (33 # 100) /\ fee x = hi)
  \/ in_band cfg x.
Proof.
  intros Hb Hx.
  destruct (Qlt_le_dec x (base * 2)) as [Hu|Hu].
  - destruct (Qlt_le_dec (base * (33#100)) x) as [Hl|Hl].
    + right; right. split; assumption.
    + right; left. split; [assumption|].
      unfold DynamicFeeCalculator.calculate_fee_rate,
        DynamicFeeCalculator.calculate_fee_rate_try.
      assert (Qle_bool x 0 = false) as -> by (apply Qle_bool_false; lra).
      assert (Qle_bool (base * 2) x = false) as -> by (apply Qle_bool_false; lra).
      assert (Qle_bool x (base * (33#100)) = true) as -> by (apply Qle_bool_iff; lra).
      reflexivity.
  - left. split; [assumption|].
    unfold DynamicFeeCalculator.calculate_fee_rate,
      DynamicFeeCalculator.calculate_fee_rate_try.
    assert (Qle_bool x 0 = false) as -> by (apply Qle_bool_false; lra).
    assert (Qle_bool (base * 2) x = true) as -> by (apply Qle_bool_iff; lra).
    reflexivity.
Qed.

Lemma fee_positive_bounds x :
  (lo <= hi)%Z -> 0 < base -> 0 < x -> (lo <= fee x <= hi)%Z.
Proof.
  intros Hlh Hb Hx.
  destruct (fee_cases x Hb Hx) as [[_ ->]|[[_ ->]|Hband]]; try lia.
  rewrite fee_in_band by assumption. apply enforce_bounds. exact Hlh.
Qed.

(** C4.  Whenever the default rate is configured inside [MIN, MAX], every
    index value, positive or not, gets a fee rate inside [MIN, MAX]; an
    index value that is zero or negative gets the default rate. *)
Theorem fee_rate_within_bounds x :
  (MIN_FEE_RATE cfg <= DEFAULT_FEE_RATE cfg <= MAX_FEE_RATE cfg)%Z ->
  (MIN_FEE_RATE cfg <= DynamicFeeCalculator.calculate_fee_rate cfg x
   <= MAX_FEE_RATE cfg)%Z
  /\ (x <= 0 ->
      DynamicFeeCalculator.calculate_fee_rate cfg x = DEFAULT_FEE_RATE cfg).
Proof.
  intros Hd.
  unfold DynamicFeeCalculator.calculate_fee_rate,
    DynamicFeeCalculator.calculate_fee_rate_try.
  destruct (Qle_bool x 0) eqn:E0.
  { split; [lia | reflexivity]. }
  apply Qle_bool_false in E0.
  split; [| intro; lra].
  destruct (Qle_bool (base * 2) x); [lia|].
  destruct (Qle_bool x (base * (33#100))); [lia|].
  destruct (Py.div _ _); [|lia].
  apply enforce_bounds. lia.
Qed.

(** In exact arithmetic the fee rate never goes up with the index
    value. *)
Lemma fee_non_increasing_exact a b :
  (MIN_FEE_RATE cfg <= MAX_FEE_RATE cfg)%Z -> 0 < INDEX_BASELINE cfg ->
  0 < a -> a < b ->
  (DynamicFeeCalculator.calculate_fee_rate cfg b
   <= DynamicFeeCalculator.calculate_fee_rate cfg a)%Z.
Proof.
  intros Hle Hb Ha Hab.
  assert (0 < b) as Hbp by lra.
  pose proof (fee_positive_bounds a Hle Hb Ha) as Ba.
  pose proof (fee_positive_bounds b Hle Hb Hbp) as Bb.
  destruct (fee_cases b Hb Hbp) as [[_ Eb]|[[Lb Eb]|Hband_b]].
  - lia.
  - destruct (fee_cases a Hb Ha) as [[La _]|[[_ Ea]|[La _]]]; try lra. lia.
  - destruct (fee_cases a Hb Ha) as [[La _]|[[_ Ea]|Hband_a]].
    + destruct Hband_b. lra.
    + lia.
    + rewrite (fee_in_band a), (fee_in_band b) by assumption.
      apply enforce_mono, round_mono, max_mono, min_mono.
      apply interpolated_mono; [assumption | assumption | lra].
Qed.

(** C10.  With a positive baseline, an index value equal to the baseline
    is classified on the high side: the explanation starts with
    "INDEX HIGH -> Market good -> Low fee". *)
Theorem baseline_is_classified_high py fee_rate :
  0 < INDEX_BASELINE cfg ->
  DynamicFeeCalculator.trend cfg (INDEX_BASELINE cfg)
  = "INDEX HIGH -> Market good -> Low fee"%string
  /\ String.prefix "INDEX HIGH -> Market good -> Low fee"
       (DynamicFeeCalculator.get_fee_explanation cfg py (INDEX_BASELINE cfg) fee_rate)
     = true.
Proof.
  intro Hb.
  assert (DynamicFeeCalculator.trend cfg base
          = "INDEX HIGH -> Market good -> Low fee"%string) as E.
  { unfold DynamicFeeCalculator.trend.
    assert (Qle_bool base base = true) as -> by (apply Qle_bool_iff; lra).
    assert (Qle_bool (base * (3#2)) base = false) as ->
        by (apply Qle_bool_false; lra).
    reflexivity. }
  split; [exact E|].
  unfold DynamicFeeCalculator.get_fee_explanation. rewrite E. reflexivity.
Qed.

End WithConfig.

(** C3.  With the constants of the source (baseline 1500, rates 10 to 100,
    default 50) the fee rate at the baseline is 64 basis points, in exact
    arithmetic and on doubles alike: 14 away from the default 50 that the
    comment in [calculate_fee_rate] gives for index 1500. *)
Theorem fee_at_baseline_is_64 :
  DynamicFeeCalculator.calculate_fee_rate source_config (INDEX_BASELINE source_config)
  = 64%Z
  /\ Binary64.calculate_fee_rate 1500 = 64%Z
  /\ DEFAULT_FEE_RATE source_config = 50%Z
  /\ DynamicFeeCalculator.interpolated_fee source_config 1500 == 10670 # 167.
Proof. repeat split; reflexivity. Qed.

(** The bound, the order and the classification at the constants of the
    source. *)
Lemma fee_rate_within_bounds_witness :
  (10 <= DynamicFeeCalculator.calculate_fee_rate source_config (6001 # 4) <= 100)%Z
  /\ (6001 # 4 <= 0 ->
      DynamicFeeCalculator.calculate_fee_rate source_config (6001 # 4) = 50%Z).
Proof.
  apply (fee_rate_within_bounds source_config (6001 # 4)). simpl. lia.
Defined.

Lemma baseline_is_classified_high_witness :
  DynamicFeeCalculator.trend source_config 1500
  = "INDEX HIGH -> Market good -> Low fee"%string.
Proof.
  apply (baseline_is_classified_high source_config Scenario.py 64). reflexivity.
Defined.

End FeeTransform.

(** ** The fee transform on IEEE doubles *)

(** [lower_factor] is a double nearest to 33/100: doubles between 1/4 and
    1/2 are [2^-54] apart. *)
Lemma lower_factor_nearest :
  exists q, Binary64.to_Q Binary64.lower_factor = Some q
            /\ (Qabs (q - (33 # 100)) <= 1 # 2 ^ 55)%Q.
Proof. eexists. split; [vm_compute; reflexivity | vm_compute; discriminate]. Qed.

(** On doubles the band starts at 495 and ends at 3000 exactly, as in
    exact arithmetic. *)
Lemma band_on_doubles :
  PrimFloat.eqb (1500 * Binary64.lower_factor) 495 = true
  /\ PrimFloat.eqb (1500 * 2) 3000 = true.
Proof. split; reflexivity. Qed.

(** The two readings agree on the index values the statements use. *)
Lemma binary64_agrees :
  Binary64.calculate_fee_rate 1500
  = DynamicFeeCalculator.calculate_fee_rate source_config 1500
  /\ Binary64.calculate_fee_rate 1000
     = DynamicFeeCalculator.calculate_fee_rate source_config 1000
  /\ Binary64.calculate_fee_rate 1001
     = DynamicFeeCalculator.calculate_fee_rate source_config 1001
  /\ Binary64.calculate_fee_rate 495
     = DynamicFeeCalculator.calculate_fee_rate source_config 495
  /\ Binary64.calculate_fee_rate 3000
     = DynamicFeeCalculator.calculate_fee_rate source_config 3000
  /\ Binary64.calculate_fee_rate 1500.25
     = DynamicFeeCalculator.calculate_fee_rate source_config (6001 # 4)
  /\ Binary64.calculate_fee_rate (-1)
     = DynamicFeeCalculator.calculate_fee_rate source_config (-1).
Proof. repeat split; reflexivity. Qed.

(** Every double, NaN and the infinities included, gets a fee rate between
    10 and 100. *)
Lemma binary64_within_bounds (x : float) :
  10 <= Binary64.calculate_fee_rate x <= 100.
Proof.
  unfold Binary64.calculate_fee_rate, Binary64.calculate_fee_rate_try.
  destruct (PrimFloat.leb x 0); [lia|].
  destruct (PrimFloat.leb _ x); [lia|].
  destruct (PrimFloat.leb x _); [lia|].
  destruct (Binary64.round _) as [r|]; [|lia].
  destruct (Z.ltb_spec r 10); [destruct (Z.gtb_spec 10 100) | destruct (Z.gtb_spec r 100)];
    lia.
Qed.

Lemma binary64_special_values :
  Binary64.calculate_fee_rate nan = 100
  /\ Binary64.calculate_fee_rate infinity = 10
  /\ Binary64.calculate_fee_rate neg_infinity = 50.
Proof. repeat split; reflexivity. Qed.

(** What follows reads the doubles of the interpolation on their
    specification: every rounded operation is located next to the exact
    result, and rounding to the format keeps the order. *)

(** *** Powers of two *)

Section Pow2.
Local Open Scope Q_scope.

Lemma pow2_pos e : 0 < 2 ^ e.
Proof. apply Qpower_0_lt. reflexivity. Qed.

Lemma pow2_add a b : 2 ^ (a + b) == 2 ^ a * 2 ^ b.
Proof. apply Qpower_plus. intro H. discriminate H. Qed.

Lemma pow2_succ e : 2 ^ (e + 1) == 2 * 2 ^ e.
Proof. rewrite pow2_add. change (2 ^ 1) with 2. ring. Qed.

Lemma pow2_le a b : (a <= b)%Z -> 2 ^ a <= 2 ^ b.
Proof. intro H. apply Qpower_le_compat_l; [exact H | discriminate]. Qed.

Lemma pow2_lt a b : (a < b)%Z -> 2 ^ a < 2 ^ b.
Proof. intro H. apply Qpower_lt_compat_l; [exact H | reflexivity]. Qed.

Lemma pow2_lt_inv a b : 2 ^ a < 2 ^ b -> (a < b)%Z.
Proof. intro H. apply (Qpower_lt_compat_l_inv 2); [exact H | reflexivity]. Qed.

Lemma pow2_le_inv a b : 2 ^ a <= 2 ^ b -> (a <= b)%Z.
Proof. intro H. apply (Qpower_le_compat_l_inv 2); [exact H | reflexivity]. Qed.

Lemma pow2_inject k : (0 <= k)%Z -> inject_Z (2 ^ k) == 2 ^ k.
Proof. intro H. rewrite Zpower_Qpower by exact H. reflexivity. Qed.

Lemma scaled_pos m e : (0 < m)%Z -> 0 < scaled m e.
Proof.
  intro H. unfold scaled. apply Qmult_lt_0_compat; [|apply pow2_pos].
  change 0 with (inject_Z 0). rewrite <- Zlt_Qlt. exact H.
Qed.

Lemma scaled_le m n e : (m <= n)%Z -> scaled m e <= scaled n e.
Proof.
  intro H. unfold scaled. apply Qmult_le_compat_r; [|apply Qlt_le_weak, pow2_pos].
  rewrite <- Zle_Qle. exact H.
Qed.

Lemma scaled_lt m n e : (m < n)%Z -> scaled m e < scaled n e.
Proof.
  intro H. unfold scaled. apply Qmult_lt_compat_r; [apply pow2_pos|].
  rewrite <- Zlt_Qlt. exact H.
Qed.

Lemma scaled_lt_inv m n e : scaled m e < scaled n e -> (m < n)%Z.
Proof.
  intro H. destruct (Z.lt_ge_cases m n) as [L|L]; [exact L|].
  apply (scaled_le _ _ e) in L. lra.
Qed.

Lemma scaled_le_inv m n e : scaled m e <= scaled n e -> (m <= n)%Z.
Proof.
  intro H. destruct (Z.le_gt_cases m n) as [L|L]; [exact L|].
  apply (scaled_lt _ _ e) in L. lra.
Qed.

Lemma scaled_pow k e : (0 <= k)%Z -> scaled (2 ^ k) e == 2 ^ (k + e).
Proof. intro H. unfold scaled. rewrite pow2_inject by exact H. rewrite pow2_add. reflexivity. Qed.

Lemma scaled_shift m k e : (0 <= k)%Z -> scaled (m * 2 ^ k) e == scaled m (k + e).
Proof.
  intro H. unfold scaled. rewrite inject_Z_mult, pow2_inject by exact H.
  rewrite pow2_add. ring.
Qed.

Lemma scaled_plus m n e : scaled (m + n) e == scaled m e + scaled n e.
Proof. unfold scaled. rewrite inject_Z_plus. ring. Qed.

Lemma scaled_double m e : scaled (2 * m) e == scaled m (e + 1).
Proof. unfold scaled. rewrite inject_Z_mult, pow2_succ. ring. Qed.

Lemma scaled_one e : scaled 1 e == 2 ^ e.
Proof. unfold scaled. ring. Qed.

Lemma scaled_zero e : scaled 0 e == 0.
Proof. unfold scaled. ring. Qed.

(** An integer below a power of two, scaled. *)
Lemma scaled_lt_pow m e k : (e <= k)%Z -> scaled m e < 2 ^ k -> (m < 2 ^ (k - e))%Z.
Proof.
  intros He H. apply (scaled_lt_inv _ _ e). rewrite scaled_pow by lia.
  replace (k - e + e)%Z with k by lia. exact H.
Qed.

Lemma scaled_ge_pow m e k : (e <= k)%Z -> 2 ^ k <= scaled m e -> (2 ^ (k - e) <= m)%Z.
Proof.
  intros He H. apply (scaled_le_inv _ _ e). rewrite scaled_pow by lia.
  replace (k - e + e)%Z with k by lia. exact H.
Qed.

Lemma scaled_gt_pow m e k : (e <= k)%Z -> 2 ^ k < scaled m e -> (2 ^ (k - e) < m)%Z.
Proof.
  intros He H. apply (scaled_lt_inv _ _ e). rewrite scaled_pow by lia.
  replace (k - e + e)%Z with k by lia. exact H.
Qed.

End Pow2.

(** *** Digits *)

Lemma digits2_pos_bounds m :
  2 ^ (Z.pos (digits2_pos m) - 1) <= Z.pos m < 2 ^ Z.pos (digits2_pos m).
Proof.
  induction m as [m IH|m IH|]; simpl digits2_pos.
  - rewrite Pos2Z.inj_succ. replace (Z.succ (Z.pos (digits2_pos m)) - 1)
      with (Z.succ (Z.pos (digits2_pos m) - 1)) by lia.
    rewrite !Z.pow_succ_r by lia. lia.
  - rewrite Pos2Z.inj_succ. replace (Z.succ (Z.pos (digits2_pos m)) - 1)
      with (Z.succ (Z.pos (digits2_pos m) - 1)) by lia.
    rewrite !Z.pow_succ_r by lia. lia.
  - simpl. lia.
Qed.

Lemma scaled_digits m e :
  (2 ^ (Z.pos (digits2_pos m) - 1 + e) <= scaled (Z.pos m) e
   /\ scaled (Z.pos m + 1) e <= 2 ^ (Z.pos (digits2_pos m) + e))%Q.
Proof.
  pose proof (digits2_pos_bounds m) as [L U]. split.
  - rewrite <- scaled_pow by lia. apply scaled_le. exact L.
  - rewrite <- scaled_pow by lia. apply scaled_le. lia.
Qed.

(** *** Shifting a mantissa to the right *)

Lemma located_exact m e x : located m e loc_Exact x <-> (x == scaled m e)%Q.
Proof. reflexivity. Qed.

Lemma located_inexact m e c x :
  located m e (loc_Inexact c) x
  <-> (scaled m e < x /\ x < scaled (m + 1) e
       /\ match c with
          | Lt => 2 * x < scaled (2 * m + 1) e
          | Eq => 2 * x == scaled (2 * m + 1) e
          | Gt => scaled (2 * m + 1) e < 2 * x
          end)%Q.
Proof.
  unfold located. destruct c.
  - rewrite <- Qeq_alt. reflexivity.
  - rewrite <- Qlt_alt. reflexivity.
  - rewrite <- Qgt_alt. reflexivity.
Qed.

Lemma located_bounds m e l x :
  located m e l x -> (scaled m e <= x /\ x < scaled (m + 1) e)%Q.
Proof.
  destruct l as [|c].
  - rewrite located_exact. intros ->. split; [lra|]. apply scaled_lt. lia.
  - rewrite located_inexact. intros (L & U & _). split; [lra | exact U].
Qed.

Ltac located_arith e :=
  rewrite ?located_exact, ?located_inexact in *; cbv beta iota in *;
  repeat match goal with H : _ /\ _ |- _ => destruct H end;
  unfold scaled in *;
  rewrite ?inject_Z_plus, ?inject_Z_mult in *;
  change (inject_Z 0) with 0%Q in *; change (inject_Z 1) with 1%Q in *;
  change (inject_Z 2) with 2%Q in *;
  rewrite ?pow2_succ in *;
  pose proof (pow2_pos e);
  repeat split; try lra.

Lemma shr_1_located mrs e x :
  0 <= shr_m mrs -> located (shr_m mrs) e (loc_of_shr_record mrs) x ->
  0 <= shr_m (shr_1 mrs)
  /\ located (shr_m (shr_1 mrs)) (e + 1) (loc_of_shr_record (shr_1 mrs)) x.
Proof.
  destruct mrs as [m r s]. cbn [shr_m]. intros Hm H.
  destruct m as [|p|p]; [| |lia].
  - split; [cbn; lia|].
    destruct r, s; cbn [shr_1 orb shr_m loc_of_shr_record] in *; located_arith e.
  - destruct p as [p|p|].
    + split; [cbn; lia|].
      replace (Z.pos p~1) with (2 * Z.pos p + 1) in H by lia.
      destruct r, s; cbn [shr_1 orb shr_m loc_of_shr_record] in *; located_arith e.
    + split; [cbn; lia|].
      replace (Z.pos p~0) with (2 * Z.pos p) in H by lia.
      destruct r, s; cbn [shr_1 orb shr_m loc_of_shr_record] in *; located_arith e.
    + split; [cbn; lia|].
      destruct r, s; cbn [shr_1 orb shr_m loc_of_shr_record] in *; located_arith e.
Qed.

Lemma iter_shr_1_located p : forall mrs e x,
  0 <= shr_m mrs -> located (shr_m mrs) e (loc_of_shr_record mrs) x ->
  0 <= shr_m (iter_pos shr_1 p mrs)
  /\ located (shr_m (iter_pos shr_1 p mrs)) (e + Z.pos p)
       (loc_of_shr_record (iter_pos shr_1 p mrs)) x.
Proof.
  induction p as [p IH|p IH|]; intros mrs e x Hm H; simpl iter_pos.
  - destruct (shr_1_located mrs e x Hm H) as [Hm1 H1].
    destruct (IH _ _ _ Hm1 H1) as [Hm2 H2].
    destruct (IH _ _ _ Hm2 H2) as [Hm3 H3].
    split; [exact Hm3|].
    replace (e + Z.pos p~1) with (e + 1 + Z.pos p + Z.pos p) by lia. exact H3.
  - destruct (IH _ _ _ Hm H) as [Hm2 H2].
    destruct (IH _ _ _ Hm2 H2) as [Hm3 H3].
    split; [exact Hm3|].
    replace (e + Z.pos p~0) with (e + Z.pos p + Z.pos p) by lia. exact H3.
  - apply shr_1_located; assumption.
Qed.

Lemma loc_of_shr_record_of_loc m l :
  loc_of_shr_record (shr_record_of_loc m l) = l
  /\ shr_m (shr_record_of_loc m l) = m.
Proof. destruct l as [|[ | | ]]; split; reflexivity. Qed.

(** [shr_fexp] keeps the number located and brings the exponent to at least
    the one the format asks for. *)
Lemma shr_fexp_located m e l x :
  0 <= m -> located m e l x ->
  let '(mrs, e') := shr_fexp 53 1024 m e l in
  0 <= shr_m mrs
  /\ located (shr_m mrs) e' (loc_of_shr_record mrs) x
  /\ e' = Z.max e (fexp 53 1024 (Zdigits2 m + e)).
Proof.
  intros Hm H. unfold shr_fexp, shr.
  destruct (loc_of_shr_record_of_loc m l) as [El Em].
  destruct (fexp 53 1024 (Zdigits2 m + e) - e) as [|n|n] eqn:En.
  - rewrite El, Em. split; [exact Hm|]. split; [exact H | lia].
  - destruct (iter_shr_1_located n (shr_record_of_loc m l) e x) as [Hm' H'].
    + rewrite Em. exact Hm.
    + rewrite El, Em. exact H.
    + split; [exact Hm'|]. split; [exact H' | lia].
  - rewrite El, Em. split; [exact Hm|]. split; [exact H | lia].
Qed.

(** *** Rounding to nearest, ties to even *)

Lemma rne_bounds m l : m <= round_nearest_even m l <= m + 1.
Proof. destruct l as [|[| |]]; simpl; try destruct (Z.even m); lia. Qed.

(** At one exponent, rounding keeps the order. *)
Lemma rne_mono m1 m2 e l1 l2 x1 x2 :
  located m1 e l1 x1 -> located m2 e l2 x2 -> (x1 <= x2)%Q ->
  round_nearest_even m1 l1 <= round_nearest_even m2 l2.
Proof.
  intros H1 H2 Hx.
  pose proof (located_bounds _ _ _ _ H1) as [L1 U1].
  pose proof (located_bounds _ _ _ _ H2) as [L2 U2].
  assert (m1 < m2 + 1) as Hm by (apply (scaled_lt_inv _ _ e); lra).
  pose proof (rne_bounds m1 l1). pose proof (rne_bounds m2 l2).
  destruct (Z.eq_dec m1 m2) as [->|N]; [|lia].
  clear L1 U1 L2 U2 Hm.
  destruct l1 as [|[| |]], l2 as [|[| |]]; simpl; try destruct (Z.even m2); try lia.
  all: exfalso; located_arith e.
Qed.

(** What [rounded] gives lies next to the number. *)
Lemma rounded_located m e l x :
  0 <= m -> located m e l x ->
  exists m' l',
    located m' (snd (rounded m e l)) l' x /\ 0 <= m'
    /\ fst (rounded m e l) = round_nearest_even m' l'
    /\ snd (rounded m e l) = Z.max e (fexp 53 1024 (Zdigits2 m + e)).
Proof.
  intros Hm H. pose proof (shr_fexp_located m e l x Hm H) as S.
  unfold rounded. destruct (shr_fexp 53 1024 m e l) as [mrs e'].
  destruct S as (Hm' & H' & E). exists (shr_m mrs), (loc_of_shr_record mrs).
  simpl. repeat split; assumption.
Qed.

(** *** Rounding to the format *)

Lemma fexp_eq z : fexp 53 1024 z = Z.max (z - 53) (-1074).
Proof. reflexivity. Qed.

(** A located positive mantissa tells the magnitude of the number. *)
Lemma located_magnitude p e l x :
  located (Z.pos p) e l x ->
  (2 ^ (Z.pos (digits2_pos p) - 1 + e) <= x /\ x < 2 ^ (Z.pos (digits2_pos p) + e))%Q.
Proof.
  intro H. apply located_bounds in H. destruct H as [L U].
  destruct (scaled_digits p e) as [L' U']. split; lra.
Qed.

Section Rounded.
Variables (p : positive) (e : Z) (l : location) (x : Q).
Hypothesis Hx : located (Z.pos p) e l x.
Hypothesis Haligned : e <= fexp 53 1024 (Z.pos (digits2_pos p) + e).

Lemma rounded_exponent :
  snd (rounded (Z.pos p) e l) = fexp 53 1024 (Z.pos (digits2_pos p) + e).
Proof.
  destruct (rounded_located (Z.pos p) e l x) as (m' & l' & _ & _ & _ & E);
    [lia | exact Hx |].
  rewrite E. simpl Zdigits2. lia.
Qed.

Lemma rounded_range :
  0 <= fst (rounded (Z.pos p) e l) <= 2 ^ 53
  /\ (-1074 < snd (rounded (Z.pos p) e l) -> 2 ^ 52 <= fst (rounded (Z.pos p) e l))
  /\ (scaled (fst (rounded (Z.pos p) e l)) (snd (rounded (Z.pos p) e l))
      <= x + 2 ^ snd (rounded (Z.pos p) e l))%Q.
Proof.
  pose proof rounded_exponent as E.
  destruct (rounded_located (Z.pos p) e l x) as (m' & l' & H' & Hm' & N & _);
    [lia | exact Hx |].
  destruct (located_magnitude _ _ _ _ Hx) as [L U].
  destruct (located_bounds _ _ _ _ H') as [L' U'].
  pose proof (rne_bounds m' l') as B. rewrite <- N in B.
  rewrite fexp_eq in E.
  set (E' := snd (rounded (Z.pos p) e l)) in *.
  set (d := Z.pos (digits2_pos p)) in *.
  split; [|split].
  - assert (m' < 2 ^ 53); [|lia].
    replace 53 with (E' + 53 - E') by lia. apply scaled_lt_pow; [lia|].
    apply Qle_lt_trans with x; [exact L'|].
    apply Qlt_le_trans with (2 ^ (d + e))%Q; [exact U|]. apply pow2_le. lia.
  - intro Hn. assert (2 ^ 52 < m' + 1); [|lia].
    replace 52 with (E' + 52 - E') by lia. apply scaled_gt_pow; [lia|].
    apply Qle_lt_trans with x; [|exact U'].
    apply Qle_trans with (2 ^ (d - 1 + e))%Q; [|exact L]. apply pow2_le. lia.
  - apply Qle_trans with (scaled (m' + 1) E'); [apply scaled_le; lia|].
    rewrite scaled_plus, scaled_one. lra.
Qed.

End Rounded.

(** Rounding to the format keeps the order. *)
Lemma rounded_mono p1 e1 l1 x1 p2 e2 l2 x2 :
  located (Z.pos p1) e1 l1 x1 -> located (Z.pos p2) e2 l2 x2 ->
  e1 <= fexp 53 1024 (Z.pos (digits2_pos p1) + e1) ->
  e2 <= fexp 53 1024 (Z.pos (digits2_pos p2) + e2) ->
  (x1 <= x2)%Q ->
  (scaled (fst (rounded (Z.pos p1) e1 l1)) (snd (rounded (Z.pos p1) e1 l1))
   <= scaled (fst (rounded (Z.pos p2) e2 l2)) (snd (rounded (Z.pos p2) e2 l2)))%Q.
Proof.
  intros H1 H2 A1 A2 Hx.
  pose proof (rounded_exponent p1 e1 l1 x1 H1 A1) as E1.
  pose proof (rounded_exponent p2 e2 l2 x2 H2 A2) as E2.
  destruct (rounded_range p1 e1 l1 x1 H1 A1) as ([_ R1] & _ & _).
  destruct (rounded_range p2 e2 l2 x2 H2 A2) as (_ & R2 & _).
  destruct (located_magnitude _ _ _ _ H1) as [L1 _].
  destruct (located_magnitude _ _ _ _ H2) as [_ U2].
  assert (Z.pos (digits2_pos p1) - 1 + e1 < Z.pos (digits2_pos p2) + e2) as Hd
      by (apply pow2_lt_inv; lra).
  rewrite fexp_eq in E1, E2.
  destruct (Z.eq_dec (snd (rounded (Z.pos p1) e1 l1)) (snd (rounded (Z.pos p2) e2 l2)))
    as [Eq|Ne].
  - destruct (rounded_located (Z.pos p1) e1 l1 x1) as (m1 & k1 & K1 & _ & N1 & _);
      [lia | exact H1 |].
    destruct (rounded_located (Z.pos p2) e2 l2 x2) as (m2 & k2 & K2 & _ & N2 & _);
      [lia | exact H2 |].
    rewrite Eq in *. apply scaled_le. rewrite N1, N2.
    apply (rne_mono _ _ _ _ _ _ _ K1 K2 Hx).
  - set (F1 := snd (rounded (Z.pos p1) e1 l1)) in *.
    set (F2 := snd (rounded (Z.pos p2) e2 l2)) in *.
    assert (F1 < F2) as Hlt by lia.
    apply Qle_trans with (2 ^ (52 + F2))%Q.
    + apply Qle_trans with (scaled (2 ^ 53) F1); [apply scaled_le; exact R1|].
      rewrite scaled_pow by lia. apply pow2_le. lia.
    + rewrite <- scaled_pow by lia. apply scaled_le. apply R2. lia.
Qed.

Lemma digits_below q : Z.pos q < 2 ^ 53 -> Z.pos (digits2_pos q) <= 53.
Proof.
  intro H. pose proof (digits2_pos_bounds q) as [L _].
  assert (Z.pos (digits2_pos q) - 1 < 53); [|lia].
  apply (Z.pow_lt_mono_r_iff 2); lia.
Qed.

(** [binary_round_aux] returns the double of the rounded mantissa and
    exponent. *)
Lemma binary_round_aux_value p e l x :
  located (Z.pos p) e l x ->
  e <= fexp 53 1024 (Z.pos (digits2_pos p) + e) ->
  (x <= 2 ^ 1000)%Q ->
  SFnot_negative (binary_round_aux 53 1024 false (Z.pos p) e l)
  /\ exists v,
      SFvalue (binary_round_aux 53 1024 false (Z.pos p) e l) = Some v
      /\ (v == scaled (fst (rounded (Z.pos p) e l)) (snd (rounded (Z.pos p) e l)))%Q.
Proof.
  intros Hx Ha Hb.
  pose proof (rounded_exponent p e l x Hx Ha) as E.
  destruct (rounded_range p e l x Hx Ha) as (R & _ & _).
  destruct (located_magnitude _ _ _ _ Hx) as [L _].
  assert (Z.pos (digits2_pos p) - 1 + e <= 1000) as Hd by (apply pow2_le_inv; lra).
  rewrite fexp_eq in E.
  unfold binary_round_aux. unfold rounded in *.
  destruct (shr_fexp 53 1024 (Z.pos p) e l) as [mrs F]. cbn [fst snd] in *.
  set (N := round_nearest_even (shr_m mrs) (loc_of_shr_record mrs)) in *.
  unfold shr_fexp, shr. cbn [shr_record_of_loc].
  destruct N as [|q|q] eqn:En; [| |lia].
  - cbn [Zdigits2]. rewrite fexp_eq.
    destruct (Z.max (0 + F - 53) (-1074) - F) as [|n|n] eqn:Hn; [|lia|].
    all: cbn [shr_m]; split; [exact I|]; exists 0%Q; split; [reflexivity|];
      rewrite scaled_zero; reflexivity.
  - cbn [Zdigits2]. rewrite fexp_eq.
    destruct (Z.eq_dec (Z.pos q) (2 ^ 53)) as [Eq|Nq].
    + injection Eq as ->.
      change (digits2_pos 9007199254740992) with 54%positive.
      replace (Z.max (54 + F - 53) (-1074) - F) with 1 by lia.
      cbn [iter_pos shr_1 shr_m orb].
      destruct (F + 1 <=? 1024 - 53) eqn:Hle; [|apply Z.leb_gt in Hle; lia].
      split; [reflexivity|]. eexists. split; [reflexivity|].
      change (Z.pos 4503599627370496) with (2 ^ 52).
      change (Z.pos 9007199254740992) with (2 * 2 ^ 52).
      rewrite scaled_double. reflexivity.
    + assert (Z.pos (digits2_pos q) <= 53) as Hq by (apply digits_below; lia).
      destruct (Z.max (Z.pos (digits2_pos q) + F - 53) (-1074) - F) as [|n|n] eqn:Hn;
        [|lia|].
      all: cbn [shr_m]; destruct (F <=? 1024 - 53) eqn:Hle;
        [|apply Z.leb_gt in Hle; lia];
        split; [reflexivity|]; eexists; split; [reflexivity|]; reflexivity.
Qed.

(** *** What rounding gives *)

Lemma rounds_to_mono x1 r1 x2 r2 :
  rounds_to x1 r1 -> rounds_to x2 r2 -> (x1 <= x2)%Q -> (x2 <= 2 ^ 1000)%Q ->
  exists v1 v2, SFvalue r1 = Some v1 /\ SFvalue r2 = Some v2 /\ (v1 <= v2)%Q.
Proof.
  intros (p1 & e1 & l1 & H1 & A1 & ->) (p2 & e2 & l2 & H2 & A2 & ->) Hx Hb.
  destruct (binary_round_aux_value p1 e1 l1 x1 H1 A1) as (_ & v1 & E1 & V1); [lra|].
  destruct (binary_round_aux_value p2 e2 l2 x2 H2 A2) as (_ & v2 & E2 & V2); [lra|].
  exists v1, v2. split; [exact E1|]. split; [exact E2|].
  rewrite V1, V2. apply (rounded_mono _ _ _ _ _ _ _ _ H1 H2 A1 A2 Hx).
Qed.

(** In the normal range rounding gives a positive finite double, at most
    a factor two away. *)
Lemma rounds_to_normal x r :
  rounds_to x r -> (2 ^ (-1000) <= x)%Q -> (x <= 2 ^ 1000)%Q ->
  exists m e v,
    r = S754_finite false m e /\ SFvalue r = Some v
    /\ (x <= 2 * v)%Q /\ (v <= 2 * x)%Q.
Proof.
  intros (p & e & l & H & A & ->) Hl Hu.
  destruct (binary_round_aux_value p e l x H A Hu) as (Hnn & v & Ev & V).
  pose proof (rounded_exponent p e l x H A) as E.
  destruct (rounded_range p e l x H A) as (R & Rn & _).
  destruct (rounded_located (Z.pos p) e l x) as (m' & l' & H' & Hm' & N & _);
    [lia | exact H |].
  destruct (located_magnitude _ _ _ _ H) as [_ U].
  assert (-1000 < Z.pos (digits2_pos p) + e) as Hd by (apply pow2_lt_inv; lra).
  rewrite fexp_eq in E.
  set (F := snd (rounded (Z.pos p) e l)) in *.
  set (n := fst (rounded (Z.pos p) e l)) in *.
  assert (2 ^ 52 <= n) as Hn by (apply Rn; lia).
  pose proof (rne_bounds m' l') as B. rewrite <- N in B.
  assert (1 <= m') as Hm1 by lia.
  destruct (located_bounds _ _ _ _ H') as [L' U'].
  assert (scaled m' F <= v)%Q as Hv1 by (rewrite V; apply scaled_le; lia).
  assert (v <= scaled (m' + 1) F)%Q as Hv2 by (rewrite V; apply scaled_le; lia).
  assert (scaled (m' + 1) F <= 2 * scaled m' F)%Q as Hdouble.
  { apply Qle_trans with (scaled (2 * m') F); [apply scaled_le; lia|].
    unfold scaled. rewrite inject_Z_mult. change (inject_Z 2) with 2%Q. lra. }
  destruct (binary_round_aux 53 1024 false (Z.pos p) e l) as [s|s| |s m0 e0] eqn:Er;
    try contradiction.
  - simpl in Ev. injection Ev as <-.
    assert (0 < scaled m' F)%Q by (apply scaled_pos; lia). lra.
  - simpl in Hnn. subst s. exists m0, e0, v. repeat split; try assumption; lra.
Qed.

(** *** The operations of the interpolation *)

Lemma iter_xO_spec m d :
  Z.pos (Pos.iter xO m d) = Z.pos m * 2 ^ Z.pos d
  /\ Z.pos (digits2_pos (Pos.iter xO m d)) = Z.pos (digits2_pos m) + Z.pos d.
Proof.
  induction d as [|d [IH1 IH2]] using Pos.peano_ind.
  - split; [simpl; lia | simpl digits2_pos; lia].
  - rewrite Pos.iter_succ. split.
    + rewrite Pos2Z.inj_xO, IH1, Pos2Z.inj_succ, Z.pow_succ_r by lia. lia.
    + simpl digits2_pos. rewrite Pos2Z.inj_succ, IH2, Pos2Z.inj_succ. lia.
Qed.

Lemma shl_align_spec mx ex ex' :
  (scaled (Z.pos (fst (shl_align mx ex ex'))) (snd (shl_align mx ex ex'))
   == scaled (Z.pos mx) ex)%Q
  /\ snd (shl_align mx ex ex') = Z.min ex ex'
  /\ Z.pos (digits2_pos (fst (shl_align mx ex ex'))) + snd (shl_align mx ex ex')
     = Z.pos (digits2_pos mx) + ex.
Proof.
  unfold shl_align. destruct (ex' - ex) as [|d|d] eqn:Hd; cbn [fst snd].
  - split; [reflexivity|]. split; lia.
  - split; [reflexivity|]. split; lia.
  - destruct (iter_xO_spec mx d) as [E1 E2]. rewrite E1, E2.
    split; [|split; lia].
    rewrite scaled_shift by lia. replace (Z.pos d + ex') with ex by lia. reflexivity.
Qed.

Lemma located_eq m e l x y : (x == y)%Q -> located m e l x -> located m e l y.
Proof. intro E. destruct l as [|c]; unfold located; rewrite E; trivial. Qed.

Lemma rounds_to_eq x y r : (x == y)%Q -> rounds_to x r -> rounds_to y r.
Proof.
  intros E (p & e & l & H & A & R). exists p, e, l.
  split; [apply (located_eq _ _ _ x); assumption|]. split; assumption.
Qed.

(** [binary_round] rounds the number its arguments denote. *)
Lemma binary_round_rounds m e :
  rounds_to (scaled (Z.pos m) e) (binary_round 53 1024 false m e).
Proof.
  unfold binary_round.
  pose proof (shl_align_spec m e (fexp 53 1024 (Z.pos (digits2_pos m) + e)))
    as (V & E & D).
  destruct (shl_align m e (fexp 53 1024 (Z.pos (digits2_pos m) + e))) as [mz ez].
  cbn [fst snd] in *.
  exists mz, ez, loc_Exact. split; [|split; [|reflexivity]].
  - rewrite located_exact. symmetry. exact V.
  - rewrite D. lia.
Qed.

Lemma scaled_minus m n e : (scaled (m - n) e == scaled m e - scaled n e)%Q.
Proof. unfold scaled, Z.sub. rewrite inject_Z_plus, inject_Z_opp. ring. Qed.

(** The difference of two positive doubles, the larger first. *)
Lemma SFsub_rounds mp ep mq eq :
  (scaled (Z.pos mq) eq < scaled (Z.pos mp) ep)%Q ->
  rounds_to (scaled (Z.pos mp) ep - scaled (Z.pos mq) eq)
    (SFsub 53 1024 (S754_finite false mp ep) (S754_finite false mq eq)).
Proof.
  intro H. unfold SFsub. cbn [cond_Zopp].
  pose proof (shl_align_spec mp ep (Z.min ep eq)) as (Vp & Ep & _).
  pose proof (shl_align_spec mq eq (Z.min ep eq)) as (Vq & Eq & _).
  rewrite Ep in Vp. rewrite Eq in Vq.
  replace (Z.min ep (Z.min ep eq)) with (Z.min ep eq) in Vp by lia.
  replace (Z.min eq (Z.min ep eq)) with (Z.min ep eq) in Vq by lia.
  set (P := fst (shl_align mp ep (Z.min ep eq))) in *.
  set (R := fst (shl_align mq eq (Z.min ep eq))) in *.
  assert (scaled (Z.pos P - Z.pos R) (Z.min ep eq)
          == scaled (Z.pos mp) ep - scaled (Z.pos mq) eq)%Q as V
      by (rewrite scaled_minus, Vp, Vq; reflexivity).
  assert (0 < Z.pos P - Z.pos R) as Hpos.
  { apply (scaled_lt_inv _ _ (Z.min ep eq)). rewrite V, scaled_zero. lra. }
  destruct (Z.pos P - Z.pos R) as [|M|M]; [lia| |lia].
  unfold binary_normalize. apply (rounds_to_eq _ _ _ V). apply binary_round_rounds.
Qed.

Lemma scaled_mult m n e f : (scaled (m * n) (e + f) == scaled m e * scaled n f)%Q.
Proof. unfold scaled. rewrite inject_Z_mult, pow2_add. ring. Qed.

(** The product of two positive doubles, the second one normal. *)
Lemma SFmul_rounds mx ex my ey :
  2 ^ 52 <= Z.pos my ->
  rounds_to (scaled (Z.pos mx) ex * scaled (Z.pos my) ey)
    (SFmul 53 1024 (S754_finite false mx ex) (S754_finite false my ey)).
Proof.
  intro Hy. unfold SFmul. cbn [xorb].
  exists (mx * my)%positive, (ex + ey), loc_Exact. split; [|split; [|reflexivity]].
  - rewrite located_exact, Pos2Z.inj_mul. symmetry. apply scaled_mult.
  - pose proof (digits2_pos_bounds (mx * my)) as [_ U].
    assert (52 < Z.pos (digits2_pos (mx * my))).
    { apply (Z.pow_lt_mono_r_iff 2); [lia | lia |]. rewrite Pos2Z.inj_mul in U. nia. }
    rewrite fexp_eq. lia.
Qed.

Lemma new_location_spec nb k :
  new_location nb k = if k =? 0 then loc_Exact else loc_Inexact (2 * k ?= nb).
Proof.
  unfold new_location, new_location_even, new_location_odd.
  destruct (Z.even nb) eqn:Ev; destruct (k =? 0); try reflexivity.
  f_equal.
  destruct (Z.compare_spec (2 * k + 1) nb) as [E|L|G];
    destruct (Z.compare_spec (2 * k) nb) as [E'|L'|G']; try reflexivity; try lia.
  subst nb. rewrite Z.even_mul in Ev. discriminate Ev.
Qed.

(** The quotient of two positive doubles, in the normal range. *)
Lemma SFdiv_rounds mx ex my ey :
  (2 ^ (-1000) <= scaled (Z.pos mx) ex / scaled (Z.pos my) ey)%Q ->
  rounds_to (scaled (Z.pos mx) ex / scaled (Z.pos my) ey)
    (SFdiv 53 1024 (S754_finite false mx ex) (S754_finite false my ey)).
Proof.
  intro Hl. unfold SFdiv, SFdiv_core_binary. cbn [xorb Zdigits2].
  set (d1 := Z.pos (digits2_pos mx)). set (d2 := Z.pos (digits2_pos my)).
  set (z := d1 + ex - (d2 + ey)).
  set (x := (scaled (Z.pos mx) ex / scaled (Z.pos my) ey)%Q) in *.
  destruct (scaled_digits mx ex) as [Lx Ux]. destruct (scaled_digits my ey) as [Ly Uy].
  fold d1 in Lx, Ux. fold d2 in Ly, Uy.
  assert (0 < scaled (Z.pos my) ey)%Q as Hy by (apply scaled_pos; lia).
  assert (0 < scaled (Z.pos mx) ex)%Q as Hx by (apply scaled_pos; lia).
  assert (scaled (Z.pos mx) ex < scaled (Z.pos mx + 1) ex)%Q as Sx by (apply scaled_lt; lia).
  assert (scaled (Z.pos my) ey < scaled (Z.pos my + 1) ey)%Q as Sy by (apply scaled_lt; lia).
  assert (x * scaled (Z.pos my) ey == scaled (Z.pos mx) ex)%Q as Ex
      by (unfold x; field; lra).
  (* magnitude of the quotient *)
  assert (2 ^ (z - 1) < x /\ x < 2 ^ (z + 1))%Q as [Lz Uz].
  { assert (2 ^ (z - 1) * 2 ^ (d2 + ey) == 2 ^ (d1 - 1 + ex))%Q as P1
        by (rewrite <- pow2_add; unfold z; replace (d1 + ex - (d2 + ey) - 1 + (d2 + ey))
              with (d1 - 1 + ex) by lia; reflexivity).
    assert (2 ^ (z + 1) * 2 ^ (d2 - 1 + ey) == 2 ^ (d1 + ex))%Q as P2
        by (rewrite <- pow2_add; unfold z; replace (d1 + ex - (d2 + ey) + 1 + (d2 - 1 + ey))
              with (d1 + ex) by lia; reflexivity).
    pose proof (pow2_pos (z - 1)). pose proof (pow2_pos (z + 1)).
    split.
    - apply Qnot_le_lt. intro C.
      assert (x * scaled (Z.pos my) ey < 2 ^ (z - 1) * 2 ^ (d2 + ey))%Q; [|lra].
      apply Qle_lt_trans with (2 ^ (z - 1) * scaled (Z.pos my) ey)%Q.
      + apply Qmult_le_compat_r; lra.
      + apply Qmult_lt_l; lra.
    - apply Qnot_le_lt. intro C.
      assert (2 ^ (z + 1) * 2 ^ (d2 - 1 + ey) <= x * scaled (Z.pos my) ey)%Q; [|lra].
      apply Qle_trans with (2 ^ (z + 1) * scaled (Z.pos my) ey)%Q.
      + apply Qmult_le_l; lra.
      + apply Qmult_le_compat_r; lra. }
  assert (-1000 < z + 1) as Hz by (apply pow2_lt_inv; lra).
  rewrite fexp_eq.
  set (e' := Z.min (Z.max (z - 53) (-1074)) (ex - ey)).
  set (s := ex - ey - e').
  assert (0 <= s) as Hs by (unfold s, e'; lia).
  assert (d2 - d1 + 53 <= s) as Hs' by (unfold s, e', z; lia).
  set (m' := match s with Z.pos _ => Z.shiftl (Z.pos mx) s | 0 => Z.pos mx | Z.neg _ => 0 end).
  assert (m' = Z.pos mx * 2 ^ s) as Em'.
  { unfold m'. destruct s as [|ps|ps]; [lia | apply Z.shiftl_mul_pow2; lia | lia]. }
  clearbody m'.
  pose proof (Z_div_mod m' (Z.pos my) ltac:(lia)) as DM.
  destruct (Z.div_eucl m' (Z.pos my)) as [q r]. destruct DM as [Eq Hr].
  rewrite new_location_spec.
  (* the quotient is positive *)
  pose proof (digits2_pos_bounds mx) as [Bx _]. pose proof (digits2_pos_bounds my) as [_ By].
  fold d1 in Bx. fold d2 in By.
  assert (Z.pos my < m') as Hm'.
  { rewrite Em'. apply Z.lt_le_trans with (2 ^ d2); [exact By|].
    apply Z.le_trans with (2 ^ (d1 - 1) * 2 ^ s).
    - rewrite <- Z.pow_add_r by (unfold d1; lia). apply Z.pow_le_mono_r; lia.
    - apply Z.mul_le_mono_nonneg_r; [apply Z.pow_nonneg; lia | exact Bx]. }
  assert (0 < q) as Hq by nia.
  destruct q as [|qp|qp]; [lia| |lia].
  (* the number, seen from the quotient *)
  set (w := (inject_Z r / inject_Z (Z.pos my) * 2 ^ e')%Q).
  assert (x == scaled (Z.pos qp) e' + w)%Q as Xw.
  { unfold x, w, scaled.
    assert (inject_Z (Z.pos mx) * 2 ^ ex == inject_Z m' * 2 ^ e' * 2 ^ ey)%Q as ->.
    { rewrite Em', inject_Z_mult, pow2_inject by lia.
      replace ex with (s + e' + ey) at 1 by (unfold s; lia).
      rewrite !pow2_add. ring. }
    rewrite Eq, inject_Z_plus, inject_Z_mult.
    pose proof (pow2_pos ey). pose proof (pow2_pos e').
    assert (0 < inject_Z (Z.pos my))%Q
      by (change 0%Q with (inject_Z 0); rewrite <- Zlt_Qlt; lia).
    field. split; lra. }
  pose proof (pow2_pos e') as Hu.
  assert (0 < inject_Z (Z.pos my))%Q as HY
      by (change 0%Q with (inject_Z 0); rewrite <- Zlt_Qlt; lia).
  assert (w * inject_Z (Z.pos my) == inject_Z r * 2 ^ e')%Q as Ew
      by (unfold w; field; lra).
  assert (forall a b : Z, (a < b)%Z -> (inject_Z a * 2 ^ e' < inject_Z b * 2 ^ e')%Q) as Mlt
      by (intros a b H; apply Qmult_lt_compat_r; [exact Hu | rewrite <- Zlt_Qlt; exact H]).
  assert (w < 2 ^ e')%Q as Hw1.
  { apply Qnot_le_lt. intro C.
    assert (2 ^ e' * inject_Z (Z.pos my) <= w * inject_Z (Z.pos my))%Q
      by (apply Qmult_le_compat_r; lra).
    pose proof (Mlt r (Z.pos my) ltac:(lia)). lra. }
  exists qp, e'. 
  destruct (r =? 0) eqn:Hr0.
  - apply Z.eqb_eq in Hr0. subst r.
    exists loc_Exact. split; [|split; [|reflexivity]].
    + rewrite located_exact, Xw. unfold w. change (inject_Z 0) with 0%Q. field. lra.
    + assert (z - 1 < Z.pos (digits2_pos qp) + e').
      { apply pow2_lt_inv. eapply Qlt_trans; [exact Lz|].
        refine (proj2 (located_magnitude qp e' loc_Exact x _)).
        rewrite located_exact, Xw. unfold w. change (inject_Z 0) with 0%Q. field. lra. }
      rewrite fexp_eq. unfold e'. lia.
  - apply Z.eqb_neq in Hr0.
    assert (0 < w)%Q as Hw0.
    { apply Qnot_le_lt. intro C.
      assert (w * inject_Z (Z.pos my) <= 0 * inject_Z (Z.pos my))%Q
        by (apply Qmult_le_compat_r; lra).
      pose proof (Mlt 0 r ltac:(lia)). change (inject_Z 0) with 0%Q in *. lra. }
    assert (located (Z.pos qp) e' (loc_Inexact (2 * r ?= Z.pos my)) x) as Hloc.
    { apply (located_eq _ _ _ (scaled (Z.pos qp) e' + w)%Q); [symmetry; exact Xw|].
      rewrite located_inexact.
      split; [lra|]. split; [rewrite scaled_plus, scaled_one; lra|].
      assert (scaled (2 * Z.pos qp + 1) e' == 2 * scaled (Z.pos qp) e' + 2 ^ e')%Q as Emid
          by (unfold scaled; rewrite inject_Z_plus, inject_Z_mult;
              change (inject_Z 2) with 2%Q; change (inject_Z 1) with 1%Q; ring).
      assert (2 * w * inject_Z (Z.pos my) == inject_Z (2 * r) * 2 ^ e')%Q as Ew2
          by (rewrite inject_Z_mult; change (inject_Z 2) with 2%Q; lra).
      destruct (Z.compare_spec (2 * r) (Z.pos my)) as [E|L|G]; rewrite Emid.
      - assert (2 * w == 2 ^ e')%Q; [|lra].
        rewrite E in Ew2. apply (Qmult_inj_r _ _ (inject_Z (Z.pos my))); lra.
      - assert (2 * w < 2 ^ e')%Q; [|lra].
        apply Qnot_le_lt. intro C.
        assert (2 ^ e' * inject_Z (Z.pos my) <= 2 * w * inject_Z (Z.pos my))%Q
          by (apply Qmult_le_compat_r; lra).
        pose proof (Mlt _ _ L). lra.
      - assert (2 ^ e' < 2 * w)%Q; [|lra].
        apply Qnot_le_lt. intro C.
        assert (2 * w * inject_Z (Z.pos my) <= 2 ^ e' * inject_Z (Z.pos my))%Q
          by (apply Qmult_le_compat_r; lra).
        pose proof (Mlt _ _ G). lra. }
    exists (loc_Inexact (2 * r ?= Z.pos my)). split; [exact Hloc|]. split; [|reflexivity].
    assert (z - 1 < Z.pos (digits2_pos qp) + e').
    { apply pow2_lt_inv. eapply Qlt_trans; [exact Lz|].
      exact (proj2 (located_magnitude qp e' _ x Hloc)). }
    rewrite fexp_eq. unfold e'. lia.
Qed.

(** *** Comparing doubles *)

Lemma valid_binary_bounds s m e :
  valid_binary (S754_finite s m e) = true ->
  Z.pos (digits2_pos m) <= 53 /\ -1074 <= e <= 971
  /\ (-1074 < e -> Z.pos (digits2_pos m) = 53).
Proof.
  unfold SpecFloat.valid_binary, bounded, canonical_mantissa, prec, emax. rewrite fexp_eq.
  intro H. apply andb_true_iff in H as [H1 H2].
  apply Z.eqb_eq in H1. apply Z.leb_le in H2. lia.
Qed.

Lemma compare_cont_Eq m1 m2 : Pos.compare_cont Eq m1 m2 = (Z.pos m1 ?= Z.pos m2).
Proof. reflexivity. Qed.

(** On positive finite doubles the order is the order of the values. *)
Lemma SFcompare_positive m1 e1 m2 e2 :
  valid_binary (S754_finite false m1 e1) = true ->
  valid_binary (S754_finite false m2 e2) = true ->
  SFcompare (S754_finite false m1 e1) (S754_finite false m2 e2)
  = Some (Qcompare (scaled (Z.pos m1) e1) (scaled (Z.pos m2) e2)).
Proof.
  intros V1 V2.
  apply valid_binary_bounds in V1 as (D1 & R1 & N1).
  apply valid_binary_bounds in V2 as (D2 & R2 & N2).
  destruct (scaled_digits m1 e1) as [L1 U1]. destruct (scaled_digits m2 e2) as [L2 U2].
  assert (scaled (Z.pos m1) e1 < scaled (Z.pos m1 + 1) e1)%Q as S1 by (apply scaled_lt; lia).
  assert (scaled (Z.pos m2) e2 < scaled (Z.pos m2 + 1) e2)%Q as S2 by (apply scaled_lt; lia).
  unfold SFcompare. f_equal. symmetry.
  destruct (Z.compare_spec e1 e2) as [E|L|G].
  - subst e2. rewrite compare_cont_Eq.
    destruct (Z.compare_spec (Z.pos m1) (Z.pos m2)) as [E|L|G].
    + rewrite <- Qeq_alt. injection E as ->. reflexivity.
    + rewrite <- Qlt_alt. apply scaled_lt. exact L.
    + rewrite <- Qgt_alt. apply scaled_lt. exact G.
  - rewrite <- Qlt_alt.
    assert (2 ^ (Z.pos (digits2_pos m1) + e1) <= 2 ^ (Z.pos (digits2_pos m2) - 1 + e2))%Q
      by (apply pow2_le; lia).
    lra.
  - rewrite <- Qgt_alt.
    assert (2 ^ (Z.pos (digits2_pos m2) + e2) <= 2 ^ (Z.pos (digits2_pos m1) - 1 + e1))%Q
      by (apply pow2_le; lia).
    lra.
Qed.

Lemma positive_finite_valid x m e :
  Prim2SF x = S754_finite false m e -> valid_binary (S754_finite false m e) = true.
Proof. intro E. rewrite <- E. apply Prim2SF_valid. Qed.

Lemma positive_compare x y vx vy :
  positive_finite x vx -> positive_finite y vy ->
  SFcompare (Prim2SF x) (Prim2SF y) = Some (Qcompare vx vy).
Proof.
  intros (m1 & e1 & E1 & V1) (m2 & e2 & E2 & V2).
  rewrite E1, E2, V1, V2.
  apply SFcompare_positive; eapply positive_finite_valid; eassumption.
Qed.

Lemma positive_ltb x y vx vy :
  positive_finite x vx -> positive_finite y vy ->
  PrimFloat.ltb x y = true <-> (vx < vy)%Q.
Proof.
  intros Hx Hy. rewrite ltb_spec. unfold SFltb.
  rewrite (positive_compare x y vx vy Hx Hy). rewrite Qlt_alt.
  destruct (vx ?= vy)%Q; split; congruence.
Qed.

Lemma positive_leb x y vx vy :
  positive_finite x vx -> positive_finite y vy ->
  PrimFloat.leb x y = true <-> (vx <= vy)%Q.
Proof.
  intros Hx Hy. rewrite leb_spec. unfold SFleb.
  rewrite (positive_compare x y vx vy Hx Hy). rewrite Qle_alt.
  destruct (vx ?= vy)%Q; split; congruence.
Qed.

(** The value read on the specification is the rational [to_Q] gives. *)
Lemma positive_to_Q x v :
  positive_finite x v -> exists q, Binary64.to_Q x = Some q /\ (q == v)%Q.
Proof.
  intros (m & e & E & V). unfold Binary64.to_Q. rewrite E.
  eexists. split; [reflexivity|]. rewrite V. unfold scaled.
  destruct e as [|k|k].
  - change (2 ^ 0)%Q with 1%Q. ring.
  - rewrite inject_Z_mult, pow2_inject by lia. reflexivity.
  - rewrite Qmake_Qdiv. change (Z.neg k) with (- Z.pos k). rewrite Qpower_opp.
    rewrite <- pow2_inject by lia. rewrite <- Pos2Z.inj_pow. reflexivity.
Qed.

(** *** The interpolation on doubles *)

Lemma positive_finite_eq x v w : (v == w)%Q -> positive_finite x v -> positive_finite x w.
Proof. intros E (m & e & P & V). exists m, e. split; [exact P|]. rewrite <- E. exact V. Qed.

Ltac constant_double :=
  eexists; eexists; split; [vm_compute; reflexivity | vm_compute; reflexivity].

Lemma double_10 : positive_finite 10 10.
Proof. constant_double. Qed.

Lemma double_90 : positive_finite 90 90.
Proof. constant_double. Qed.

Lemma double_100 : positive_finite 100 100.
Proof. constant_double. Qed.

Lemma double_495 : positive_finite 495 495.
Proof. constant_double. Qed.

Lemma double_2505 : positive_finite 2505 2505.
Proof. constant_double. Qed.

Lemma double_3000 : positive_finite 3000 3000.
Proof. constant_double. Qed.

(** What a rounding in the normal range returns, on doubles. *)
Lemma rounds_to_positive x f :
  rounds_to x (Prim2SF f) -> (2 ^ (-1000) <= x)%Q -> (x <= 2 ^ 1000)%Q ->
  exists v, positive_finite f v /\ (x <= 2 * v)%Q /\ (v <= 2 * x)%Q.
Proof.
  intros R L U. destruct (rounds_to_normal x _ R L U) as (m & e & v & E & V & B1 & B2).
  exists v. split; [|split; assumption].
  exists m, e. split; [exact E|]. rewrite E in V. simpl in V. injection V as <-. reflexivity.
Qed.

Lemma positive_finite_value f v :
  positive_finite f v -> exists w, SFvalue (Prim2SF f) = Some w /\ (w == v)%Q.
Proof.
  intros (m & e & E & V). rewrite E. eexists. split; [reflexivity|]. symmetry. exact V.
Qed.

(** Rounding keeps the order, on doubles. *)
Lemma rounds_to_order x1 f1 v1 x2 f2 v2 :
  rounds_to x1 (Prim2SF f1) -> rounds_to x2 (Prim2SF f2) ->
  positive_finite f1 v1 -> positive_finite f2 v2 ->
  (x1 <= x2)%Q -> (x2 <= 2 ^ 1000)%Q -> (v1 <= v2)%Q.
Proof.
  intros R1 R2 P1 P2 Hx Hb.
  destruct (rounds_to_mono _ _ _ _ R1 R2 Hx Hb) as (w1 & w2 & E1 & E2 & Hw).
  destruct (positive_finite_value _ _ P1) as (u1 & F1 & G1).
  destruct (positive_finite_value _ _ P2) as (u2 & F2 & G2).
  rewrite E1 in F1. rewrite E2 in F2. injection F1 as <-. injection F2 as <-.
  rewrite <- G1, <- G2. exact Hw.
Qed.

Lemma sub_rounds x y vx vy :
  positive_finite x vx -> positive_finite y vy -> (vy < vx)%Q ->
  rounds_to (vx - vy) (Prim2SF (x - y)).
Proof.
  intros (mx & ex & Ex & Vx) (my & ey & Ey & Vy) H.
  rewrite sub_spec, Ex, Ey.
  apply (rounds_to_eq (scaled (Z.pos mx) ex - scaled (Z.pos my) ey)%Q);
    [rewrite Vx, Vy; reflexivity|].
  apply SFsub_rounds. rewrite <- Vx, <- Vy. exact H.
Qed.

Lemma mul_rounds x y vx vy :
  positive_finite x vx -> positive_finite y vy -> (1 <= vy)%Q ->
  rounds_to (vx * vy) (Prim2SF (x * y)).
Proof.
  intros (mx & ex & Ex & Vx) (my & ey & Ey & Vy) H.
  rewrite mul_spec, Ex, Ey.
  apply (rounds_to_eq (scaled (Z.pos mx) ex * scaled (Z.pos my) ey)%Q);
    [rewrite Vx, Vy; reflexivity|].
  apply SFmul_rounds.
  pose proof (positive_finite_valid _ _ _ Ey) as Valid.
  apply valid_binary_bounds in Valid as (D & R & N).
  assert (-1074 < ey) as He.
  { destruct (scaled_digits my ey) as [_ U].
    assert (scaled (Z.pos my) ey < scaled (Z.pos my + 1) ey)%Q as S
        by (apply scaled_lt; lia).
    assert (2 ^ 0 < 2 ^ (Z.pos (digits2_pos my) + ey))%Q as P
        by (change (2 ^ 0)%Q with 1%Q; lra).
    apply pow2_lt_inv in P. lia. }
  pose proof (digits2_pos_bounds my) as [L _]. rewrite (N He) in L. exact L.
Qed.

Lemma div_rounds x y vx vy :
  positive_finite x vx -> positive_finite y vy -> (2 ^ (-1000) <= vx / vy)%Q ->
  rounds_to (vx / vy) (Prim2SF (x / y)).
Proof.
  intros (mx & ex & Ex & Vx) (my & ey & Ey & Vy) H.
  rewrite div_spec, Ex, Ey.
  apply (rounds_to_eq (scaled (Z.pos mx) ex / scaled (Z.pos my) ey)%Q);
    [rewrite Vx, Vy; reflexivity|].
  apply SFdiv_rounds. rewrite <- Vx, <- Vy. exact H.
Qed.

(** The window in which no rounding of the interpolation underflows or
    overflows. *)
Lemma rounding_window :
  (2 ^ (-1000) <= 2 ^ (-44) * (1 # 128) /\ 1000000 <= 2 ^ 1000 /\ 0 < 2 ^ (-44)
   /\ 2 ^ (-1000) <= 1)%Q.
Proof.
  split; [|split; [|split]].
  - change (1 # 128)%Q with (2 ^ (-7))%Q. rewrite <- pow2_add. apply pow2_le. lia.
  - apply Qle_trans with (2 ^ 20)%Q; [vm_compute; discriminate | apply pow2_le; lia].
  - apply pow2_pos.
  - change 1%Q with (2 ^ 0)%Q. apply pow2_le. lia.
Qed.

(** Doubles above 495 are at least [2^-44] away from it. *)
Lemma above_495 x vx :
  positive_finite x vx -> (495 < vx)%Q -> (2 ^ (-44) <= vx - 495)%Q.
Proof.
  intros (m & e & E & V) H.
  pose proof (positive_finite_valid _ _ _ E) as Valid.
  apply valid_binary_bounds in Valid as (D & R & N).
  destruct (scaled_digits m e) as [_ U].
  assert (scaled (Z.pos m) e < scaled (Z.pos m + 1) e)%Q as S by (apply scaled_lt; lia).
  assert (2 ^ 8 < 2 ^ (Z.pos (digits2_pos m) + e))%Q as P
      by (apply Qle_lt_trans with 495%Q; [vm_compute; discriminate | lra]).
  apply pow2_lt_inv in P.
  assert (vx == scaled (Z.pos m * 2 ^ (e + 44)) (-44))%Q as V'.
  { rewrite V, scaled_shift by lia. replace (e + 44 + -44) with e by lia. reflexivity. }
  assert (495 == scaled (495 * 2 ^ 44) (-44))%Q as C by (vm_compute; reflexivity).
  assert (0 < Z.pos m * 2 ^ (e + 44) - 495 * 2 ^ 44) as Hpos.
  { apply (scaled_lt_inv _ _ (-44)). rewrite scaled_minus, <- V', <- C, scaled_zero. lra. }
  rewrite <- scaled_one.
  apply Qle_trans with (scaled (Z.pos m * 2 ^ (e + 44) - 495 * 2 ^ 44) (-44)).
  - apply scaled_le. lia.
  - rewrite scaled_minus, <- V', <- C. lra.
Qed.

(** The quotient [(x - 495) * 90 / 2505] of the interpolation, step by
    step. *)
Lemma quotient_steps x vx :
  positive_finite x vx -> (495 < vx)%Q -> (vx <= 3000)%Q ->
  exists v1 v2 v3,
    positive_finite (x - 495) v1
    /\ rounds_to (vx - 495) (Prim2SF (x - 495))
    /\ positive_finite ((x - 495) * 90) v2
    /\ rounds_to (v1 * 90) (Prim2SF ((x - 495) * 90))
    /\ positive_finite ((x - 495) * 90 / 2505) v3
    /\ rounds_to (v2 / 2505) (Prim2SF ((x - 495) * 90 / 2505))
    /\ (v1 * 90 <= 1000000)%Q /\ (v2 / 2505 <= 1000000)%Q /\ (0 < v3)%Q.
Proof.
  intros P L U.
  destruct rounding_window as (W1 & W2 & W3 & W4).
  pose proof (above_495 x vx P L) as L0.
  set (t := (2 ^ (-44))%Q) in *. set (T := (2 ^ (-1000))%Q) in *.
  set (B := (2 ^ 1000)%Q) in *.
  pose proof (sub_rounds x 495 vx 495 P double_495 L) as R1.
  destruct (rounds_to_positive _ _ R1) as (v1 & P1 & L1 & U1);
    [fold T; lra | fold B; lra |].
  pose proof (mul_rounds (x - 495) 90 v1 90 P1 double_90 ltac:(lra)) as R2.
  destruct (rounds_to_positive _ _ R2) as (v2 & P2 & L2 & U2);
    [fold T; lra | fold B; lra |].
  assert (T <= v2 / 2505)%Q as Lq
      by (change (v2 / 2505)%Q with (v2 * (1 # 2505))%Q; lra).
  pose proof (div_rounds ((x - 495) * 90) 2505 v2 2505 P2 double_2505 Lq) as R3.
  destruct (rounds_to_positive _ _ R3) as (v3 & P3 & L3 & U3);
    [exact Lq | change (v2 / 2505)%Q with (v2 * (1 # 2505))%Q; fold B; lra |].
  exists v1, v2, v3. repeat split; try assumption;
    change (v2 / 2505)%Q with (v2 * (1 # 2505))%Q in *; lra.
Qed.

Lemma positive_finite_unique f v w :
  positive_finite f v -> positive_finite f w -> (v == w)%Q.
Proof.
  intros (m & e & E & V) (m' & e' & E' & V'). rewrite E in E'. injection E' as <- <-.
  rewrite V, V'. reflexivity.
Qed.

(** The quotient of the interpolation grows with the index value. *)
Lemma quotient_order x y vx vy :
  positive_finite x vx -> positive_finite y vy ->
  (495 < vx)%Q -> (vx <= vy)%Q -> (vy <= 3000)%Q ->
  exists qx qy,
    positive_finite ((x - 495) * 90 / 2505) qx
    /\ positive_finite ((y - 495) * 90 / 2505) qy
    /\ (0 < qx)%Q /\ (qx <= qy)%Q.
Proof.
  intros Px Py Lx Hxy Uy.
  destruct rounding_window as (_ & W2 & _ & _).
  destruct (quotient_steps x vx Px Lx ltac:(lra))
    as (x1 & x2 & x3 & X1 & RX1 & X2 & RX2 & X3 & RX3 & BX2 & BX3 & HX).
  destruct (quotient_steps y vy Py ltac:(lra) Uy)
    as (y1 & y2 & y3 & Y1 & RY1 & Y2 & RY2 & Y3 & RY3 & BY2 & BY3 & HY).
  assert (x1 <= y1)%Q as H1
      by (apply (rounds_to_order _ _ _ _ _ _ RX1 RY1 X1 Y1); lra).
  assert (x2 <= y2)%Q as H2
      by (apply (rounds_to_order _ _ _ _ _ _ RX2 RY2 X2 Y2); lra).
  assert (x3 <= y3)%Q as H3.
  { apply (rounds_to_order _ _ _ _ _ _ RX3 RY3 X3 Y3); [|lra].
    change (x2 / 2505)%Q with (x2 * (1 # 2505))%Q.
    change (y2 / 2505)%Q with (y2 * (1 # 2505))%Q. lra. }
  exists x3, y3. repeat split; assumption.
Qed.

Lemma quotient_at_3000 : ((3000 - 495) * 90 / 2505)%float = 90%float.
Proof. reflexivity. Qed.

(** The interpolated value falls when the index value grows. *)
Lemma interpolation_order x y vx vy :
  positive_finite x vx -> positive_finite y vy ->
  (495 < vx)%Q -> (vx <= vy)%Q -> (vy <= 3000)%Q ->
  exists fx fy,
    positive_finite (100 - (x - 495) * 90 / 2505) fx
    /\ positive_finite (100 - (y - 495) * 90 / 2505) fy
    /\ (fy <= fx)%Q.
Proof.
  intros Px Py Lx Hxy Uy.
  destruct rounding_window as (W1 & W2 & W3 & W4).
  destruct (quotient_order x y vx vy Px Py Lx Hxy Uy) as (qx & qy & Qx & Qy & Hq & Hqq).
  destruct (quotient_order y 3000 vy 3000 Py double_3000 ltac:(lra) Uy ltac:(lra))
    as (qy' & q3 & Qy' & Q3 & _ & Hq3).
  rewrite quotient_at_3000 in Q3.
  pose proof (positive_finite_unique _ _ _ Qy Qy') as Ey.
  pose proof (positive_finite_unique _ _ _ Q3 double_90) as E3.
  assert (qy <= 90)%Q as Hy by lra.
  pose proof (sub_rounds 100 _ 100 qx double_100 Qx ltac:(lra)) as Rx.
  pose proof (sub_rounds 100 _ 100 qy double_100 Qy ltac:(lra)) as Ry.
  set (t := (2 ^ (-44))%Q) in *. set (T := (2 ^ (-1000))%Q) in *.
  set (B := (2 ^ 1000)%Q) in *.
  destruct (rounds_to_positive _ _ Rx) as (fx & Fx & _); [fold T; lra | fold B; lra |].
  destruct (rounds_to_positive _ _ Ry) as (fy & Fy & _); [fold T; lra | fold B; lra |].
  exists fx, fy. split; [exact Fx|]. split; [exact Fy|].
  apply (rounds_to_order _ _ _ _ _ _ Ry Rx Fy Fx); [lra | fold B; lra].
Qed.

(** Clamping a double between 10 and 100 clamps its value. *)
Lemma clamp_value f v :
  positive_finite f v ->
  exists q,
    Binary64.to_Q (Binary64.max 10 (Binary64.min 100 f)) = Some q
    /\ (q == Py.max 10 (Py.min 100 v))%Q.
Proof.
  intro P. unfold Binary64.min, Py.min.
  pose proof (positive_ltb f 100 v 100 P double_100) as H100.
  destruct (Py.Qltb v 100) eqn:E; [apply Qltb_true in E | apply Qltb_false in E].
  - rewrite (proj2 H100 E). unfold Binary64.max, Py.max.
    pose proof (positive_ltb 10 f 10 v double_10 P) as H10.
    destruct (Py.Qltb 10 v) eqn:E'; [apply Qltb_true in E' | apply Qltb_false in E'].
    + rewrite (proj2 H10 E'). apply positive_to_Q. exact P.
    + destruct (PrimFloat.ltb 10 f) eqn:C; [pose proof (proj1 H10 eq_refl); lra|].
      apply positive_to_Q. exact double_10.
  - destruct (PrimFloat.ltb f 100) eqn:C; [pose proof (proj1 H100 eq_refl); lra|].
    unfold Binary64.max, Py.max.
    assert (Py.Qltb 10 100 = true) as -> by reflexivity.
    assert (PrimFloat.ltb 10 100 = true) as -> by reflexivity.
    apply positive_to_Q. exact double_100.
Qed.

(** *** The fee rate never goes up, on doubles *)

(** [calculate_fee_rate] on doubles with its constants evaluated. *)
Lemma try_on_doubles x :
  Binary64.calculate_fee_rate_try x
  = if PrimFloat.leb x 0 then Some 50
    else if PrimFloat.leb 3000 x then Some 10
    else if PrimFloat.leb x 495 then Some 100
    else
      match Binary64.round
              (Binary64.max 10 (Binary64.min 100 (100 - (x - 495) * 90 / 2505))) with
      | None => None
      | Some fee_rate_int => Some (enforce_boundaries source_config fee_rate_int)
      end.
Proof. reflexivity. Qed.

Lemma above_zero a :
  PrimFloat.ltb 0 a = true ->
  (exists v, positive_finite a v) \/ Prim2SF a = S754_infinity false.
Proof.
  rewrite ltb_spec. change (Prim2SF 0) with (S754_zero false).
  destruct (Prim2SF a) as [s|s| |s m e] eqn:E; simpl; try discriminate.
  - destruct s; [discriminate|]. right. reflexivity.
  - destruct s; [discriminate|]. intros _. left. exists (scaled (Z.pos m) e), m, e.
    split; [exact E | reflexivity].
Qed.

Lemma above_positive a b va :
  positive_finite a va -> PrimFloat.ltb a b = true ->
  (exists vb, positive_finite b vb /\ (va < vb)%Q) \/ Prim2SF b = S754_infinity false.
Proof.
  intros P H. pose proof H as H'. rewrite ltb_spec in H'.
  destruct P as (m & e & E & V). rewrite E in H'.
  destruct (Prim2SF b) as [s|s| |s m' e'] eqn:E'; simpl in H'; try discriminate.
  - destruct s; [discriminate|]. right. reflexivity.
  - destruct s; [discriminate|]. left. exists (scaled (Z.pos m') e').
    assert (positive_finite b (scaled (Z.pos m') e')) as Pb
        by (exists m', e'; split; [exact E' | reflexivity]).
    split; [exact Pb|].
    apply (positive_ltb a b); [exists m, e; split; assumption | exact Pb | exact H].
Qed.

Lemma nothing_above_infinity a b :
  Prim2SF a = S754_infinity false -> PrimFloat.ltb a b = false.
Proof.
  intro E. rewrite ltb_spec, E.
  destruct (Prim2SF b) as [s|s| |s m e]; try reflexivity; destruct s; reflexivity.
Qed.

Lemma fee_of_infinity b :
  Prim2SF b = S754_infinity false -> Binary64.calculate_fee_rate b = 10.
Proof.
  intro E. assert (b = infinity) as -> by (apply Prim2SF_inj; rewrite E; reflexivity).
  reflexivity.
Qed.

Lemma positive_not_below_zero x v : positive_finite x v -> PrimFloat.leb x 0 = false.
Proof.
  intros (m & e & E & _). rewrite leb_spec, E. reflexivity.
Qed.

Lemma leb_false x y vx vy :
  positive_finite x vx -> positive_finite y vy ->
  PrimFloat.leb x y = false <-> (vy < vx)%Q.
Proof.
  intros Px Py. pose proof (positive_leb x y vx vy Px Py) as H.
  destruct (PrimFloat.leb x y); split; intro C; try discriminate.
  - assert (vx <= vy)%Q by (apply H; reflexivity). lra.
  - apply Qnot_le_lt. intro L. apply H in L. discriminate L.
  - reflexivity.
Qed.

Section FeeOnDoubles.
Variables (x : float) (v : Q).
Hypothesis Px : positive_finite x v.

Lemma fee_above_band : (3000 <= v)%Q -> Binary64.calculate_fee_rate x = 10.
Proof.
  intro H. unfold Binary64.calculate_fee_rate. rewrite try_on_doubles.
  rewrite (positive_not_below_zero x v Px).
  rewrite (proj2 (positive_leb 3000 x 3000 v double_3000 Px) H). reflexivity.
Qed.

Lemma fee_below_band : (v <= 495)%Q -> Binary64.calculate_fee_rate x = 100.
Proof.
  intro H. unfold Binary64.calculate_fee_rate. rewrite try_on_doubles.
  rewrite (positive_not_below_zero x v Px).
  rewrite (proj2 (leb_false 3000 x 3000 v double_3000 Px)) by lra.
  rewrite (proj2 (positive_leb x 495 v 495 Px double_495) H). reflexivity.
Qed.

Lemma fee_inside_band f :
  (495 < v)%Q -> (v < 3000)%Q ->
  positive_finite (100 - (x - 495) * 90 / 2505) f ->
  exists q,
    Binary64.calculate_fee_rate x = enforce_boundaries source_config (Py.round q)
    /\ (q == Py.max 10 (Py.min 100 f))%Q.
Proof.
  intros L U Pf. unfold Binary64.calculate_fee_rate. rewrite try_on_doubles.
  rewrite (positive_not_below_zero x v Px).
  rewrite (proj2 (leb_false 3000 x 3000 v double_3000 Px)) by lra.
  rewrite (proj2 (leb_false x 495 v 495 Px double_495)) by lra.
  destruct (clamp_value _ _ Pf) as (q & E & Hq).
  unfold Binary64.round. rewrite E. exists q. split; [reflexivity | exact Hq].
Qed.

End FeeOnDoubles.

Lemma round_eq x y : (x == y)%Q -> Py.round x = Py.round y.
Proof.
  intro E. apply Z.le_antisymm; apply round_mono; rewrite E; apply Qle_refl.
Qed.

(** On IEEE doubles, with the constants of the source, the fee rate never
    goes up with the index value. *)
Lemma binary64_non_increasing (a b : float) :
  PrimFloat.ltb 0 a = true -> PrimFloat.ltb a b = true ->
  Binary64.calculate_fee_rate b <= Binary64.calculate_fee_rate a.
Proof.
  intros Ha Hab.
  pose proof (binary64_within_bounds a) as Ba.
  pose proof (binary64_within_bounds b) as Bb.
  destruct (above_zero a Ha) as [(va & Pa)|Ia];
    [|rewrite (nothing_above_infinity a b Ia) in Hab; discriminate Hab].
  destruct (above_positive a b va Pa Hab) as [(vb & Pb & Hv)|Ib];
    [|rewrite (fee_of_infinity b Ib); lia].
  destruct (Qlt_le_dec vb 3000) as [Ub|Ub];
    [|rewrite (fee_above_band b vb Pb Ub); lia].
  destruct (Qlt_le_dec 495 va) as [La|La];
    [|rewrite (fee_below_band a va Pa La); lia].
  destruct (interpolation_order a b va vb Pa Pb La ltac:(lra) ltac:(lra))
    as (fa & fb & Fa & Fb & Hf).
  destruct (fee_inside_band a va Pa fa La ltac:(lra) Fa) as (qa & -> & Ea).
  destruct (fee_inside_band b vb Pb fb ltac:(lra) Ub Fb) as (qb & -> & Eb).
  apply enforce_mono, round_mono. rewrite Ea, Eb.
  apply max_mono, min_mono. exact Hf.
Qed.




(** ** Computations and frames *)

(** Rules for [safe] and [respects], for any reflexive and transitive
    relation between processes. *)
Section Frames.
Variable R : Process -> Process -> Prop.
Hypothesis R_refl : forall p, R p p.
Hypothesis R_trans : forall p q r, R p q -> R q r -> R p r.

Lemma safe_ret {A} (a : A) : safe R (ret a).
Proof. intro p. exists a, p. split; [reflexivity | apply R_refl]. Qed.

Lemma safe_get {A} (field : Process -> A) : safe R (get field).
Proof. intro p. exists (field p), p. split; [reflexivity | apply R_refl]. Qed.

Lemma safe_modify f : (forall p, R p (f p)) -> safe R (modify f).
Proof. intros H p. exists tt, (f p). split; [reflexivity | apply H]. Qed.

Lemma safe_bind {A B} (c : M A) (k : A -> M B) :
  safe R c -> (forall a, safe R (k a)) -> safe R (bind c k).
Proof.
  intros Hc Hk p. destruct (Hc p) as (a & p1 & E1 & R1).
  destruct (Hk a p1) as (b & p2 & E2 & R2).
  exists b, p2. unfold bind. rewrite E1. split; [exact E2 | eapply R_trans; eassumption].
Qed.

Lemma safe_respects {A} (c : M A) : safe R c -> respects R c.
Proof. intros H p. destruct (H p) as (a & p' & E & HR). rewrite E. exact HR. Qed.

Lemma respects_raise {A} e : respects R (@raise A e).
Proof. intro p. apply R_refl. Qed.

Lemma respects_bind {A B} (c : M A) (k : A -> M B) :
  respects R c -> (forall a, respects R (k a)) -> respects R (bind c k).
Proof.
  intros Hc Hk p. unfold bind. specialize (Hc p).
  destruct (c p) as [[a|e] p1]; simpl in *.
  - eapply R_trans; [exact Hc | apply Hk].
  - exact Hc.
Qed.

Lemma respects_try_except {A} (c : M A) (h : exn -> M A) :
  respects R c -> (forall e, respects R (h e)) -> respects R (try_except c h).
Proof.
  intros Hc Hh p. unfold try_except. specialize (Hc p).
  destruct (c p) as [[a|e] p1]; simpl in *.
  - exact Hc.
  - eapply R_trans; [exact Hc | apply Hh].
Qed.

Lemma safe_try_except {A} (c : M A) (h : exn -> M A) :
  respects R c -> (forall e, safe R (h e)) -> safe R (try_except c h).
Proof.
  intros Hc Hh p. unfold try_except. specialize (Hc p).
  destruct (c p) as [[a|e] p1]; simpl in *.
  - exists a, p1. split; [reflexivity | exact Hc].
  - destruct (Hh e p1) as (b & p2 & E2 & R2).
    exists b, p2. split; [exact E2 | eapply R_trans; eassumption].
Qed.

Lemma safe_for_range {A} (body : nat -> M (option A)) count :
  (forall i, safe R (body i)) -> forall start, safe R (for_range body count start).
Proof.
  intro Hb. induction count as [|n IH]; intros start p.
  - exists None, p. split; [reflexivity | apply R_refl].
  - simpl. destruct (Hb start p) as ([v|] & p1 & E1 & R1); rewrite E1.
    + exists (Some v), p1. split; [reflexivity | exact R1].
    + destruct (IH (S start) p1) as (r & p2 & E2 & R2).
      exists r, p2. split; [exact E2 | eapply R_trans; eassumption].
Qed.

Lemma respects_external {A} ev (answer : option A) e :
  (forall p, R p (add_event ev p)) -> respects R (external ev answer e).
Proof. intros H p. unfold external. destruct answer; apply H. Qed.

Lemma safe_emit ev : (forall p, R p (add_event ev p)) -> safe R (emit ev).
Proof. intro H. apply safe_modify. exact H. Qed.

End Frames.

(** [moved] is such a relation. *)
Lemma moved_refl allowed frozen p : moved allowed frozen p p.
Proof.
  split.
  - exists []. rewrite app_nil_r. split; reflexivity.
  - apply Forall_forall. intros [] _; reflexivity.
Qed.

Lemma moved_trans allowed frozen p q r :
  moved allowed frozen p q -> moved allowed frozen q r -> moved allowed frozen p r.
Proof.
  intros [(n1 & T1 & F1) K1] [(n2 & T2 & F2) K2]. split.
  - exists (n1 ++ n2). rewrite T2, T1, app_assoc. split; [reflexivity|].
    rewrite forallb_app, F1, F2. reflexivity.
  - rewrite Forall_forall in *. intros a Ha.
    specialize (K1 a Ha). specialize (K2 a Ha).
    destruct a; simpl in *; congruence.
Qed.

Lemma moved_add_event allowed frozen ev p :
  allowed ev = true -> moved allowed frozen p (add_event ev p).
Proof.
  intro H. split.
  - exists [ev]. split; [reflexivity | simpl; rewrite H; reflexivity].
  - apply Forall_forall. intros [] _; reflexivity.
Qed.

Ltac run_monad :=
  unfold bind, ret, get, modify, emit, log, raise; simpl.

(** ** Session rotation *)

Lemma random_choice_In {A} draw (seq : list A) x :
  Py.random_choice draw seq = Some x -> In x seq.
Proof.
  unfold Py.random_choice. destruct seq; [discriminate|].
  apply nth_error_In.
Qed.

Lemma random_choice_total {A} draw (seq : list A) :
  seq <> [] -> exists x, Py.random_choice draw seq = Some x.
Proof.
  intro H. unfold Py.random_choice. destruct seq as [|a l]; [congruence|].
  destruct (nth_error (a :: l) (draw mod List.length (a :: l))%nat) eqn:E.
  - eexists; reflexivity.
  - apply nth_error_None in E.
    pose proof (Nat.mod_upper_bound draw (List.length (a :: l))) as B.
    simpl in *. lia.
Qed.

(** Every name in the weighted list selects a combination that has an
    agent: creating a session never raises. *)
Lemma weighted_choices_usable : forallb usable weighted_choices = true.
Proof. vm_compute. reflexivity. Qed.

Lemma select_total draw p :
  exists combo,
    In combo Level5AntiDetection.browser_combinations /\ agents combo <> []
    /\ Level5AntiDetection._select_browser_combination draw p = (Ok combo, p).
Proof.
  unfold Level5AntiDetection._select_browser_combination.
  fold weighted_choices.
  destruct (random_choice_total draw weighted_choices) as (name & E).
  { vm_compute. discriminate. }
  rewrite E. apply random_choice_In in E.
  pose proof weighted_choices_usable as U.
  rewrite forallb_forall in U. specialize (U name E). unfold usable in U.
  destruct (find _ _) as [combo|] eqn:F; [|discriminate].
  exists combo. split; [eapply find_some; exact F|].
  split; [destruct (agents combo); [discriminate | congruence] | reflexivity].
Qed.

Lemma create_total env p :
  exists combo agent,
    In combo Level5AntiDetection.browser_combinations /\ In agent (agents combo)
    /\ Level5AntiDetection._create_new_session env p
       = (Ok tt,
          add_event (Log INFO "New session")
            (set_session_start_time (Some (created_at env))
               (set_session (Some (new_identity combo agent)) p))).
Proof.
  destruct (select_total (combo_draw env) p) as (combo & Hin & Hne & E).
  destruct (random_choice_total (agent_draw env) (agents combo) Hne) as (agent & Ea).
  exists combo, agent. split; [exact Hin|]. split; [eapply random_choice_In; exact Ea|].
  unfold Level5AntiDetection._create_new_session. unfold bind at 1. rewrite E.
  run_monad. rewrite Ea. reflexivity.
Qed.

Lemma get_session_fresh cfg env p s t0 :
  current_session p = Some s -> session_start_time p = Some t0 ->
  now env - t0 <= Level5AntiDetection.session_duration cfg ->
  Level5AntiDetection.get_session cfg env p = (Ok (Some s), p).
Proof.
  intros Hs Ht Hage.
  unfold Level5AntiDetection.get_session. run_monad. rewrite Hs, Ht.
  destruct (Z.gtb_spec (now env - t0) (Level5AntiDetection.session_duration cfg)); [lia|].
  simpl. rewrite Hs. reflexivity.
Qed.

Lemma get_session_stale cfg env p :
  current_session p = None \/ session_start_time p = None
  \/ (exists t0, session_start_time p = Some t0
                 /\ Level5AntiDetection.session_duration cfg < now env - t0) ->
  exists combo agent,
    In combo Level5AntiDetection.browser_combinations /\ In agent (agents combo)
    /\ Level5AntiDetection.get_session cfg env p
       = (Ok (Some (new_identity combo agent)), rotated env (new_identity combo agent) p).
Proof.
  intro Hstale.
  destruct (create_total env (add_event (Log INFO "Creating new browser session...") p))
    as (combo & agent & Hin & Hag & E).
  exists combo, agent. split; [exact Hin|]. split; [exact Hag|].
  unfold Level5AntiDetection.get_session, rotated. run_monad.
  destruct (current_session p) as [s|] eqn:Hs;
    [destruct (session_start_time p) as [t0|] eqn:Ht|].
  - destruct Hstale as [H|[H|(t & H & Hage)]]; try discriminate.
    injection H as <-.
    destruct (Z.gtb_spec (now env - t0) (Level5AntiDetection.session_duration cfg)); [|lia].
    run_monad. fold (add_event (Log INFO "Creating new browser session...") p).
    rewrite E. reflexivity.
  - run_monad. fold (add_event (Log INFO "Creating new browser session...") p).
    rewrite E. reflexivity.
  - run_monad. fold (add_event (Log INFO "Creating new browser session...") p).
    rewrite E. reflexivity.
Qed.

(** C9, as amended.  [get_session] returns the stored identity and leaves
    the process as it is when that identity is at most the configured
    lifetime old, an age exactly equal to the lifetime included.  When no
    identity is stored, or the stored one is strictly older than the
    lifetime, it builds a new identity from one of the registered
    combinations and one of its agents, stores it with its creation time,
    and returns it. *)
Theorem get_session_rotation cfg env p :
  (forall s t0,
      current_session p = Some s -> session_start_time p = Some t0 ->
      now env - t0 <= Level5AntiDetection.session_duration cfg ->
      Level5AntiDetection.get_session cfg env p = (Ok (Some s), p))
  /\ (current_session p = None \/ session_start_time p = None
      \/ (exists t0, session_start_time p = Some t0
                     /\ Level5AntiDetection.session_duration cfg < now env - t0) ->
      exists combo agent p',
        In combo Level5AntiDetection.browser_combinations /\ In agent (agents combo)
        /\ Level5AntiDetection.get_session cfg env p
           = (Ok (Some (new_identity combo agent)), p')
        /\ current_session p' = Some (new_identity combo agent)
        /\ session_start_time p' = Some (created_at env)).
Proof.
  split.
  - apply get_session_fresh.
  - intro Hstale.
    destruct (get_session_stale cfg env p Hstale) as (combo & agent & Hin & Hag & E).
    exists combo, agent, (rotated env (new_identity combo agent) p).
    repeat split; assumption.
Qed.

(** ** Extraction with retry *)

Ltac frame_step :=
  match goal with
  | |- _ => assumption
  | |- safe _ (ret _) => apply safe_ret
  | |- safe _ (get _) => apply safe_get
  | |- safe _ (bind _ _) => apply safe_bind
  | |- safe _ (emit _) => apply safe_emit
  | |- safe _ (log _ _) => apply safe_emit
  | |- safe _ (modify _) => apply safe_modify
  | |- safe _ (try_except _ _) => apply safe_try_except
  | |- safe _ (for_range _ _ _) => apply safe_for_range
  | |- safe _ (if ?b then _ else _) => destruct b
  | |- safe _ (match ?x with _ => _ end) => destruct x
  | |- respects _ (raise _) => apply respects_raise
  | |- respects _ (bind _ _) => apply respects_bind
  | |- respects _ (try_except _ _) => apply respects_try_except
  | |- respects _ (external _ _ _) => apply respects_external
  | |- respects _ (if ?b then _ else _) => destruct b
  | |- respects _ (match ?x with _ => _ end) => destruct x
  | |- respects _ _ => apply safe_respects
  | |- forall _, _ => intro
  end.

(** Whatever relation the log lines and the two session attributes
    respect, [get_session] respects, and it always returns an identity;
    with sleeps and requests added, so does the whole extraction, which
    never raises. *)
Section SessionFrame.
Variable R : Process -> Process -> Prop.
Hypothesis R_refl : forall p, R p p.
Hypothesis R_trans : forall p q r, R p q -> R q r -> R p r.
Hypothesis R_log : forall l m p, R p (add_event (Log l m) p).
Hypothesis R_set_session : forall s p, R p (set_session s p).
Hypothesis R_set_start : forall t p, R p (set_session_start_time t p).

Lemma rotated_frame env identity p : R p (rotated env identity p).
Proof.
  unfold rotated.
  eapply R_trans; [apply R_log|].
  eapply R_trans; [apply R_set_session|].
  eapply R_trans; [apply R_set_start|]. apply R_log.
Qed.

Lemma get_session_some cfg env p :
  exists s p', Level5AntiDetection.get_session cfg env p = (Ok (Some s), p') /\ R p p'.
Proof.
  destruct (current_session p) as [s|] eqn:Hs;
    [destruct (session_start_time p) as [t0|] eqn:Ht|].
  1: destruct (Z.le_gt_cases (now env - t0) (Level5AntiDetection.session_duration cfg))
       as [Hage|Hage].
  1: { exists s, p. split; [|apply R_refl].
       apply (get_session_fresh cfg env p s t0); assumption. }
  all: edestruct (get_session_stale cfg env p) as (combo & agent & _ & _ & E);
    [ first [ right; right; exists t0; split; [assumption | lia]
            | right; left; assumption | left; assumption ] | ].
  all: exists (new_identity combo agent), (rotated env (new_identity combo agent) p);
    split; [exact E | apply rotated_frame].
Qed.

Lemma get_session_safe cfg env : safe R (Level5AntiDetection.get_session cfg env).
Proof.
  intro p. destruct (get_session_some cfg env p) as (s & p' & E & HR).
  exists (Some s), p'. split; assumption.
Qed.

Hypothesis R_sleep : forall d p, R p (add_event (Sleep d) p).
Hypothesis R_http : forall u h t p, R p (add_event (HttpGet u h t) p).

Variable cfg : OracleConfig.
Variable py : PyRuntime.

Lemma extract_attempt_respects env : respects R (IndexExtractor.extract_attempt cfg py env).
Proof.
  unfold IndexExtractor.extract_attempt, Level5AntiDetection.human_delay.
  repeat first [ apply get_session_safe | frame_step
               | apply R_log | apply R_sleep | apply R_http ].
Qed.

Lemma extract_iteration_safe env attempt :
  safe R (IndexExtractor.extract_iteration cfg py env attempt).
Proof.
  unfold IndexExtractor.extract_iteration.
  repeat first [apply extract_attempt_respects | frame_step | apply R_log | apply R_sleep].
Qed.

Lemma extract_index_with_retry_safe env :
  safe R (IndexExtractor.extract_index_with_retry cfg py env).
Proof.
  unfold IndexExtractor.extract_index_with_retry.
  repeat first [apply extract_iteration_safe | frame_step | apply R_log].
Qed.

End SessionFrame.

(** Counting the requests. *)
Lemma http_gets_app l l' : http_gets (l ++ l') = (http_gets l + http_gets l')%nat.
Proof. unfold http_gets. rewrite filter_app, length_app. reflexivity. Qed.

Ltac count_gets :=
  unfold http_gets in *; simpl in *;
  repeat (rewrite filter_app in * || rewrite length_app in * );
  simpl in *; lia.

Lemma get_session_no_request cfg env p :
  exists s p',
    Level5AntiDetection.get_session cfg env p = (Ok (Some s), p')
    /\ http_gets (trace p') = http_gets (trace p).
Proof.
  apply (get_session_some same_http_gets); unfold same_http_gets; try reflexivity.
  - intros; congruence.
  - intros. unfold http_gets. simpl. rewrite filter_app, length_app. simpl. lia.
Qed.

(** A loop whose iteration [k] answers [value k] returns the first answer
    that is not [None]; [I] is an invariant indexed by the number of
    iterations started. *)
Lemma for_range_first {A : Type} (body : nat -> M (option A))
      (value : nat -> option A) (I : nat -> Process -> Prop) :
  (forall k p, I k p -> exists p', body k p = (Ok (value k), p') /\ I (S k) p') ->
  forall count start p,
    I start p ->
    exists found p' m,
      for_range body count start p = (Ok found, p')
      /\ (m <= start + count)%nat /\ I m p'
      /\ (found = None <->
          forall k, (start <= k < start + count)%nat -> value k = None)
      /\ (forall k, (start <= k < start + count)%nat ->
          (forall j, (start <= j < k)%nat -> value j = None) ->
          found = value k \/ value k = None).
Proof.
  intro Hbody. induction count as [|n IH]; intros start p Hp.
  - exists None, p, start. simpl. split; [reflexivity|]. split; [lia|].
    split; [exact Hp|]. split; [split; intros; [lia | reflexivity] | intros; lia].
  - simpl. destruct (Hbody start p Hp) as (p1 & E & Hp1). rewrite E.
    destruct (value start) as [v|] eqn:V.
    + exists (Some v), p1, (S start). split; [reflexivity|]. split; [lia|].
      split; [exact Hp1|]. split.
      * split; [discriminate|]. intro H. specialize (H start ltac:(lia)). congruence.
      * intros k Hk Hbefore. destruct (Nat.eq_dec k start) as [->|N].
        -- left. congruence.
        -- specialize (Hbefore start ltac:(lia)). congruence.
    + destruct (IH (S start) p1 Hp1) as (found & p2 & m & E2 & Hm & Hp2 & Hnone & Hfirst).
      exists found, p2, m. split; [exact E2|]. split; [lia|]. split; [exact Hp2|]. split.
      * rewrite Hnone. split; intros H k Hk.
        -- destruct (Nat.eq_dec k start) as [->|N]; [exact V | apply H; lia].
        -- apply H; lia.
      * intros k Hk Hbefore. destruct (Nat.eq_dec k start) as [->|N].
        -- right. exact V.
        -- apply Hfirst; [lia|]. intros j Hj. apply Hbefore. lia.
Qed.

Section Extraction.
Variable cfg : OracleConfig.
Variable py : PyRuntime.
Variable env : nat -> FetchAttempt.

Lemma extract_iteration_value attempt p :
  exists p',
    IndexExtractor.extract_iteration cfg py env attempt p
    = (Ok (attempt_value py (http (env attempt))), p')
    /\ http_gets (trace p') = (http_gets (trace p) + 1)%nat.
Proof.
  unfold IndexExtractor.extract_iteration, IndexExtractor.extract_attempt,
    Level5AntiDetection.human_delay, try_except.
  run_monad.
  match goal with
  | |- context [Level5AntiDetection.get_session ?c ?e ?q] =>
      destruct (get_session_no_request c e q) as (s & p1 & E & G)
  end.
  rewrite E.
  unfold attempt_value.
  destruct (http (env attempt)) as [|status_code [element_text|]]; simpl.
  - destruct (_ <? _); eexists; (split; [reflexivity | count_gets]).
  - destruct (_ && _); simpl.
    + destruct (_ <? _); eexists; (split; [reflexivity | count_gets]).
    + destruct (float_of_str py _) as [index_value|]; simpl.
      * eexists; (split; [reflexivity | count_gets]).
      * destruct (_ <? _); eexists; (split; [reflexivity | count_gets]).
  - destruct (_ && _); simpl;
      destruct (_ <? _); eexists; (split; [reflexivity | count_gets]).
Qed.

Lemma extract_loop count p :
  exists found p',
    for_range (IndexExtractor.extract_iteration cfg py env) count 0 p = (Ok found, p')
    /\ (http_gets (trace p') <= http_gets (trace p) + count)%nat
    /\ (found = None <->
        forall k, (k < count)%nat -> attempt_value py (http (env k)) = None)
    /\ (forall k, (k < count)%nat ->
        (forall j, (j < k)%nat -> attempt_value py (http (env j)) = None) ->
        found = attempt_value py (http (env k))
        \/ attempt_value py (http (env k)) = None).
Proof.
  destruct (for_range_first (IndexExtractor.extract_iteration cfg py env)
              (fun k => attempt_value py (http (env k)))
              (fun k q => (http_gets (trace q) <= http_gets (trace p) + k)%nat))
    with (count := count) (start := 0%nat) (p := p)
    as (found & p1 & m & E & Hm & Hp1 & Hnone & Hfirst).
  - intros k q Hq. destruct (extract_iteration_value k q) as (q' & E & G).
    exists q'. split; [exact E | lia].
  - lia.
  - exists found, p1. split; [exact E|]. split; [simpl in Hm; lia|]. split.
    + rewrite Hnone. split; intros H k Hk; apply H; lia.
    + intros k Hk Hbefore. apply Hfirst; [lia|]. intros j Hj. apply Hbefore. lia.
Qed.

Lemma extract_result p :
  exists found p',
    IndexExtractor.extract_index_with_retry cfg py env p = (Ok found, p')
    /\ (http_gets (trace p') <= http_gets (trace p) + MAX_RETRIES cfg)%nat
    /\ (found = None <->
        forall k, (k < MAX_RETRIES cfg)%nat -> attempt_value py (http (env k)) = None)
    /\ (forall k value,
        (k < MAX_RETRIES cfg)%nat ->
        attempt_value py (http (env k)) = Some value ->
        (forall j, (j < k)%nat -> attempt_value py (http (env j)) = None) ->
        found = Some value).
Proof.
  destruct (extract_loop (MAX_RETRIES cfg) p)
    as (found & p1 & E & G & Hnone & Hfirst).
  unfold IndexExtractor.extract_index_with_retry, bind. rewrite E.
  destruct found as [vt|].
  - exists (Some vt), p1. split; [reflexivity|]. split; [exact G|]. split.
    + rewrite Hnone. split; intros H k Hk; apply H; lia.
    + intros k value Hk Hv Hbefore.
      destruct (Hfirst k ltac:(lia)) as [F|F].
      * intros j Hj. apply Hbefore. lia.
      * simpl in F. congruence.
      * simpl in F. congruence.
  - eexists None, _. split; [reflexivity|]. split.
    + count_gets.
    + split.
      * rewrite Hnone. split; intros H k Hk; apply H; lia.
      * intros k value Hk Hv Hbefore.
        destruct (Hfirst k ltac:(lia)) as [F|F].
        -- intros j Hj. apply Hbefore. lia.
        -- simpl in F. congruence.
        -- simpl in F. congruence.
Qed.

End Extraction.

(** C6.  With [MAX_RETRIES = N], [extract_index_with_retry] never raises
    and sends at most [N] requests to the source; it returns [None]
    exactly when each of the [N] attempts fails, and otherwise the value
    and text of the first attempt that succeeds.  (This holds for every
    [N], zero included.) *)
Theorem extract_index_with_retry_bounded cfg py env p :
  exists found p',
    IndexExtractor.extract_index_with_retry cfg py env p = (Ok found, p')
    /\ (http_gets (trace p') <= http_gets (trace p) + MAX_RETRIES cfg)%nat
    /\ (found = None <->
        forall k, (k < MAX_RETRIES cfg)%nat -> attempt_value py (http (env k)) = None)
    /\ (forall k value,
        (k < MAX_RETRIES cfg)%nat ->
        attempt_value py (http (env k)) = Some value ->
        (forall j, (j < k)%nat -> attempt_value py (http (env j)) = None) ->
        found = Some value).
Proof. apply extract_result. Qed.

(** ** The ledger writer *)

Section LedgerFrame.
Variable R : Process -> Process -> Prop.
Hypothesis R_refl : forall p, R p p.
Hypothesis R_trans : forall p q r, R p q -> R q r -> R p r.
Hypothesis R_log : forall l m p, R p (add_event (Log l m) p).
Hypothesis R_sleep : forall d p, R p (add_event (Sleep d) p).
Hypothesis R_ledger : forall ev p, is_ledger_call ev = true -> R p (add_event ev p).

Variable cfg : OracleConfig.

Lemma send_attempt_respects fee_rate index_value env :
  respects R (BlockchainBridge.send_attempt cfg fee_rate index_value env).
Proof.
  unfold BlockchainBridge.send_attempt.
  repeat first [frame_step | apply R_log | apply R_ledger; reflexivity].
Qed.

Lemma send_iteration_safe fee_rate index_value env attempt :
  safe R (BlockchainBridge.send_iteration cfg fee_rate index_value env attempt).
Proof.
  unfold BlockchainBridge.send_iteration.
  repeat first [apply send_attempt_respects | frame_step | apply R_log | apply R_sleep].
Qed.

Lemma send_fee_update_safe fee_rate index_value env :
  safe R (BlockchainBridge.send_fee_update cfg fee_rate index_value env).
Proof.
  unfold BlockchainBridge.send_fee_update.
  repeat first [apply send_iteration_safe | frame_step | apply R_log].
Qed.

End LedgerFrame.

Section Commit.
Variable cfg : OracleConfig.
Variable fee_rate : Z.
Variable index_value : Q.
Variable env : nat -> ChainAttempt.

(** With an account loaded, one iteration answers what [attempt_return]
    reads off the environment. *)
Lemma send_iteration_value attempt p address :
  account p = Some address ->
  exists p',
    BlockchainBridge.send_iteration cfg fee_rate index_value env attempt p
    = (Ok (attempt_return (env attempt)), p').
Proof.
  intro Ha.
  unfold BlockchainBridge.send_iteration, BlockchainBridge.send_attempt,
    attempt_return, submitted, try_except, external.
  run_monad.
  destruct (env attempt) as [g c n b s h r]; simpl.
  destruct (_ <? _);
  destruct g as [g|]; simpl; try (eexists; reflexivity);
  destruct (g >? _); simpl;
  destruct c; simpl; rewrite ?Ha; simpl; try (eexists; reflexivity);
  destruct n as [n|]; simpl; try (eexists; reflexivity);
  destruct b; simpl; try (eexists; reflexivity);
  destruct s as [s|]; simpl; try (eexists; reflexivity);
  destruct h as [h|]; simpl; try (eexists; reflexivity);
  destruct r as [r|]; simpl; try (eexists; reflexivity);
  destruct (status r =? 1); simpl; eexists; reflexivity.
Qed.

Lemma send_iteration_step attempt p address :
  account p = Some address ->
  exists p',
    BlockchainBridge.send_iteration cfg fee_rate index_value env attempt p
    = (Ok (attempt_return (env attempt)), p')
    /\ account p' = Some address.
Proof.
  intro Ha.
  destruct (send_iteration_value attempt p address Ha) as (p' & E).
  exists p'. split; [exact E|].
  destruct (send_iteration_safe (fun q q' => account q' = account q)) with
    (cfg := cfg) (fee_rate := fee_rate) (index_value := index_value) (env := env)
    (attempt := attempt) (p := p) as (a & p'' & E' & K);
    try (intros; reflexivity); intros; congruence.
Qed.

(** An enabled bridge returns what the first attempt that does not raise
    returns, and [None] when every attempt raises. *)
Lemma send_fee_update_value p address :
  enabled p = true -> account p = Some address ->
  exists returned p',
    BlockchainBridge.send_fee_update cfg fee_rate index_value env p = (Ok returned, p')
    /\ ((forall k, (k < BLOCKCHAIN_RETRY_COUNT cfg)%nat -> attempt_return (env k) = None) ->
        returned = None)
    /\ (forall k value,
        (k < BLOCKCHAIN_RETRY_COUNT cfg)%nat ->
        (forall j, (j < k)%nat -> attempt_return (env j) = None) ->
        attempt_return (env k) = Some value ->
        returned = value).
Proof.
  intros He Ha.
  destruct (for_range_first
              (BlockchainBridge.send_iteration cfg fee_rate index_value env)
              (fun k => attempt_return (env k))
              (fun _ q => account q = Some address))
    with (count := BLOCKCHAIN_RETRY_COUNT cfg) (start := 0%nat) (p := p)
    as (found & p1 & m & E & _ & _ & Hnone & Hfirst).
  - intros k q Hq. apply send_iteration_step. exact Hq.
  - exact Ha.
  - unfold BlockchainBridge.send_fee_update. run_monad. rewrite He. simpl.
    rewrite E. destruct found as [returned|].
    + exists returned. eexists. split; [reflexivity|]. split.
      * intro Hall. assert (Some returned = None) as C; [|discriminate C].
        apply Hnone. intros k Hk. apply Hall. lia.
      * intros k value Hk Hbefore Hv.
        destruct (Hfirst k ltac:(lia)) as [F|F].
        -- intros j Hj. apply Hbefore. lia.
        -- congruence.
        -- congruence.
    + exists None. eexists. split; [reflexivity|]. split; [reflexivity|].
      intros k value Hk _ Hv.
      assert (attempt_return (env k) = None) as C; [|congruence].
      apply (proj1 Hnone eq_refl). lia.
Qed.

End Commit.

(** ** The pipeline *)

Lemma moved_saved_records allowed frozen p p' :
  moved allowed frozen p p' ->
  (forall r, allowed (SaveOracleData r) = false) ->
  saved_records (trace p') = saved_records (trace p).
Proof.
  intros [(performed & T & F) _] Hno. rewrite T. clear T. unfold saved_records.
  rewrite flat_map_app.
  assert (flat_map (fun e => match e with SaveOracleData r => [r] | _ => [] end) performed = [])
    as ->; [|apply app_nil_r].
  induction performed as [|e l IH]; [reflexivity|].
  simpl in F. apply andb_true_iff in F as [Fe Fl].
  simpl. rewrite (IH Fl). destruct e; try reflexivity.
  rewrite Hno in Fe. discriminate.
Qed.

Lemma moved_ledger_calls allowed frozen p p' :
  moved allowed frozen p p' ->
  (forall e, allowed e = true -> is_ledger_call e = false) ->
  ledger_calls (trace p') = ledger_calls (trace p).
Proof.
  intros [(performed & T & F) _] Hno. rewrite T. clear T. unfold ledger_calls.
  rewrite filter_app.
  assert (filter is_ledger_call performed = []) as ->; [|apply app_nil_r].
  induction performed as [|e l IH]; [reflexivity|].
  simpl in F. apply andb_true_iff in F as [Fe Fl].
  simpl. rewrite (Hno e Fe). apply IH. exact Fl.
Qed.

Lemma moved_frozen allowed frozen a p p' :
  moved allowed frozen p p' -> In a frozen -> same_attribute a p p'.
Proof. intros [_ K] Ha. rewrite Forall_forall in K. apply K. exact Ha. Qed.

Section Pipeline.
Variable cfg : OracleConfig.
Variable py : PyRuntime.

Lemma extract_fetch_frame env :
  safe fetch_frame (IndexExtractor.extract_index_with_retry cfg py env).
Proof.
  apply extract_index_with_retry_safe; unfold fetch_frame.
  - apply moved_refl.
  - apply moved_trans.
  - intros. apply moved_add_event. reflexivity.
  - intros. split; [exists []; rewrite app_nil_r; split; reflexivity|].
    repeat constructor.
  - intros. split; [exists []; rewrite app_nil_r; split; reflexivity|].
    repeat constructor.
  - intros. apply moved_add_event. reflexivity.
  - intros. apply moved_add_event. reflexivity.
Qed.

Lemma send_commit_frame fee_rate index_value env :
  safe commit_frame (BlockchainBridge.send_fee_update cfg fee_rate index_value env).
Proof.
  apply send_fee_update_safe; unfold commit_frame.
  - apply moved_refl.
  - apply moved_trans.
  - intros. apply moved_add_event. reflexivity.
  - intros. apply moved_add_event. reflexivity.
  - intros ev p H. apply moved_add_event. destruct ev; try discriminate; reflexivity.
Qed.

(** The two ways a run can go once the extraction has answered. *)
Lemma run_without_value env p p1 :
  IndexExtractor.extract_index_with_retry cfg py (fetch_env env) (started p) = (Ok None, p1) ->
  IndexOracleSystem.run_oracle_update cfg py env p
  = (Ok false, add_event (Log ERROR "Index extraction failed completely") p1).
Proof.
  intro E. unfold IndexOracleSystem.run_oracle_update, try_except.
  unfold bind at 1. unfold log at 1, emit, modify. fold (started p).
  unfold bind at 1. rewrite E. reflexivity.
Qed.

Lemma run_with_value env p p1 index_value index_text tx status p2 :
  IndexExtractor.extract_index_with_retry cfg py (fetch_env env) (started p)
  = (Ok (Some (index_value, index_text)), p1) ->
  committed cfg env index_value p1 tx status p2 ->
  IndexOracleSystem.run_oracle_update cfg py env p
  = (Ok (display_ok env),
     reported env (run_record cfg py env index_value index_text tx status p2) p2).
Proof.
  intros E C. unfold IndexOracleSystem.run_oracle_update, try_except.
  unfold bind at 1. unfold log at 1, emit, modify. fold (started p).
  unfold bind at 1. rewrite E.
  unfold committed in C. unfold bind at 1, get at 1.
  destruct (enabled p1).
  - destruct C as [S ->]. unfold bind at 1. unfold bind at 1. rewrite S.
    unfold reported, run_record, session_age, DataStorageManager.save_oracle_data.
    destruct (Py.truthy tx); run_monad;
      destruct (save_ok env); destruct (display_ok env); reflexivity.
  - destruct C as (-> & -> & ->).
    unfold reported, run_record, session_age, DataStorageManager.save_oracle_data.
    run_monad. destruct (save_ok env); destruct (display_ok env); reflexivity.
Qed.

Lemma commit_total env index_value p1 :
  exists tx status p2,
    committed cfg env index_value p1 tx status p2 /\ commit_frame p1 p2.
Proof.
  unfold committed. destruct (enabled p1).
  - destruct (send_commit_frame (DynamicFeeCalculator.calculate_fee_rate cfg index_value)
                index_value (chain_env env) p1) as (tx & p2 & E & F).
    exists tx. eexists. exists p2. split; [split; [exact E | reflexivity] | exact F].
  - exists None, "disabled"%string, p1. split; [repeat split | apply moved_refl].
Qed.

End Pipeline.

Section PipelineResults.
Variable cfg : OracleConfig.
Variable py : PyRuntime.
Variable env : RunEnv.

Lemma saved_records_reported r p :
  saved_records (trace (reported env r p)) = saved_records (trace p) ++ [r].
Proof.
  unfold reported, saved_records. simpl. rewrite !flat_map_app. simpl.
  destruct (save_ok env); destruct (display_ok env); simpl; rewrite !app_nil_r; reflexivity.
Qed.

Lemma ledger_calls_reported r p :
  ledger_calls (trace (reported env r p)) = ledger_calls (trace p).
Proof.
  unfold reported, ledger_calls. simpl. rewrite !filter_app. simpl.
  destruct (save_ok env); destruct (display_ok env); simpl; rewrite !app_nil_r; reflexivity.
Qed.

Lemma fetch_frame_saved_records p p' :
  fetch_frame p p' -> saved_records (trace p') = saved_records (trace p).
Proof. intro F. eapply moved_saved_records; [exact F | reflexivity]. Qed.

Lemma commit_frame_saved_records p p' :
  commit_frame p p' -> saved_records (trace p') = saved_records (trace p).
Proof. intro F. eapply moved_saved_records; [exact F | reflexivity]. Qed.

Lemma fetch_frame_ledger_calls p p' :
  fetch_frame p p' -> ledger_calls (trace p') = ledger_calls (trace p).
Proof.
  intro F. eapply moved_ledger_calls; [exact F|].
  intros e H. destruct e; try discriminate; reflexivity.
Qed.

(** Whatever the extraction finds, the run ends normally; the record it
    hands over is built from the found value and the commit made at the
    process the extraction left. *)
Lemma run_oracle_update_shape p :
  exists found p1,
    IndexExtractor.extract_index_with_retry cfg py (fetch_env env) (started p) = (Ok found, p1)
    /\ fetch_frame (started p) p1
    /\ match found with
       | None =>
           IndexOracleSystem.run_oracle_update cfg py env p
           = (Ok false, add_event (Log ERROR "Index extraction failed completely") p1)
       | Some (index_value, index_text) =>
           exists tx status p2,
             committed cfg env index_value p1 tx status p2 /\ commit_frame p1 p2
             /\ IndexOracleSystem.run_oracle_update cfg py env p
                = (Ok (display_ok env),
                   reported env
                     (run_record cfg py env index_value index_text tx status p2) p2)
       end.
Proof.
  destruct (extract_fetch_frame cfg py (fetch_env env) (started p)) as (found & p1 & E & F).
  exists found, p1. split; [exact E|]. split; [exact F|].
  destruct found as [[index_value index_text]|].
  - destruct (commit_total cfg env index_value p1) as (tx & status & p2 & C & F2).
    exists tx, status, p2. split; [exact C|]. split; [exact F2|].
    exact (run_with_value cfg py env p p1 index_value index_text tx status p2 E C).
  - exact (run_without_value cfg py env p p1 E).
Qed.

End PipelineResults.

(** C1, as amended.  A run never raises.  When every extraction attempt
    fails, it returns [False] and hands no record to the storage manager.
    When some attempt succeeds, it hands over exactly one record, whatever
    the commit step meets, and returns [True] unless showing the history
    fails afterwards. *)
Theorem run_oracle_update_records cfg py env p :
  exists outcome p',
    IndexOracleSystem.run_oracle_update cfg py env p = (Ok outcome, p')
    /\ ((forall k, (k < MAX_RETRIES cfg)%nat ->
                   attempt_value py (http (fetch_env env k)) = None) ->
        outcome = false /\ saved_records (trace p') = saved_records (trace p))
    /\ (forall k, (k < MAX_RETRIES cfg)%nat ->
                  attempt_value py (http (fetch_env env k)) <> None ->
        outcome = display_ok env
        /\ exists r, saved_records (trace p') = saved_records (trace p) ++ [r]).
Proof.
  destruct (run_oracle_update_shape cfg py env p) as (found & p1 & E & F & Hrun).
  destruct (extract_result cfg py (fetch_env env) (started p))
    as (found' & p1' & E' & _ & Hnone & _).
  rewrite E in E'. injection E' as <- <-.
  apply fetch_frame_saved_records in F.
  destruct found as [[index_value index_text]|].
  - destruct Hrun as (tx & status & p2 & _ & F2 & Hrun).
    apply commit_frame_saved_records in F2.
    eexists. eexists. split; [exact Hrun|]. split.
    + intro Hall. apply Hnone in Hall. discriminate.
    + intros k Hk Hv. split; [reflexivity|]. eexists.
      rewrite saved_records_reported, F2, F. unfold started, saved_records. simpl.
      rewrite flat_map_app. simpl. rewrite app_nil_r. reflexivity.
  - eexists. eexists. split; [exact Hrun|]. split.
    + intros _. split; [reflexivity|].
      unfold saved_records in *. simpl. rewrite flat_map_app, F. simpl.
      rewrite flat_map_app. simpl. rewrite !app_nil_r. reflexivity.
    + intros k Hk Hv. exfalso. apply Hv. apply (proj1 Hnone eq_refl). exact Hk.
Qed.

(** C2, as amended.  Take an enabled bridge and a commit whose first
    attempt that does not raise submits the transaction with hash
    [tx_hash].  Whether waiting for the receipt raises or the receipt
    comes back with status 1, [send_fee_update] returns [tx_hash], and a
    run whose extraction succeeds hands over one record carrying that hash
    and the status "success": the unconfirmed submission is not reported
    as failed, and nothing in the returned value or in the record tells it
    from a confirmed one. *)
Theorem unconfirmed_submission_recorded_as_success
        cfg py env p address kf kc tx_hash :
  enabled p = true -> account p = Some address ->
  (kf < MAX_RETRIES cfg)%nat ->
  attempt_value py (http (fetch_env env kf)) <> None ->
  (kc < BLOCKCHAIN_RETRY_COUNT cfg)%nat ->
  (forall j, (j < kc)%nat -> attempt_return (chain_env env j) = None) ->
  submitted (chain_env env kc) = Some tx_hash ->
  receipt (chain_env env kc) = None
  \/ (exists r, receipt (chain_env env kc) = Some r /\ status r = 1) ->
  tx_hash <> ""%string ->
  (forall fee_rate index_value q,
      enabled q = true -> account q = Some address ->
      exists q',
        BlockchainBridge.send_fee_update cfg fee_rate index_value (chain_env env) q
        = (Ok (Some tx_hash), q'))
  /\ exists r p',
      IndexOracleSystem.run_oracle_update cfg py env p = (Ok (display_ok env), p')
      /\ saved_records (trace p') = saved_records (trace p) ++ [r]
      /\ blockchain_tx_hash r = tx_hash
      /\ blockchain_status r = "success"%string.
Proof.
  intros He Ha Hkf Hvalue Hkc Hbefore Hsub Hreceipt Hhash.
  assert (attempt_return (chain_env env kc) = Some (Some tx_hash)) as Hret.
  { unfold attempt_return. rewrite Hsub.
    destruct Hreceipt as [-> | (r & -> & ->)]; reflexivity. }
  assert (forall fee_rate index_value q,
             enabled q = true -> account q = Some address ->
             exists q',
               BlockchainBridge.send_fee_update cfg fee_rate index_value (chain_env env) q
               = (Ok (Some tx_hash), q')) as Hsend.
  { intros fee_rate index_value q Hq Hqa.
    destruct (send_fee_update_value cfg fee_rate index_value (chain_env env) q address Hq Hqa)
      as (returned & q' & E & _ & Hfirst).
    exists q'. rewrite E. rewrite (Hfirst kc (Some tx_hash) Hkc Hbefore Hret). reflexivity. }
  split; [exact Hsend|].
  destruct (run_oracle_update_shape cfg py env p) as (found & p1 & E & F & Hrun).
  destruct (extract_result cfg py (fetch_env env) (started p))
    as (found' & p1' & E' & _ & Hnone & _).
  rewrite E in E'. injection E' as <- <-.
  destruct found as [[index_value index_text]|];
    [| exfalso; apply Hvalue; apply (proj1 Hnone eq_refl); exact Hkf].
  destruct Hrun as (tx & status & p2 & C & F2 & Hrun).
  pose proof (moved_frozen _ _ Enabled _ _ F ltac:(simpl; tauto)) as Ke.
  pose proof (moved_frozen _ _ Account _ _ F ltac:(simpl; tauto)) as Ka.
  simpl in Ke, Ka.
  unfold committed in C. rewrite Ke, He in C. destruct C as [S ->].
  destruct (Hsend (DynamicFeeCalculator.calculate_fee_rate cfg index_value) index_value p1)
    as (q' & S'); [congruence | congruence |].
  rewrite S in S'. injection S' as -> <-.
  eexists. eexists. split; [exact Hrun|]. split.
  - rewrite saved_records_reported.
    rewrite (commit_frame_saved_records _ _ F2), (fetch_frame_saved_records _ _ F).
    unfold started, saved_records. simpl. rewrite flat_map_app. simpl.
    rewrite app_nil_r. reflexivity.
  - split; [reflexivity|]. simpl.
    destruct (String.eqb_spec tx_hash ""); [contradiction | reflexivity].
Qed.

Lemma disabled_send cfg fee_rate index_value env q :
  enabled q = false ->
  BlockchainBridge.send_fee_update cfg fee_rate index_value env q
  = (Ok None,
     add_event (Log WARNING "Blockchain bridge not enabled - skipping contract update") q).
Proof.
  intro Hq. unfold BlockchainBridge.send_fee_update. run_monad. rewrite Hq. reflexivity.
Qed.

Lemma unconfigured_init cfg init_env p :
  RPC_URL cfg = ""%string \/ Py.contains "YOUR_API_KEY" (RPC_URL cfg) = true
  \/ PRIVATE_KEY cfg = ""%string \/ CONTRACT_ADDRESS cfg = ""%string ->
  exists message,
    BlockchainBridge.__init__ cfg init_env p
    = (Ok tt, add_event (Log WARNING message) (set_account None (set_enabled false p))).
Proof.
  intro Habsent.
  unfold BlockchainBridge.__init__, BlockchainBridge._initialize_web3, try_except.
  run_monad. destruct (WEB3_AVAILABLE init_env); simpl; [|eexists; reflexivity].
  destruct (String.eqb (RPC_URL cfg) "" || Py.contains "YOUR_API_KEY" (RPC_URL cfg)) eqn:Erpc;
    [eexists; reflexivity|].
  destruct (String.eqb (PRIVATE_KEY cfg) "") eqn:Ekey; [eexists; reflexivity|].
  destruct (String.eqb (CONTRACT_ADDRESS cfg) "") eqn:Eaddr; [eexists; reflexivity|].
  exfalso. apply orb_false_iff in Erpc as [Erpc1 Erpc2].
  destruct Habsent as [H|[H|[H|H]]].
  - rewrite H in Erpc1. discriminate.
  - congruence.
  - rewrite H in Ekey. discriminate.
  - rewrite H in Eaddr. discriminate.
Qed.

Lemma disabled_run cfg py env q :
  enabled q = false ->
  exists outcome q' handed,
    IndexOracleSystem.run_oracle_update cfg py env q = (Ok outcome, q')
    /\ ledger_calls (trace q') = ledger_calls (trace q)
    /\ saved_records (trace q') = saved_records (trace q) ++ handed
    /\ Forall (fun r => blockchain_status r = "disabled"%string
                        /\ blockchain_tx_hash r = ""%string) handed.
Proof.
  intro Hq.
  destruct (run_oracle_update_shape cfg py env q) as (found & p1 & E & F & Hrun).
  pose proof (moved_frozen _ _ Enabled _ _ F ltac:(simpl; tauto)) as Ke. simpl in Ke.
  pose proof (fetch_frame_ledger_calls _ _ F) as Fl.
  pose proof (fetch_frame_saved_records _ _ F) as Fs.
  assert (ledger_calls (trace (started q)) = ledger_calls (trace q)) as Sl.
  { unfold started, ledger_calls. simpl. rewrite filter_app. simpl. apply app_nil_r. }
  assert (saved_records (trace (started q)) = saved_records (trace q)) as Ss.
  { unfold started, saved_records. simpl. rewrite flat_map_app. simpl. apply app_nil_r. }
  destruct found as [[index_value index_text]|].
  - destruct Hrun as (tx & status & p2 & C & _ & Hrun).
    unfold committed in C. rewrite Ke, Hq in C. destruct C as (-> & -> & ->).
    eexists. eexists. eexists. split; [exact Hrun|]. split; [|split].
    + rewrite ledger_calls_reported. congruence.
    + rewrite saved_records_reported. rewrite Fs, Ss. reflexivity.
    + repeat constructor.
  - eexists. eexists. exists []. split; [exact Hrun|]. split; [|split].
    + unfold ledger_calls in *. simpl. rewrite filter_app. simpl. rewrite app_nil_r. congruence.
    + unfold saved_records in *. simpl. rewrite flat_map_app. simpl.
      rewrite !app_nil_r. congruence.
    + constructor.
Qed.

(** C7.  When the RPC endpoint is empty or still the placeholder, or the
    private key is empty, or the contract address is empty, constructing
    the bridge makes no ledger call and leaves it disabled; a disabled
    bridge answers [send_fee_update] with [None] at once, after a single
    warning and no ledger call; and a run on a disabled bridge makes no
    ledger call and labels what it hands over "disabled", with an empty
    transaction hash. *)
Theorem unconfigured_bridge_makes_no_call cfg init_env p :
  RPC_URL cfg = ""%string \/ Py.contains "YOUR_API_KEY" (RPC_URL cfg) = true
  \/ PRIVATE_KEY cfg = ""%string \/ CONTRACT_ADDRESS cfg = ""%string ->
  exists p1,
    BlockchainBridge.__init__ cfg init_env p = (Ok tt, p1)
    /\ enabled p1 = false
    /\ ledger_calls (trace p1) = ledger_calls (trace p)
    /\ (forall fee_rate index_value env q,
           enabled q = false ->
           exists q',
             BlockchainBridge.send_fee_update cfg fee_rate index_value env q = (Ok None, q')
             /\ ledger_calls (trace q') = ledger_calls (trace q))
    /\ (forall py env q,
           enabled q = false ->
           exists outcome q' handed,
             IndexOracleSystem.run_oracle_update cfg py env q = (Ok outcome, q')
             /\ ledger_calls (trace q') = ledger_calls (trace q)
             /\ saved_records (trace q') = saved_records (trace q) ++ handed
             /\ Forall (fun r => blockchain_status r = "disabled"%string
                                 /\ blockchain_tx_hash r = ""%string) handed).
Proof.
  intro Habsent.
  destruct (unconfigured_init cfg init_env p Habsent) as (message & E).
  eexists. split; [exact E|]. split; [reflexivity|]. split; [|split].
  - unfold ledger_calls. simpl. rewrite filter_app. simpl. apply app_nil_r.
  - intros fee_rate index_value env q Hq. eexists. split; [apply disabled_send; exact Hq|].
    unfold ledger_calls. simpl. rewrite filter_app. simpl. apply app_nil_r.
  - intros py env q Hq. apply disabled_run. exact Hq.
Qed.

(** C8.  In an attempt that reads a gas price above the configured cap,
    a warning is logged and the attempt goes on: once the nonce is read,
    the transaction handed to [build_transaction] carries exactly the cap,
    which is the minimum of the observed price and the cap, and the
    attempt ends the way the remaining calls decide, as [attempt_return]
    reads them. *)
Theorem gas_price_capped cfg fee_rate index_value env p address observed nonce :
  account p = Some address ->
  gas_price env = Some observed ->
  observed > BlockchainBridge.to_wei_gwei (MAX_GAS_PRICE_GWEI cfg) ->
  call_ok env = true ->
  transaction_count env = Some nonce ->
  let capped := BlockchainBridge.to_wei_gwei (MAX_GAS_PRICE_GWEI cfg) in
  let tx := {| newFeeRate := fee_rate;
               indexValue := Py.int index_value;
               tx_from := address;
               tx_gas := GAS_LIMIT cfg;
               tx_gasPrice := capped;
               tx_nonce := nonce;
               tx_chainId := CHAIN_ID cfg |} in
  Z.min observed capped = capped
  /\ exists p' rest,
      BlockchainBridge.send_attempt cfg fee_rate index_value env p
      = (match attempt_return env with
         | Some returned => Ok returned
         | None => Raised Web3Error
         end, p')
      /\ trace p'
         = trace p
           ++ [Log INFO "Sending fee update to blockchain"; RpcGasPrice;
               Log WARNING "Gas price too high";
               RpcGetTransactionCount address; BuildTransaction tx]
           ++ rest.
Proof.
  intros Ha Hg Hhigh Hcall Hnonce capped tx.
  assert (Z.min observed capped = capped) as Hmin by (subst capped; lia).
  split; [exact Hmin|].
  unfold BlockchainBridge.send_attempt, attempt_return, submitted, try_except, external.
  run_monad. rewrite Hg, Hcall, Hnonce. simpl.
  destruct (Z.gtb_spec observed (BlockchainBridge.to_wei_gwei (MAX_GAS_PRICE_GWEI cfg)));
    [|lia].
  simpl. rewrite Ha. simpl. fold capped. rewrite Hmin. fold tx.
  destruct (build_ok env); destruct (signed_raw env) as [raw|];
    destruct (sent_hash env) as [tx_hash|];
    destruct (receipt env) as [r|]; try destruct (status r =? 1); simpl;
    eexists; eexists; (split; [reflexivity | simpl; rewrite <- ?app_assoc; reflexivity]).
Qed.

(** ** The statements on concrete runs *)

(** C1, as stated, fails: when the source cannot be reached in any of the
    three attempts, the run returns [False] and the number of records
    handed over is not one. *)
Lemma failed_fetch_hands_over_no_record :
  let run := IndexOracleSystem.run_oracle_update Scenario.configured Scenario.py
               (Scenario.run_env Scenario.outage Scenario.confirmed) Scenario.bridge_ready in
  fst run = Ok false
  /\ List.length (saved_records (trace (snd run))) <> 1%nat.
Proof. vm_compute. split; [reflexivity | discriminate]. Qed.

(** C2, as stated, fails: a run whose receipt wait raises hands over the
    very record that the same run with a confirmed receipt hands over,
    status "success". *)
Lemma unconfirmed_recorded_like_confirmed :
  let run chain := IndexOracleSystem.run_oracle_update Scenario.configured Scenario.py
                     (Scenario.run_env Scenario.page chain) Scenario.bridge_ready in
  saved_records (trace (snd (run Scenario.unconfirmed)))
  = saved_records (trace (snd (run Scenario.confirmed)))
  /\ map blockchain_status (saved_records (trace (snd (run Scenario.unconfirmed))))
     = ["success"%string].
Proof. vm_compute. split; reflexivity. Qed.

(** C9, as stated, fails: at an age of exactly 168 hours the stored
    identity is returned and nothing is stored. *)
Lemma identity_kept_at_exact_lifetime :
  now Scenario.at_expiry - 0
  = Level5AntiDetection.session_duration source_config
  /\ Level5AntiDetection.get_session source_config Scenario.at_expiry Scenario.week_old
     = (Ok (current_session Scenario.week_old), Scenario.week_old)
  /\ session_start_time Scenario.week_old <> Some (created_at Scenario.at_expiry).
Proof. vm_compute. repeat split; discriminate. Qed.

(** The statements above that carry premises, applied to concrete runs.
    A run whose three fetches fail, and one whose first fetch succeeds. *)
Lemma run_oracle_update_records_witness :
  (exists p',
      IndexOracleSystem.run_oracle_update Scenario.configured Scenario.py
        (Scenario.run_env Scenario.outage Scenario.confirmed) Scenario.bridge_ready
      = (Ok false, p')
      /\ saved_records (trace p') = saved_records (trace Scenario.bridge_ready))
  /\ (exists p' r,
         IndexOracleSystem.run_oracle_update Scenario.configured Scenario.py
           (Scenario.run_env Scenario.page Scenario.confirmed) Scenario.bridge_ready
         = (Ok true, p')
         /\ saved_records (trace p') = saved_records (trace Scenario.bridge_ready) ++ [r]).
Proof.
  split.
  - destruct (run_oracle_update_records Scenario.configured Scenario.py
                (Scenario.run_env Scenario.outage Scenario.confirmed) Scenario.bridge_ready)
      as (outcome & p' & E & Hnone & _).
    destruct Hnone as [-> S]; [intros k _; reflexivity|].
    exists p'. split; assumption.
  - destruct (run_oracle_update_records Scenario.configured Scenario.py
                (Scenario.run_env Scenario.page Scenario.confirmed) Scenario.bridge_ready)
      as (outcome & p' & E & _ & Hsome).
    destruct (Hsome 0%nat) as [-> (r & S)];
      [simpl; lia | vm_compute; discriminate |].
    exists p', r. split; assumption.
Defined.

(** A run whose receipt wait raises after the submission. *)
Lemma unconfirmed_submission_witness :
  exists r p',
    IndexOracleSystem.run_oracle_update Scenario.configured Scenario.py
      (Scenario.run_env Scenario.page Scenario.unconfirmed) Scenario.bridge_ready
    = (Ok true, p')
    /\ saved_records (trace p') = saved_records (trace Scenario.bridge_ready) ++ [r]
    /\ blockchain_tx_hash r = "0x5e1f"%string
    /\ blockchain_status r = "success"%string.
Proof.
  apply (unconfirmed_submission_recorded_as_success Scenario.configured Scenario.py
           (Scenario.run_env Scenario.page Scenario.unconfirmed) Scenario.bridge_ready
           "0x90f8bf6a" 0%nat 0%nat "0x5e1f").
  - reflexivity.
  - reflexivity.
  - simpl; lia.
  - vm_compute; discriminate.
  - simpl; lia.
  - intros j Hj. inversion Hj.
  - reflexivity.
  - left. reflexivity.
  - discriminate.
Defined.

(** The bridge built from the constants of the source, whose endpoint is
    the placeholder. *)
Lemma unconfigured_bridge_witness :
  exists p1,
    BlockchainBridge.__init__ source_config Scenario.node_up IndexOracleSystem.initial
    = (Ok tt, p1)
    /\ enabled p1 = false
    /\ ledger_calls (trace p1) = [].
Proof.
  destruct (unconfigured_bridge_makes_no_call source_config Scenario.node_up
              IndexOracleSystem.initial) as (p1 & E & He & Hl & _).
  - right. left. reflexivity.
  - exists p1. repeat split; assumption.
Defined.

(** An attempt that reads 80 gwei under a cap of 50 gwei. *)
Lemma gas_price_capped_witness :
  Z.min 80000000000 50000000000 = 50000000000
  /\ exists p' rest,
      BlockchainBridge.send_attempt Scenario.configured 64 1500 Scenario.confirmed
        Scenario.bridge_ready
      = (Ok (Some "0x5e1f"%string), p')
      /\ trace p'
         = trace Scenario.bridge_ready
           ++ [Log INFO "Sending fee update to blockchain"; RpcGasPrice;
               Log WARNING "Gas price too high";
               RpcGetTransactionCount "0x90f8bf6a";
               BuildTransaction
                 {| newFeeRate := 64; indexValue := 1500; tx_from := "0x90f8bf6a";
                    tx_gas := 200000; tx_gasPrice := 50000000000; tx_nonce := 7;
                    tx_chainId := 11155111 |}]
           ++ rest.
Proof.
  apply (gas_price_capped Scenario.configured 64 1500 Scenario.confirmed
           Scenario.bridge_ready "0x90f8bf6a" 80000000000 7);
    reflexivity.
Defined.

(** An identity exactly 168 hours old, and the same identity one
    microsecond later. *)
Lemma get_session_rotation_witness :
  Level5AntiDetection.get_session source_config Scenario.at_expiry Scenario.week_old
  = (Ok (current_session Scenario.week_old), Scenario.week_old)
  /\ exists combo agent p',
      Level5AntiDetection.get_session source_config Scenario.past_expiry Scenario.week_old
      = (Ok (Some (new_identity combo agent)), p')
      /\ session_start_time p' = Some (created_at Scenario.past_expiry).
Proof.
  split.
  - apply (proj1 (get_session_rotation source_config Scenario.at_expiry Scenario.week_old)
             {| headers := [("User-Agent"%string, "Mozilla/5.0"%string)] |} 0).
    + reflexivity.
    + reflexivity.
    + vm_compute. discriminate.
  - destruct (proj2 (get_session_rotation source_config Scenario.past_expiry
                       Scenario.week_old))
      as (combo & agent & p' & _ & _ & E & _ & T).
    + right. right. exists 0. split; [reflexivity | vm_compute; reflexivity].
    + exists combo, agent, p'. split; assumption.
Defined.

(** An extraction whose first attempt fails and whose second succeeds. *)
Lemma extract_index_with_retry_witness :
  exists p',
    IndexExtractor.extract_index_with_retry source_config Scenario.py
      (fun k => match k with
                | O => Scenario.outage
                | _ => Scenario.page
                end) IndexOracleSystem.initial
    = (Ok (Some (6001 # 4, "1,500.25"%string)), p')
    /\ (http_gets (trace p') <= 3)%nat.
Proof.
  destruct (extract_index_with_retry_bounded source_config Scenario.py
              (fun k => match k with
                        | O => Scenario.outage
                        | _ => Scenario.page
                        end) IndexOracleSystem.initial)
    as (found & p' & E & G & _ & Hfirst).
  exists p'. split; [|exact G].
  rewrite E. rewrite (Hfirst 1%nat (6001 # 4, "1,500.25"%string)).
  - reflexivity.
  - simpl; lia.
  - reflexivity.
  - intros j Hj. assert (j = 0)%nat as -> by lia. reflexivity.
Defined.

(** * Further properties *)

(** ** Further properties of the fee transform *)

Section FeeShape.
Local Open Scope Q_scope.
Variable cfg : OracleConfig.

(** The [try] block of [calculate_fee_rate] runs to a [return]: the
    divisor of the interpolation is [1.67 * INDEX_BASELINE], and when the
    baseline is zero no index value reaches the interpolation. *)
Lemma fee_try_returns x :
  exists fee,
    DynamicFeeCalculator.calculate_fee_rate_try cfg x = Some fee
    /\ DynamicFeeCalculator.calculate_fee_rate cfg x = fee.
Proof.
  unfold DynamicFeeCalculator.calculate_fee_rate,
    DynamicFeeCalculator.calculate_fee_rate_try.
  destruct (Qle_bool x 0) eqn:E0; [eexists; split; reflexivity|].
  destruct (Qle_bool (INDEX_BASELINE cfg * 2) x) eqn:E1; [eexists; split; reflexivity|].
  destruct (Qle_bool x (INDEX_BASELINE cfg * (33 # 100))) eqn:E2;
    [eexists; split; reflexivity|].
  apply Qle_bool_false in E0, E1, E2.
  unfold Py.div.
  destruct (Qeq_bool _ 0) eqn:E; [|eexists; split; reflexivity].
  apply Qeq_bool_iff in E. lra.
Qed.

Lemma round_inject_Z n : Py.round (inject_Z n) = n.
Proof.
  unfold Py.round. rewrite Qfloor_Z.
  destruct (Qcompare_spec (inject_Z n - inject_Z n) (1 # 2)) as [H|H|H];
    [lra | reflexivity | lra].
Qed.

Lemma clamp_between q :
  (MIN_FEE_RATE cfg <= MAX_FEE_RATE cfg)%Z ->
  inject_Z (MIN_FEE_RATE cfg)
  <= Py.max (inject_Z (MIN_FEE_RATE cfg)) (Py.min (inject_Z (MAX_FEE_RATE cfg)) q)
  <= inject_Z (MAX_FEE_RATE cfg).
Proof.
  intro H. rewrite Zle_Qle in H. unfold Py.max, Py.min.
  repeat match goal with
         | |- context [Py.Qltb ?a ?b] =>
             let E := fresh "E" in
             destruct (Py.Qltb a b) eqn:E;
             [apply Qltb_true in E | apply Qltb_false in E]
         end; lra.
Qed.

Lemma clamp_above q bound :
  bound <= inject_Z (MAX_FEE_RATE cfg) -> bound <= q ->
  bound <= Py.max (inject_Z (MIN_FEE_RATE cfg)) (Py.min (inject_Z (MAX_FEE_RATE cfg)) q).
Proof.
  intros Hm Hq. unfold Py.max, Py.min.
  destruct (Py.Qltb q (inject_Z (MAX_FEE_RATE cfg))) eqn:E1;
    [apply Qltb_true in E1 | apply Qltb_false in E1].
  all: match goal with
       | |- context [Py.Qltb ?a ?b] =>
           let E := fresh "E" in
           destruct (Py.Qltb a b) eqn:E;
           [apply Qltb_true in E | apply Qltb_false in E]
       end; lra.
Qed.

Lemma round_of_clamped y :
  (MIN_FEE_RATE cfg <= MAX_FEE_RATE cfg)%Z ->
  enforce_boundaries cfg
    (Py.round (Py.max (inject_Z (MIN_FEE_RATE cfg))
                 (Py.min (inject_Z (MAX_FEE_RATE cfg)) y)))
  = Py.round (Py.max (inject_Z (MIN_FEE_RATE cfg))
                (Py.min (inject_Z (MAX_FEE_RATE cfg)) y)).
Proof.
  intro H. destruct (clamp_between y H) as [L U].
  apply round_mono in L, U. rewrite round_inject_Z in L, U.
  unfold enforce_boundaries.
  destruct (Z.ltb_spec (Py.round (Py.max (inject_Z (MIN_FEE_RATE cfg))
                          (Py.min (inject_Z (MAX_FEE_RATE cfg)) y))) (MIN_FEE_RATE cfg));
    [lia|].
  destruct (Z.gtb_spec (Py.round (Py.max (inject_Z (MIN_FEE_RATE cfg))
                          (Py.min (inject_Z (MAX_FEE_RATE cfg)) y))) (MAX_FEE_RATE cfg));
    [lia | reflexivity].
Qed.

(** A value clamped between the two bounds rounds to an integer between
    them. *)
Lemma round_of_clamped_between q :
  (MIN_FEE_RATE cfg <= MAX_FEE_RATE cfg)%Z ->
  (MIN_FEE_RATE cfg
   <= Py.round (Py.max (inject_Z (MIN_FEE_RATE cfg))
                  (Py.min (inject_Z (MAX_FEE_RATE cfg)) q))
   <= MAX_FEE_RATE cfg)%Z.
Proof.
  intros H. destruct (clamp_between q H) as [L U].
  apply round_mono in L, U. rewrite round_inject_Z in L, U. lia.
Qed.

(** X2.  The interpolation meets the two flat regions: at the lower end of
    the band, [0.33 * INDEX_BASELINE], it takes the value [MAX_FEE_RATE],
    and at the upper end, [2 * INDEX_BASELINE], the value [MIN_FEE_RATE],
    which are the fee rates the code returns at these two index values.
    The fee rate makes no jump where the regions meet. *)
Theorem interpolation_meets_the_clamps :
  0 < INDEX_BASELINE cfg ->
  DynamicFeeCalculator.interpolated_fee cfg (INDEX_BASELINE cfg * (33 # 100))
  == inject_Z (MAX_FEE_RATE cfg)
  /\ DynamicFeeCalculator.interpolated_fee cfg (INDEX_BASELINE cfg * 2)
     == inject_Z (MIN_FEE_RATE cfg)
  /\ DynamicFeeCalculator.calculate_fee_rate cfg (INDEX_BASELINE cfg * (33 # 100))
     = MAX_FEE_RATE cfg
  /\ DynamicFeeCalculator.calculate_fee_rate cfg (INDEX_BASELINE cfg * 2)
     = MIN_FEE_RATE cfg.
Proof.
  intro Hb.
  assert (~ INDEX_BASELINE cfg * 2 - INDEX_BASELINE cfg * (33 # 100) == 0) as Hd by lra.
  split; [|split; [|split]].
  - unfold DynamicFeeCalculator.interpolated_fee. field. exact Hd.
  - unfold DynamicFeeCalculator.interpolated_fee.
    unfold Zminus. rewrite inject_Z_plus, inject_Z_opp. field. exact Hd.
  - destruct (fee_cases cfg (INDEX_BASELINE cfg * (33 # 100)) Hb) as [[L _]|[[_ E]|[L _]]];
      try lra. exact E.
  - destruct (fee_cases cfg (INDEX_BASELINE cfg * 2) Hb) as [[_ E]|[[L _]|[_ L]]];
      try lra. exact E.
Qed.

Lemma trend_very_high x :
  0 < INDEX_BASELINE cfg -> INDEX_BASELINE cfg * (3 # 2) <= x ->
  DynamicFeeCalculator.trend cfg x
  = "INDEX VERY HIGH -> Market excellent -> Min fee"%string.
Proof.
  intros Hb H. unfold DynamicFeeCalculator.trend.
  assert (Qle_bool (INDEX_BASELINE cfg) x = true) as -> by (apply Qle_bool_iff; lra).
  assert (Qle_bool (INDEX_BASELINE cfg * (3 # 2)) x = true) as ->
      by (apply Qle_bool_iff; lra).
  reflexivity.
Qed.

(** X3.  Outside the band the explanation and the fee rate agree: from
    [2 * INDEX_BASELINE] on the rate is [MIN_FEE_RATE] and the explanation
    announces the minimum fee; up to [0.33 * INDEX_BASELINE] the rate is
    [MAX_FEE_RATE] and the explanation announces the maximum fee. *)
Theorem explanation_agrees_with_fee_outside_band x :
  0 < INDEX_BASELINE cfg -> 0 < x ->
  (INDEX_BASELINE cfg * 2 <= x ->
   DynamicFeeCalculator.calculate_fee_rate cfg x = MIN_FEE_RATE cfg
   /\ DynamicFeeCalculator.trend cfg x
      = "INDEX VERY HIGH -> Market excellent -> Min fee"%string)
  /\ (x <= INDEX_BASELINE cfg * (33 # 100) ->
      DynamicFeeCalculator.calculate_fee_rate cfg x = MAX_FEE_RATE cfg
      /\ DynamicFeeCalculator.trend cfg x
         = "INDEX VERY LOW -> Market stressed -> Max fee"%string).
Proof.
  intros Hb Hx. split; intro H.
  - split.
    + destruct (fee_cases cfg x Hb Hx) as [[_ E]|[[L _]|[_ L]]]; try lra. exact E.
    + apply trend_very_high; [exact Hb | lra].
  - split.
    + destruct (fee_cases cfg x Hb Hx) as [[L _]|[[_ E]|[L _]]]; try lra. exact E.
    + unfold DynamicFeeCalculator.trend.
      assert (Qle_bool (INDEX_BASELINE cfg) x = false) as ->
          by (apply Qle_bool_false; lra).
      assert (Qle_bool x (INDEX_BASELINE cfg * (1 # 2)) = true) as ->
          by (apply Qle_bool_iff; lra).
      reflexivity.
Qed.

Lemma interpolated_one_above_minimum x :
  0 < INDEX_BASELINE cfg -> (MIN_FEE_RATE cfg < MAX_FEE_RATE cfg)%Z ->
  x <= INDEX_BASELINE cfg * 2
       - (INDEX_BASELINE cfg * 2 - INDEX_BASELINE cfg * (33 # 100))
         / inject_Z (MAX_FEE_RATE cfg - MIN_FEE_RATE cfg) ->
  inject_Z (MIN_FEE_RATE cfg) + 1 <= DynamicFeeCalculator.interpolated_fee cfg x.
Proof.
  intros Hb Hlh Hx. unfold DynamicFeeCalculator.interpolated_fee.
  set (d := INDEX_BASELINE cfg * 2 - INDEX_BASELINE cfg * (33 # 100)) in *.
  set (m := inject_Z (MAX_FEE_RATE cfg - MIN_FEE_RATE cfg)) in *.
  assert (0 < d) as Hd by (subst d; lra).
  assert (1 <= m) as Hm.
  { subst m. change 1 with (inject_Z 1). rewrite <- Zle_Qle. lia. }
  assert (inject_Z (MAX_FEE_RATE cfg) == inject_Z (MIN_FEE_RATE cfg) + m) as Em.
  { subst m. unfold Zminus. rewrite inject_Z_plus, inject_Z_opp. ring. }
  assert ((x - INDEX_BASELINE cfg * (33 # 100)) * m <= (d - d / m) * m) as H1.
  { apply Qmult_le_compat_r; [subst d; lra | lra]. }
  assert ((d - d / m) * m == (m - 1) * d) as H2 by (field; lra).
  rewrite H2 in H1.
  assert ((x - INDEX_BASELINE cfg * (33 # 100)) * m / d <= (m - 1) * d / d) as H3.
  { apply Qmult_le_compat_r; [exact H1|]. apply Qlt_le_weak, Qinv_lt_0_compat. exact Hd. }
  assert ((m - 1) * d / d == m - 1) as H4 by (field; lra).
  rewrite H4 in H3. rewrite Em. lra.
Qed.

(** X4.  Between [1.5 * INDEX_BASELINE] and the end of the band the
    explanation announces the minimum fee although the rate is still
    interpolated: up to the index value where the interpolation is one
    basis point above [MIN_FEE_RATE], the explanation reads "Min fee" and
    the fee rate returned is strictly above [MIN_FEE_RATE]. *)
Theorem explanation_announces_min_fee_early x :
  0 < INDEX_BASELINE cfg -> (MIN_FEE_RATE cfg < MAX_FEE_RATE cfg)%Z ->
  INDEX_BASELINE cfg * (3 # 2) <= x ->
  x <= INDEX_BASELINE cfg * 2
       - (INDEX_BASELINE cfg * 2 - INDEX_BASELINE cfg * (33 # 100))
         / inject_Z (MAX_FEE_RATE cfg - MIN_FEE_RATE cfg) ->
  DynamicFeeCalculator.trend cfg x
  = "INDEX VERY HIGH -> Market excellent -> Min fee"%string
  /\ (MIN_FEE_RATE cfg < DynamicFeeCalculator.calculate_fee_rate cfg x)%Z.
Proof.
  intros Hb Hlh Hlow Hx.
  split; [apply trend_very_high; assumption|].
  pose proof (interpolated_one_above_minimum x Hb Hlh Hx) as Hi.
  assert (0 < (INDEX_BASELINE cfg * 2 - INDEX_BASELINE cfg * (33 # 100))
              / inject_Z (MAX_FEE_RATE cfg - MIN_FEE_RATE cfg)) as Hpos.
  { apply Qlt_shift_div_l.
    - change 0 with (inject_Z 0). rewrite <- Zlt_Qlt. lia.
    - lra. }
  assert (in_band cfg x) as Hband by (split; lra).
  rewrite fee_in_band by assumption.
  rewrite round_of_clamped by lia.
  assert (inject_Z (MIN_FEE_RATE cfg + 1) <= inject_Z (MAX_FEE_RATE cfg)) as Hmax.
  { rewrite <- Zle_Qle. lia. }
  assert (inject_Z (MIN_FEE_RATE cfg + 1)
          <= DynamicFeeCalculator.interpolated_fee cfg x) as Hi'.
  { rewrite inject_Z_plus. exact Hi. }
  pose proof (clamp_above _ _ Hmax Hi') as Hc.
  apply round_mono in Hc. rewrite round_inject_Z in Hc. lia.
Qed.

End FeeShape.

(** A double strictly between 10 and 100 is finite. *)
Lemma between_is_finite (f : float) :
  PrimFloat.ltb 10 f = true -> PrimFloat.ltb f 100 = true ->
  exists q, Binary64.to_Q f = Some q.
Proof.
  intros E2 E1. rewrite ltb_spec in E1, E2. unfold Binary64.to_Q.
  destruct (Prim2SF f) as [s|s| |s m e]; try (eexists; reflexivity).
  - destruct s; vm_compute in E1, E2; discriminate.
  - vm_compute in E1. discriminate.
Qed.

Lemma binary64_try_returns (x : float) :
  exists fee,
    Binary64.calculate_fee_rate_try x = Some fee
    /\ Binary64.calculate_fee_rate x = fee.
Proof.
  unfold Binary64.calculate_fee_rate, Binary64.calculate_fee_rate_try.
  destruct (PrimFloat.leb x 0); [eexists; split; reflexivity|].
  destruct (PrimFloat.leb _ x); [eexists; split; reflexivity|].
  destruct (PrimFloat.leb x _); [eexists; split; reflexivity|].
  match goal with
  | |- context [Binary64.min 100 ?f] => set (fee_rate := f)
  end.
  unfold Binary64.max, Binary64.min.
  destruct (PrimFloat.ltb fee_rate 100) eqn:E1.
  - destruct (PrimFloat.ltb 10 fee_rate) eqn:E2.
    + destruct (between_is_finite fee_rate E2 E1) as (q & Hq).
      unfold Binary64.round. rewrite Hq. eexists. split; reflexivity.
    + eexists. split; reflexivity.
  - eexists. split; reflexivity.
Qed.

(** On doubles, whatever the interpolation gave, NaN and the infinities
    included, the clamped value rounds to an integer between 10 and 100. *)
Lemma clamped_double_rounds_between (f : float) :
  exists r,
    Binary64.round (Binary64.max 10 (Binary64.min 100 f)) = Some r /\ 10 <= r <= 100.
Proof.
  unfold Binary64.min.
  destruct (PrimFloat.ltb f 100) eqn:E1; [|eexists; split; [vm_compute; reflexivity | lia]].
  unfold Binary64.max.
  destruct (PrimFloat.ltb 10 f) eqn:E2; [|eexists; split; [vm_compute; reflexivity | lia]].
  destruct (above_positive 10 f 10 double_10 E2) as [(v & P & Hv)|Inf];
    [|rewrite (nothing_above_infinity f 100 Inf) in E1; discriminate E1].
  pose proof (proj1 (positive_ltb f 100 v 100 P double_100) E1) as Hv'.
  destruct (positive_to_Q f v P) as (q & Eq & Hq).
  unfold Binary64.round. rewrite Eq. exists (Py.round q). split; [reflexivity|].
  assert (inject_Z 10 <= q)%Q as L by (change (inject_Z 10) with 10%Q; lra).
  assert (q <= inject_Z 100)%Q as U by (change (inject_Z 100) with 100%Q; lra).
  apply round_mono in L, U. rewrite round_inject_Z in L, U. lia.
Qed.

(** X1.  The two integer boundary checks that end [calculate_fee_rate]
    (its "paranoid mode") never change anything: whatever value the
    interpolation gave, it was clamped before it was rounded, and rounding
    keeps it between the two integer bounds.  This holds in exact
    arithmetic for every configuration with
    [MIN_FEE_RATE <= MAX_FEE_RATE], and on IEEE doubles with the constants
    of the source for every double, NaN and the infinities included. *)
Theorem second_boundary_check_is_redundant :
  (forall cfg q,
      MIN_FEE_RATE cfg <= MAX_FEE_RATE cfg ->
      enforce_boundaries cfg
        (Py.round (Py.max (inject_Z (MIN_FEE_RATE cfg))
                     (Py.min (inject_Z (MAX_FEE_RATE cfg)) q)))
      = Py.round (Py.max (inject_Z (MIN_FEE_RATE cfg))
                    (Py.min (inject_Z (MAX_FEE_RATE cfg)) q))
      /\ MIN_FEE_RATE cfg
         <= Py.round (Py.max (inject_Z (MIN_FEE_RATE cfg))
                        (Py.min (inject_Z (MAX_FEE_RATE cfg)) q))
         <= MAX_FEE_RATE cfg)
  /\ (forall f : float,
         exists r,
           Binary64.round (Binary64.max 10 (Binary64.min 100 f)) = Some r
           /\ 10 <= r <= 100
           /\ enforce_boundaries source_config r = r).
Proof.
  split.
  - intros cfg q H. split; [apply round_of_clamped | apply round_of_clamped_between]; exact H.
  - intro f. destruct (clamped_double_rounds_between f) as (r & E & B).
    exists r. split; [exact E|]. split; [exact B|].
    unfold enforce_boundaries. simpl.
    destruct (Z.ltb_spec r 10); [lia|]. destruct (Z.gtb_spec r 100); [lia | reflexivity].
Qed.

Lemma second_boundary_check_witness :
  enforce_boundaries source_config
    (Py.round (Py.max (inject_Z 10) (Py.min (inject_Z 100) (10670 # 167))))
  = Py.round (Py.max (inject_Z 10) (Py.min (inject_Z 100) (10670 # 167)))
  /\ exists r,
      Binary64.round (Binary64.max 10 (Binary64.min 100 infinity)) = Some r
      /\ enforce_boundaries source_config r = r.
Proof.
  destruct second_boundary_check_is_redundant as [Hexact Hdoubles]. split.
  - apply (Hexact source_config (10670 # 167)). simpl. lia.
  - destruct (Hdoubles infinity) as (r & E & _ & K). exists r. split; [exact E | exact K].
Defined.

(** X5.  The [except] clause of [calculate_fee_rate] is never taken.  In
    exact arithmetic, for every configuration and every index value, the
    [try] block runs to a [return]: no division by zero can occur.  On
    IEEE doubles with the source's constants the same holds for every
    double, NaN and the infinities included: the value handed to [round]
    has been clamped and is finite. *)
Theorem calculate_fee_rate_never_raises :
  (forall cfg x,
      exists fee,
        DynamicFeeCalculator.calculate_fee_rate_try cfg x = Some fee
        /\ DynamicFeeCalculator.calculate_fee_rate cfg x = fee)
  /\ (forall x : float,
         exists fee,
           Binary64.calculate_fee_rate_try x = Some fee
           /\ Binary64.calculate_fee_rate x = fee).
Proof. split; [exact fee_try_returns | exact binary64_try_returns]. Qed.

Lemma interpolation_meets_the_clamps_witness :
  DynamicFeeCalculator.calculate_fee_rate source_config (1500 * (33 # 100)) = 100%Z
  /\ DynamicFeeCalculator.calculate_fee_rate source_config (1500 * 2) = 10%Z.
Proof.
  destruct (interpolation_meets_the_clamps source_config) as (_ & _ & E1 & E2).
  - reflexivity.
  - split; [exact E1 | exact E2].
Defined.

Lemma explanation_agrees_witness :
  DynamicFeeCalculator.calculate_fee_rate source_config 3200 = 10%Z
  /\ DynamicFeeCalculator.trend source_config 3200
     = "INDEX VERY HIGH -> Market excellent -> Min fee"%string.
Proof.
  apply (explanation_agrees_with_fee_outside_band source_config 3200).
  - reflexivity.
  - reflexivity.
  - vm_compute. discriminate.
Defined.

Lemma explanation_announces_min_fee_early_witness :
  DynamicFeeCalculator.trend source_config 2250
  = "INDEX VERY HIGH -> Market excellent -> Min fee"%string
  /\ (10 < DynamicFeeCalculator.calculate_fee_rate source_config 2250)%Z.
Proof.
  apply (explanation_announces_min_fee_early source_config 2250).
  - reflexivity.
  - reflexivity.
  - vm_compute. discriminate.
  - vm_compute. discriminate.
Defined.

(** ** Further properties of the sessions *)

Lemma dict_get_set_same k v d : dict_get k (Py.dict_set k v d) = Some v.
Proof.
  induction d as [|[k' v'] rest IH]; simpl.
  - rewrite String.eqb_refl. reflexivity.
  - destruct (String.eqb k k') eqn:E; simpl.
    + rewrite String.eqb_refl. reflexivity.
    + rewrite E. exact IH.
Qed.

Lemma dict_get_set_other k k' v d :
  k' <> k -> dict_get k' (Py.dict_set k v d) = dict_get k' d.
Proof.
  intro N. induction d as [|[k0 v0] rest IH]; simpl.
  - destruct (String.eqb_spec k' k); [contradiction | reflexivity].
  - destruct (String.eqb_spec k k0) as [->|N0]; simpl.
    + destruct (String.eqb_spec k' k0); [contradiction | reflexivity].
    + destruct (String.eqb k' k0); [reflexivity | exact IH].
Qed.

(** X6.  [_select_browser_combination] honours the weights of the table:
    of the hundred draws [0 .. 99], exactly [weight] select each
    combination, the weights add up to 100, and a draw selects what its
    remainder modulo 100 selects. *)
Theorem selection_follows_the_weights :
  (forall combo,
      In combo Level5AntiDetection.browser_combinations ->
      List.length (draws_selecting (combo_name combo)) = weight combo)
  /\ list_sum (map weight Level5AntiDetection.browser_combinations) = 100%nat
  /\ forall draw p,
      Level5AntiDetection._select_browser_combination draw p
      = Level5AntiDetection._select_browser_combination (draw mod 100) p.
Proof.
  split; [|split].
  - intros combo Hin. simpl in Hin.
    destruct Hin as [<-|[<-|[<-|[<-|[]]]]]; vm_compute; reflexivity.
  - reflexivity.
  - intros draw p. unfold Level5AntiDetection._select_browser_combination.
    fold weighted_choices.
    assert (Py.random_choice draw weighted_choices
            = Py.random_choice (draw mod 100) weighted_choices) as ->; [|reflexivity].
    unfold Py.random_choice.
    assert (List.length weighted_choices = 100%nat) as L by (vm_compute; reflexivity).
    destruct weighted_choices; [reflexivity|].
    rewrite L. rewrite Nat.Div0.mod_mod. reflexivity.
Qed.

(** X7.  An identity that [get_session] creates is consistent: its
    User-Agent is one of the agents of the combination selected, and every
    other header is the one that combination registers. *)
Theorem new_identity_headers cfg env p :
  current_session p = None \/ session_start_time p = None
  \/ (exists t0, session_start_time p = Some t0
                 /\ Level5AntiDetection.session_duration cfg < now env - t0) ->
  exists combo agent s p',
    In combo Level5AntiDetection.browser_combinations /\ In agent (agents combo)
    /\ Level5AntiDetection.get_session cfg env p = (Ok (Some s), p')
    /\ dict_get "User-Agent" (headers s) = Some agent
    /\ forall k, k <> "User-Agent"%string ->
                 dict_get k (headers s) = dict_get k (combo_headers combo).
Proof.
  intro Hstale.
  destruct (get_session_stale cfg env p Hstale) as (combo & agent & Hin & Hag & E).
  exists combo, agent, (new_identity combo agent). eexists.
  split; [exact Hin|]. split; [exact Hag|]. split; [exact E|].
  split.
  - apply dict_get_set_same.
  - intros k Hk. apply dict_get_set_other. exact Hk.
Qed.

(** What [get_session] leaves behind: the identity it returns is the
    stored one, the process is as it was or rotated, and a registered
    identity stays registered. *)
Lemma get_session_stores cfg env p :
  exists s t p',
    Level5AntiDetection.get_session cfg env p = (Ok (Some s), p')
    /\ current_session p' = Some s /\ session_start_time p' = Some t
    /\ (p' = p \/ (registered s /\ p' = rotated env s p)).
Proof.
  destruct (current_session p) as [s|] eqn:Hs;
    [destruct (session_start_time p) as [t0|] eqn:Ht|].
  1: destruct (Z.le_gt_cases (now env - t0) (Level5AntiDetection.session_duration cfg))
       as [Hage|Hage].
  1: { exists s, t0, p. split; [apply (get_session_fresh cfg env p s t0); assumption|].
       repeat split; try assumption. left. reflexivity. }
  all: edestruct (get_session_stale cfg env p) as (combo & agent & Hin & Hag & E);
    [ first [ right; right; exists t0; split; [assumption | lia]
            | right; left; assumption | left; assumption ] | ].
  all: exists (new_identity combo agent), (created_at env),
         (rotated env (new_identity combo agent) p);
    split; [exact E|]; repeat split; right;
    (split; [exists combo, agent; repeat split; assumption | reflexivity]).
Qed.

(** X8.  Whatever [get_session] returns, it has stored: a second call
    made while the stored identity is at most the configured lifetime old
    returns the same identity and changes nothing. *)
Theorem identity_is_reused_within_lifetime cfg env1 env2 p :
  exists s t p1,
    Level5AntiDetection.get_session cfg env1 p = (Ok (Some s), p1)
    /\ current_session p1 = Some s
    /\ session_start_time p1 = Some t
    /\ (now env2 - t <= Level5AntiDetection.session_duration cfg ->
        Level5AntiDetection.get_session cfg env2 p1 = (Ok (Some s), p1)).
Proof.
  destruct (get_session_stores cfg env1 p) as (s & t & p1 & E & Hs & Ht & _).
  exists s, t, p1. split; [exact E|]. split; [exact Hs|]. split; [exact Ht|].
  intro Hage. apply (get_session_fresh cfg env2 p1 s t); assumption.
Qed.

Lemma selection_follows_the_weights_witness :
  List.length (draws_selecting "safari_mac") = 25%nat.
Proof.
  apply (proj1 selection_follows_the_weights
           {| combo_name := "safari_mac"; weight := 25;
              agents := [
                "Mozilla/5.0 (Macintosh; Intel Mac OS X 10_15_7) AppleWebKit/605.1.15 (KHTML, like Gecko) Version/17.1 Safari/605.1.15" ];
              combo_headers := [
                ("Accept", "text/html,application/xhtml+xml,application/xml;q=0.9,*/*;q=0.8");
                ("Accept-Language", "en-US,en;q=0.9");
                ("Accept-Encoding", "gzip, deflate, br");
                ("DNT", "1");
                ("Connection", "keep-alive") ] |}%string).
  simpl. right. left. reflexivity.
Defined.

Lemma new_identity_headers_witness :
  exists combo agent s p',
    In combo Level5AntiDetection.browser_combinations /\ In agent (agents combo)
    /\ Level5AntiDetection.get_session source_config Scenario.first_visit
         IndexOracleSystem.initial = (Ok (Some s), p')
    /\ dict_get "User-Agent" (headers s) = Some agent
    /\ forall k, k <> "User-Agent"%string ->
                 dict_get k (headers s) = dict_get k (combo_headers combo).
Proof.
  apply (new_identity_headers source_config Scenario.first_visit IndexOracleSystem.initial).
  left. reflexivity.
Defined.

Lemma identity_is_reused_witness :
  exists s p1,
    Level5AntiDetection.get_session source_config Scenario.first_visit
      IndexOracleSystem.initial = (Ok (Some s), p1)
    /\ Level5AntiDetection.get_session source_config Scenario.at_expiry p1
       = (Ok (Some s), p1).
Proof.
  destruct (identity_is_reused_within_lifetime source_config Scenario.first_visit
              Scenario.at_expiry IndexOracleSystem.initial)
    as (s & t & p1 & E & _ & Ht & Hreuse).
  exists s, p1. split; [exact E|]. apply Hreuse.
  vm_compute in E. injection E as <- <-.
  vm_compute in Ht. injection Ht as <-. vm_compute. discriminate.
Defined.

(** ** The effort of the retry loops *)

Lemma count_events_app f l l' :
  count_events f (l ++ l') = (count_events f l + count_events f l')%nat.
Proof. unfold count_events. rewrite filter_app, length_app. reflexivity. Qed.

(** A loop whose iteration [k] answers [value k] and adds [cost k] to a
    measure of the process adds the cost of the iterations it runs. *)
Lemma for_range_cost {A : Type} (body : nat -> M (option A))
      (value : nat -> option A) (I : Process -> Prop)
      (measure : Process -> nat) (cost : nat -> nat) :
  (forall k p, I p ->
               exists p', body k p = (Ok (value k), p') /\ I p'
                          /\ measure p' = (measure p + cost k)%nat) ->
  forall count start p,
    I p ->
    exists found p',
      for_range body count start p = (Ok found, p') /\ I p'
      /\ measure p' = (measure p + list_sum (map cost (executed value count start)))%nat.
Proof.
  intro Hbody. induction count as [|n IH]; intros start p Hp.
  - exists None, p. simpl. repeat split; [exact Hp | lia].
  - simpl. destruct (Hbody start p Hp) as (p1 & E & Hp1 & C). rewrite E.
    destruct (value start) as [v|].
    + exists (Some v), p1. simpl. repeat split; [exact Hp1 | lia].
    + destruct (IH (S start) p1 Hp1) as (found & p2 & E2 & Hp2 & C2).
      exists found, p2. simpl. repeat split; [exact E2 | exact Hp2 | lia].
Qed.

Lemma executed_all_fail {A : Type} (value : nat -> option A) count :
  forall start,
    (forall k, (start <= k < start + count)%nat -> value k = None) ->
    executed value count start = seq start count.
Proof.
  induction count as [|n IH]; intros start H; [reflexivity|].
  simpl. rewrite (H start) by lia. f_equal. apply IH. intros k Hk. apply H. lia.
Qed.

Lemma executed_first_success {A : Type} (value : nat -> option A) count :
  forall start k v,
    (start <= k < start + count)%nat ->
    (forall j, (start <= j < k)%nat -> value j = None) ->
    value k = Some v ->
    executed value count start = seq start (S (k - start)).
Proof.
  induction count as [|n IH]; intros start k v Hk Hbefore Hv; [lia|].
  simpl. destruct (Nat.eq_dec k start) as [->|N].
  - rewrite Hv. replace (start - start)%nat with 0%nat by lia. reflexivity.
  - rewrite (Hbefore start) by lia.
    replace (k - start)%nat with (S (k - S start)) by lia.
    simpl. f_equal. rewrite (IH (S start) k v); [reflexivity | lia | | exact Hv].
    intros j Hj. apply Hbefore. lia.
Qed.

Lemma list_sum_map_add {A : Type} (f g : A -> nat) l :
  list_sum (map (fun k => (f k + g k)%nat) l)
  = (list_sum (map f l) + list_sum (map g l))%nat.
Proof. induction l as [|a l IH]; simpl; [reflexivity | lia]. Qed.

Lemma list_sum_map_const {A : Type} (l : list A) :
  list_sum (map (fun _ => 1%nat) l) = List.length l.
Proof. induction l as [|a l IH]; simpl; [reflexivity | lia]. Qed.

(** The retry waits of a run of failures, and of a run ended by a
    success. *)
Lemma retry_waits_all_fail {A : Type} (value : nat -> option A) retries :
  (forall k, (k < retries)%nat -> value k = None) ->
  list_sum (map (retry_wait value retries) (seq 0 retries)) = (retries - 1)%nat.
Proof.
  intro H.
  assert (forall n, (n <= retries)%nat ->
                    list_sum (map (retry_wait value retries) (seq 0 n))
                    = Nat.min n (retries - 1)) as K.
  { induction n as [|n IH]; intro Hn; [reflexivity|].
    rewrite seq_S, map_app, list_sum_app, IH by lia.
    cbn [map list_sum Nat.add]. unfold retry_wait. rewrite (H n) by lia.
    destruct (Z.ltb_spec (Z.of_nat n) (Z.of_nat retries - 1)); simpl list_sum; lia. }
  rewrite K by lia. lia.
Qed.

Lemma retry_waits_until_success {A : Type} (value : nat -> option A) retries k v :
  (k < retries)%nat ->
  (forall j, (j < k)%nat -> value j = None) ->
  value k = Some v ->
  list_sum (map (retry_wait value retries) (seq 0 (S k))) = k.
Proof.
  intros Hk Hbefore Hv.
  assert (forall n, (n <= k)%nat ->
                    list_sum (map (retry_wait value retries) (seq 0 n)) = n) as K.
  { induction n as [|n IH]; intro Hn; [reflexivity|].
    rewrite seq_S, map_app, list_sum_app, IH by lia.
    cbn [map list_sum Nat.add]. unfold retry_wait. rewrite (Hbefore n) by lia.
    destruct (Z.ltb_spec (Z.of_nat n) (Z.of_nat retries - 1)); simpl list_sum; lia. }
  rewrite seq_S, map_app, list_sum_app, K by lia.
  cbn [map list_sum Nat.add]. unfold retry_wait. rewrite Hv. simpl list_sum. lia.
Qed.

(** The receipt waits of a run of raising attempts, and of a run ended by
    an attempt that submits. *)
Lemma receipt_waits_all_fail env n :
  (forall k, (k < n)%nat -> attempt_return (env k) = None) ->
  list_sum (map (receipt_wait env) (seq 0 n)) = 0%nat.
Proof.
  induction n as [|n IH]; intro H; [reflexivity|].
  rewrite seq_S, map_app, list_sum_app, IH by (intros k Hk; apply H; lia).
  cbn [map list_sum Nat.add]. unfold receipt_wait. rewrite (H n) by lia. reflexivity.
Qed.

Lemma receipt_waits_until_success env k v :
  (forall j, (j < k)%nat -> attempt_return (env j) = None) ->
  attempt_return (env k) = Some v ->
  list_sum (map (receipt_wait env) (seq 0 (S k))) = 1%nat.
Proof.
  intros Hbefore Hv.
  rewrite seq_S, map_app, list_sum_app, receipt_waits_all_fail by exact Hbefore.
  cbn [map list_sum Nat.add]. unfold receipt_wait. rewrite Hv. reflexivity.
Qed.

Ltac count_new :=
  unfold count_events, http_gets, rotated in *; simpl in *;
  repeat (rewrite filter_app in * || rewrite length_app in * );
  simpl in *; lia.

Section ExtractionEffort.
Variable cfg : OracleConfig.
Variable py : PyRuntime.
Variable env : nat -> FetchAttempt.

Lemma extract_iteration_costs attempt p :
  exists p',
    IndexExtractor.extract_iteration cfg py env attempt p
    = (Ok (attempt_value py (http (env attempt))), p')
    /\ http_gets (trace p') = (http_gets (trace p) + 1)%nat
    /\ count_events is_sleep (trace p')
       = (count_events is_sleep (trace p)
          + (1 + retry_wait (fun k => attempt_value py (http (env k)))
                            (MAX_RETRIES cfg) attempt))%nat.
Proof.
  unfold IndexExtractor.extract_iteration, IndexExtractor.extract_attempt,
    Level5AntiDetection.human_delay, try_except, retry_wait.
  run_monad.
  match goal with
  | |- context [Level5AntiDetection.get_session ?c ?e ?q] =>
      destruct (get_session_stores c e q) as (s & t & p1 & E & _ & _ & [->|(_ & ->)])
  end.
  all: rewrite E; unfold attempt_value.
  all: destruct (http (env attempt)) as [|status_code [element_text|]]; simpl.
  all: try destruct (_ && _); simpl.
  all: try destruct (float_of_str py _) as [index_value|]; simpl.
  all: try destruct (_ <? _).
  all: eexists; (split; [reflexivity | split; count_new]).
Qed.

(** X9.  What an extraction costs.  When every attempt fails,
    [extract_index_with_retry] sends exactly [MAX_RETRIES] requests and
    sleeps [MAX_RETRIES] human delays and [MAX_RETRIES - 1] retry waits:
    there is no wait after the last attempt.  When attempt [k] is the
    first to succeed it returns that attempt's value after exactly [k + 1]
    requests, [k + 1] human delays and [k] retry waits. *)
Theorem extract_index_with_retry_effort p :
  exists found p',
    IndexExtractor.extract_index_with_retry cfg py env p = (Ok found, p')
    /\ ((forall k, (k < MAX_RETRIES cfg)%nat -> attempt_value py (http (env k)) = None) ->
        http_gets (trace p') = (http_gets (trace p) + MAX_RETRIES cfg)%nat
        /\ count_events is_sleep (trace p')
           = (count_events is_sleep (trace p)
              + (MAX_RETRIES cfg + (MAX_RETRIES cfg - 1)))%nat)
    /\ (forall k value,
        (k < MAX_RETRIES cfg)%nat ->
        (forall j, (j < k)%nat -> attempt_value py (http (env j)) = None) ->
        attempt_value py (http (env k)) = Some value ->
        found = Some value
        /\ http_gets (trace p') = (http_gets (trace p) + (k + 1))%nat
        /\ count_events is_sleep (trace p')
           = (count_events is_sleep (trace p) + ((k + 1) + k))%nat).
Proof.
  set (value := fun k => attempt_value py (http (env k))).
  destruct (for_range_cost (IndexExtractor.extract_iteration cfg py env) value
              (fun _ => True) (fun q => http_gets (trace q))
              (fun _ => 1%nat))
    with (count := MAX_RETRIES cfg) (start := 0%nat) (p := p)
    as (found & p1 & E & _ & G); [|exact I|].
  { intros k q _. destruct (extract_iteration_costs k q) as (q' & Eq & Cg & _).
    exists q'. repeat split; assumption. }
  destruct (for_range_cost (IndexExtractor.extract_iteration cfg py env) value
              (fun _ => True) (fun q => count_events is_sleep (trace q))
              (fun k => (1 + retry_wait value (MAX_RETRIES cfg) k)%nat))
    with (count := MAX_RETRIES cfg) (start := 0%nat) (p := p)
    as (found' & p1' & E' & _ & Hs); [|exact I|].
  { intros k q _. destruct (extract_iteration_costs k q) as (q' & Eq & _ & Cs).
    exists q'. repeat split; assumption. }
  rewrite E in E'. injection E' as <- <-.
  destruct (extract_result cfg py env p) as (found2 & p2 & E2 & _ & _ & Hfirst).
  assert (E3 := E2).
  unfold IndexExtractor.extract_index_with_retry, bind in E3. rewrite E in E3.
  rewrite list_sum_map_add, !list_sum_map_const in Hs.
  rewrite list_sum_map_const in G.
  exists found2, p2. split; [exact E2|]. split.
  - intro Hall.
    rewrite (executed_all_fail value) in G, Hs by (intros k Hk; apply Hall; lia).
    rewrite retry_waits_all_fail in Hs by exact Hall.
    rewrite length_seq in G, Hs.
    destruct found as [v|]; injection E3 as <- <-; split; count_new.
  - intros k v Hk Hbefore Hv.
    rewrite (executed_first_success value _ 0%nat k v) in G, Hs
      by (try exact Hv; try lia; intros j Hj; apply Hbefore; lia).
    replace (S (k - 0)) with (S k) in G, Hs by lia.
    rewrite retry_waits_until_success with (v := v) in Hs by assumption.
    rewrite length_seq in G, Hs.
    split; [apply (Hfirst k v); assumption|].
    destruct found as [v'|]; injection E3 as <- <-; split; count_new.
Qed.

End ExtractionEffort.

Lemma extract_index_with_retry_effort_witness :
  exists p',
    IndexExtractor.extract_index_with_retry source_config Scenario.py
      (fun k => match k with
                | O => Scenario.outage
                | _ => Scenario.page
                end) IndexOracleSystem.initial
    = (Ok (Some (6001 # 4, "1,500.25"%string)), p')
    /\ http_gets (trace p') = 2%nat
    /\ count_events is_sleep (trace p') = 3%nat.
Proof.
  destruct (extract_index_with_retry_effort source_config Scenario.py
              (fun k => match k with
                        | O => Scenario.outage
                        | _ => Scenario.page
                        end) IndexOracleSystem.initial)
    as (found & p' & E & _ & Hfirst).
  destruct (Hfirst 1%nat (6001 # 4, "1,500.25"%string)) as (-> & G & Hs).
  - simpl. lia.
  - intros j Hj. assert (j = 0)%nat as -> by lia. reflexivity.
  - vm_compute. reflexivity.
  - exists p'. split; [exact E|]. split; [exact G | exact Hs].
Defined.

(** ** What an extraction sends and where its value comes from *)

Lemma performs_refl p : performs p p [].
Proof. unfold performs. rewrite app_nil_r. reflexivity. Qed.

Lemma performs_trans p q r l l' :
  performs p q l -> performs q r l' -> performs p r (l ++ l').
Proof. unfold performs. intros H1 H2. rewrite H2, H1, app_assoc. reflexivity. Qed.

Lemma requests_app l l' : requests (l ++ l') = requests l ++ requests l'.
Proof. apply flat_map_app. Qed.

Lemma transactions_app l l' : transactions (l ++ l') = transactions l ++ transactions l'.
Proof. apply flat_map_app. Qed.

(** Either every answer up to [n] is [None], or there is a first one that
    is not. *)
Lemma first_success {A : Type} (value : nat -> option A) n :
  (forall k, (k < n)%nat -> value k = None)
  \/ exists k v, (k < n)%nat /\ value k = Some v
                 /\ forall j, (j < k)%nat -> value j = None.
Proof.
  induction n as [|n [IH|(k & v & Hk & Hv & Hbefore)]].
  - left. intros k Hk. lia.
  - destruct (value n) as [v|] eqn:V.
    + right. exists n, v. split; [lia|]. split; [exact V|]. exact IH.
    + left. intros k Hk. destruct (Nat.eq_dec k n) as [->|N]; [exact V | apply IH; lia].
  - right. exists k, v. split; [lia|]. split; assumption.
Qed.

Ltac performed_here :=
  unfold performs, rotated; simpl; rewrite <- ?app_assoc; reflexivity.

Section ExtractionRequests.
Variable cfg : OracleConfig.
Variable py : PyRuntime.
Variable env : nat -> FetchAttempt.

Lemma extract_iteration_performs attempt p :
  holds_registered p ->
  exists p' performed,
    IndexExtractor.extract_iteration cfg py env attempt p
    = (Ok (attempt_value py (http (env attempt))), p')
    /\ performs p p' performed
    /\ Forall (source_request cfg) (requests performed)
    /\ holds_registered p'.
Proof.
  intro Hp.
  unfold IndexExtractor.extract_iteration, IndexExtractor.extract_attempt,
    Level5AntiDetection.human_delay, try_except.
  run_monad.
  match goal with
  | |- context [Level5AntiDetection.get_session ?c ?e ?q] =>
      destruct (get_session_stores c e q) as (s & t & p1 & E & Hs & _ & Hcase)
  end.
  assert (registered s) as Hreg.
  { destruct Hcase as [->|[Hreg _]]; [apply Hp; exact Hs | exact Hreg]. }
  assert (forall s', current_session p1 = Some s' -> registered s') as Hp1.
  { intros s' Hs'. rewrite Hs in Hs'. injection Hs' as <-. exact Hreg. }
  rewrite E; unfold attempt_value.
  destruct s as [request_headers].
  destruct Hcase as [->|(_ & ->)].
  all: destruct (http (env attempt)) as [|status_code [element_text|]]; simpl.
  all: try destruct (_ && _); simpl.
  all: try destruct (float_of_str py _) as [index_value|]; simpl.
  all: try destruct (_ <? _).
  all: eexists; eexists; (split; [reflexivity|]);
    (split; [performed_here|]);
    (split; [simpl; repeat constructor; exact Hreg | exact Hp1]).
Qed.

Lemma extract_performs p :
  holds_registered p ->
  exists found p' performed,
    IndexExtractor.extract_index_with_retry cfg py env p = (Ok found, p')
    /\ performs p p' performed
    /\ Forall (source_request cfg) (requests performed)
    /\ holds_registered p'.
Proof.
  intro Hp.
  destruct (for_range_first (IndexExtractor.extract_iteration cfg py env)
              (fun k => attempt_value py (http (env k)))
              (fun _ q => exists performed,
                   performs p q performed
                   /\ Forall (source_request cfg) (requests performed)
                   /\ holds_registered q))
    with (count := MAX_RETRIES cfg) (start := 0%nat) (p := p)
    as (found & p1 & m & E & _ & (performed & T & F & Hp1) & _).
  - intros k q (performed & T & F & Hq).
    destruct (extract_iteration_performs k q Hq) as (q' & more & Eq & T' & F' & Hq').
    exists q'. split; [exact Eq|]. exists (performed ++ more).
    split; [eapply performs_trans; eassumption|].
    split; [rewrite requests_app; apply Forall_app; split; assumption | exact Hq'].
  - exists []. split; [apply performs_refl|]. split; [constructor | exact Hp].
  - unfold IndexExtractor.extract_index_with_retry, bind. rewrite E.
    destruct found as [vt|].
    + exists (Some vt), p1, performed. repeat split; assumption.
    + eexists None, _, (performed ++ _). split; [reflexivity|].
      split; [unfold performs in *; simpl; rewrite T, <- app_assoc; reflexivity|].
      split; [rewrite requests_app; apply Forall_app; split; [exact F | constructor]|].
      exact Hp1.
Qed.

End ExtractionRequests.

(** X10.  Starting from a process that holds no identity or a registered
    one, every request an extraction sends goes to [TARGET_URL] with a
    timeout of 30 seconds and carries the headers of a registered identity
    (a combination of the table with one of its own agents); the process
    afterwards still holds no identity or a registered one. *)
Theorem requests_go_to_the_source cfg py env p :
  holds_registered p ->
  exists found p' performed,
    IndexExtractor.extract_index_with_retry cfg py env p = (Ok found, p')
    /\ performs p p' performed
    /\ Forall (source_request cfg) (requests performed)
    /\ holds_registered p'.
Proof. apply extract_performs. Qed.

(** Where a found value comes from. *)
Lemma extract_provenance cfg py env p value text p' :
  IndexExtractor.extract_index_with_retry cfg py env p = (Ok (Some (value, text)), p') ->
  exists k status_code element_text,
    (k < MAX_RETRIES cfg)%nat
    /\ (forall j, (j < k)%nat -> attempt_value py (http (env j)) = None)
    /\ http (env k) = Response status_code (Some element_text)
    /\ (status_code < 400 \/ 600 <= status_code)
    /\ text = Py.strip element_text
    /\ float_of_str py (Py.remove_char " " (Py.remove_char "," text)) = Some value.
Proof.
  intro E.
  destruct (extract_result cfg py env p) as (found & p1 & E1 & _ & Hnone & Hfirst).
  rewrite E in E1. injection E1 as <- <-.
  destruct (first_success (fun k => attempt_value py (http (env k))) (MAX_RETRIES cfg))
    as [Hall|(k & v & Hk & Hv & Hbefore)].
  - apply Hnone in Hall. discriminate.
  - specialize (Hfirst k v Hk Hv Hbefore). injection Hfirst as <-.
    unfold attempt_value in Hv.
    destruct (http (env k)) as [|status_code [element_text|]] eqn:Hh; try discriminate.
    + destruct ((400 <=? status_code) && (status_code <? 600)) eqn:Hstatus;
        [discriminate|].
      destruct (float_of_str py _) as [index_value|] eqn:Hf; [|discriminate].
      injection Hv as <- <-.
      exists k, status_code, element_text.
      split; [exact Hk|]. split; [exact Hbefore|]. split; [exact Hh|].
      split; [|split; [reflexivity | exact Hf]].
      apply andb_false_iff in Hstatus as [H|H]; [left | right]; lia.
    + destruct ((400 <=? status_code) && (status_code <? 600)); discriminate.
Qed.

(** X11.  A value that [extract_index_with_retry] returns, a finite one,
    was read off the page in that very call: it comes from the first
    attempt [k] whose response has a status outside 400..599, carries the
    element and parses; the text returned is the element's text with the
    white space at both ends stripped, Unicode white space such as the
    no-break space included, and the value is what [float] reads from that
    text with commas and spaces removed. *)
Theorem extracted_value_provenance cfg py env p value text p' :
  IndexExtractor.extract_index_with_retry cfg py env p = (Ok (Some (value, text)), p') ->
  exists k status_code element_text,
    (k < MAX_RETRIES cfg)%nat
    /\ (forall j, (j < k)%nat -> attempt_value py (http (env j)) = None)
    /\ http (env k) = Response status_code (Some element_text)
    /\ (status_code < 400 \/ 600 <= status_code)
    /\ text = Py.strip element_text
    /\ float_of_str py (Py.remove_char " " (Py.remove_char "," text)) = Some value.
Proof. apply extract_provenance. Qed.

Lemma requests_go_to_the_source_witness :
  exists found p' performed,
    IndexExtractor.extract_index_with_retry source_config Scenario.py
      (fun _ => Scenario.page) IndexOracleSystem.initial = (Ok found, p')
    /\ performs IndexOracleSystem.initial p' performed
    /\ Forall (source_request source_config) (requests performed)
    /\ holds_registered p'.
Proof.
  apply (requests_go_to_the_source source_config Scenario.py (fun _ => Scenario.page)
           IndexOracleSystem.initial).
  intros s Hs. simpl in Hs. discriminate Hs.
Defined.

Lemma extracted_value_provenance_witness :
  exists k status_code element_text,
    (k < 3)%nat
    /\ (forall j, (j < k)%nat -> attempt_value Scenario.py (http Scenario.padded_page) = None)
    /\ http Scenario.padded_page = Response status_code (Some element_text)
    /\ (status_code < 400 \/ 600 <= status_code)
    /\ "1,500.25"%string = Py.strip element_text
    /\ float_of_str Scenario.py (Py.remove_char " " (Py.remove_char "," "1,500.25"))
       = Some (6001 # 4).
Proof.
  apply (extracted_value_provenance source_config Scenario.py
           (fun _ => Scenario.padded_page)
           IndexOracleSystem.initial (6001 # 4) "1,500.25"
           (snd (IndexExtractor.extract_index_with_retry source_config Scenario.py
                   (fun _ => Scenario.padded_page) IndexOracleSystem.initial))).
  vm_compute. reflexivity.
Defined.

(** ** Further properties of the ledger writer *)

Lemma bridge_construction cfg env p :
  exists p' performed,
    BlockchainBridge.__init__ cfg env p = (Ok tt, p')
    /\ performs p p' performed
    /\ (enabled p' = true <-> parameters_configured cfg = true /\ node_ready env)
    /\ (enabled p' = true ->
        exists address, account_from_key env = Some address /\ account p' = Some address)
    /\ (ledger_calls performed = []
        \/ ledger_calls performed = [RpcIsConnected (RPC_URL cfg)])
    /\ current_session p' = current_session p
    /\ session_start_time p' = session_start_time p.
Proof.
  unfold BlockchainBridge.__init__, BlockchainBridge._initialize_web3, try_except,
    external, parameters_configured, node_ready.
  run_monad.
  destruct (WEB3_AVAILABLE env); simpl.
  2: { eexists; eexists. split; [reflexivity|]. split; [performed_here|].
       split; [split; [discriminate | intros (_ & H & _); discriminate H]|].
       split; [discriminate|]. split; [left; reflexivity|]. split; reflexivity. }
  destruct (String.eqb (RPC_URL cfg) "" || Py.contains "YOUR_API_KEY" (RPC_URL cfg)); simpl.
  1: { eexists; eexists. split; [reflexivity|]. split; [performed_here|].
       split; [split; [discriminate | intros (H & _); discriminate H]|].
       split; [discriminate|]. split; [left; reflexivity|]. split; reflexivity. }
  destruct (String.eqb (PRIVATE_KEY cfg) ""); simpl.
  1: { eexists; eexists. split; [reflexivity|]. split; [performed_here|].
       split; [split; [discriminate | intros (H & _); discriminate H]|].
       split; [discriminate|]. split; [left; reflexivity|]. split; reflexivity. }
  destruct (String.eqb (CONTRACT_ADDRESS cfg) ""); simpl.
  1: { eexists; eexists. split; [reflexivity|]. split; [performed_here|].
       split; [split; [discriminate | intros (H & _); discriminate H]|].
       split; [discriminate|]. split; [left; reflexivity|]. split; reflexivity. }
  destruct (is_connected env) as [[|]|]; simpl.
  2, 3: eexists; eexists; (split; [reflexivity|]); (split; [performed_here|]);
    (split; [split; [discriminate | intros (_ & _ & H & _); discriminate H]|]);
    (split; [discriminate|]); (split; [right; reflexivity|]); split; reflexivity.
  destruct (account_from_key env) as [address|]; simpl.
  2: { eexists; eexists. split; [reflexivity|]. split; [performed_here|].
       split; [split; [discriminate | intros (_ & _ & _ & H & _); contradiction]|].
       split; [discriminate|]. split; [right; reflexivity|]. split; reflexivity. }
  destruct (checksum_address env) as [checksum|]; simpl.
  2: { eexists; eexists. split; [reflexivity|]. split; [performed_here|].
       split; [split; [discriminate | intros (_ & _ & _ & _ & H); contradiction]|].
       split; [discriminate|]. split; [right; reflexivity|]. split; reflexivity. }
  eexists; eexists. split; [reflexivity|]. split; [performed_here|].
  split; [split; [intros _; repeat split; discriminate | reflexivity]|].
  split; [intros _; exists address; split; reflexivity|].
  split; [right; reflexivity|]. split; reflexivity.
Qed.

(** X12.  Constructing the bridge never raises and enables it in exactly
    one case: [web3] is available, the three parameters are configured,
    the node answers that it is connected, the key yields an account and
    the contract address a checksum address.  An enabled bridge has that
    account loaded.  The construction makes no ledger call but, at most
    once, [is_connected], and does not touch the session. *)
Theorem bridge_enabled_iff cfg env p :
  exists p' performed,
    BlockchainBridge.__init__ cfg env p = (Ok tt, p')
    /\ performs p p' performed
    /\ (enabled p' = true <-> parameters_configured cfg = true /\ node_ready env)
    /\ (enabled p' = true ->
        exists address, account_from_key env = Some address /\ account p' = Some address)
    /\ (ledger_calls performed = []
        \/ ledger_calls performed = [RpcIsConnected (RPC_URL cfg)])
    /\ current_session p' = current_session p
    /\ session_start_time p' = session_start_time p.
Proof. apply bridge_construction. Qed.

Ltac costs_here Ha :=
  eexists; (split; [reflexivity|]); (split; [exact Ha|]);
  unfold count_events; simpl; rewrite ?filter_app, ?length_app; simpl;
  repeat split; lia.

Ltac builds_here Ha :=
  eexists; eexists; (split; [reflexivity|]); simpl;
  (split; [exact Ha|]); (split; [reflexivity|]);
  eexists; (split; [performed_here|]);
  simpl; repeat constructor; simpl; apply Z.le_min_r.

Section CommitEffort.
Variable cfg : OracleConfig.
Variable fee_rate : Z.
Variable index_value : Q.
Variable env : nat -> ChainAttempt.

Lemma send_iteration_costs attempt p address :
  account p = Some address ->
  exists p',
    BlockchainBridge.send_iteration cfg fee_rate index_value env attempt p
    = (Ok (attempt_return (env attempt)), p')
    /\ account p' = Some address
    /\ count_events is_gas_price_read (trace p')
       = (count_events is_gas_price_read (trace p) + 1)%nat
    /\ count_events is_sleep (trace p')
       = (count_events is_sleep (trace p)
          + retry_wait (fun k => attempt_return (env k))
                       (BLOCKCHAIN_RETRY_COUNT cfg) attempt)%nat
    /\ count_events is_receipt_wait (trace p')
       = (count_events is_receipt_wait (trace p) + receipt_wait env attempt)%nat.
Proof.
  intro Ha.
  unfold BlockchainBridge.send_iteration, BlockchainBridge.send_attempt,
    retry_wait, receipt_wait, attempt_return, submitted, try_except, external.
  run_monad.
  destruct (env attempt) as [g c n b s h r]; simpl.
  destruct (_ <? _);
  destruct g as [g|]; simpl; try costs_here Ha;
  destruct (g >? _); simpl;
  destruct c; simpl; rewrite ?Ha; simpl; try costs_here Ha;
  destruct n as [n|]; simpl; try costs_here Ha;
  destruct b; simpl; try costs_here Ha;
  destruct s as [s|]; simpl; try costs_here Ha;
  destruct h as [h|]; simpl; try costs_here Ha;
  destruct r as [r|]; simpl; try costs_here Ha;
  destruct (status r =? 1); simpl; costs_here Ha.
Qed.

Lemma send_fee_update_costs p address :
  enabled p = true -> account p = Some address ->
  exists returned p',
    BlockchainBridge.send_fee_update cfg fee_rate index_value env p = (Ok returned, p')
    /\ ((forall k, (k < BLOCKCHAIN_RETRY_COUNT cfg)%nat -> attempt_return (env k) = None) ->
        returned = None
        /\ count_events is_gas_price_read (trace p')
           = (count_events is_gas_price_read (trace p) + BLOCKCHAIN_RETRY_COUNT cfg)%nat
        /\ count_events is_sleep (trace p')
           = (count_events is_sleep (trace p) + (BLOCKCHAIN_RETRY_COUNT cfg - 1))%nat
        /\ count_events is_receipt_wait (trace p')
           = count_events is_receipt_wait (trace p))
    /\ (forall k value,
        (k < BLOCKCHAIN_RETRY_COUNT cfg)%nat ->
        (forall j, (j < k)%nat -> attempt_return (env j) = None) ->
        attempt_return (env k) = Some value ->
        returned = value
        /\ count_events is_gas_price_read (trace p')
           = (count_events is_gas_price_read (trace p) + (k + 1))%nat
        /\ count_events is_sleep (trace p')
           = (count_events is_sleep (trace p) + k)%nat
        /\ count_events is_receipt_wait (trace p')
           = (count_events is_receipt_wait (trace p) + 1)%nat).
Proof.
  intros He Ha.
  set (value := fun k => attempt_return (env k)).
  set (body := BlockchainBridge.send_iteration cfg fee_rate index_value env).
  destruct (for_range_cost body value (fun q => account q = Some address)
              (fun q => count_events is_gas_price_read (trace q)) (fun _ => 1%nat))
    with (count := BLOCKCHAIN_RETRY_COUNT cfg) (start := 0%nat) (p := p)
    as (found & p1 & E & _ & G); [|exact Ha|].
  { intros k q Hq. destruct (send_iteration_costs k q address Hq)
      as (q' & Eq & Hq' & C & _). exists q'. repeat split; assumption. }
  destruct (for_range_cost body value (fun q => account q = Some address)
              (fun q => count_events is_sleep (trace q))
              (retry_wait value (BLOCKCHAIN_RETRY_COUNT cfg)))
    with (count := BLOCKCHAIN_RETRY_COUNT cfg) (start := 0%nat) (p := p)
    as (found' & p1' & E' & _ & Hs); [|exact Ha|].
  { intros k q Hq. destruct (send_iteration_costs k q address Hq)
      as (q' & Eq & Hq' & _ & C & _). exists q'. repeat split; assumption. }
  rewrite E in E'. injection E' as <- <-.
  destruct (for_range_cost body value (fun q => account q = Some address)
              (fun q => count_events is_receipt_wait (trace q)) (receipt_wait env))
    with (count := BLOCKCHAIN_RETRY_COUNT cfg) (start := 0%nat) (p := p)
    as (found' & p1' & E' & _ & Hw); [|exact Ha|].
  { intros k q Hq. destruct (send_iteration_costs k q address Hq)
      as (q' & Eq & Hq' & _ & _ & C). exists q'. repeat split; assumption. }
  rewrite E in E'. injection E' as <- <-.
  destruct (send_fee_update_value cfg fee_rate index_value env p address He Ha)
    as (returned & p2 & E2 & Hnone & Hfirst).
  assert (E3 := E2).
  unfold BlockchainBridge.send_fee_update in E3. unfold bind at 1, get in E3.
  rewrite He in E3. simpl in E3. unfold bind in E3. fold body in E3. rewrite E in E3.
  rewrite list_sum_map_const in G.
  exists returned, p2. split; [exact E2|]. split.
  - intro Hall.
    rewrite (executed_all_fail value) in G, Hs, Hw by (intros k Hk; apply Hall; lia).
    rewrite retry_waits_all_fail in Hs by exact Hall.
    rewrite receipt_waits_all_fail in Hw by exact Hall.
    rewrite length_seq in G.
    split; [apply Hnone; exact Hall|].
    destruct found as [v|]; injection E3 as <- <-; repeat split; count_new.
  - intros k v Hk Hbefore Hv.
    rewrite (executed_first_success value _ 0%nat k v) in G, Hs, Hw
      by (try exact Hv; try lia; intros j Hj; apply Hbefore; lia).
    replace (S (k - 0)) with (S k) in G, Hs, Hw by lia.
    rewrite retry_waits_until_success with (v := v) in Hs by assumption.
    rewrite receipt_waits_until_success with (v := v) in Hw by assumption.
    rewrite length_seq in G.
    split; [apply (Hfirst k v); assumption|].
    destruct found as [v'|]; injection E3 as <- <-; repeat split; count_new.
Qed.

Lemma builds_fee_updates_refl p : builds_fee_updates cfg fee_rate index_value p p.
Proof.
  split; [reflexivity|]. split; [reflexivity|].
  exists []. split; [apply performs_refl | constructor].
Qed.

Lemma builds_fee_updates_trans p q r :
  builds_fee_updates cfg fee_rate index_value p q ->
  builds_fee_updates cfg fee_rate index_value q r ->
  builds_fee_updates cfg fee_rate index_value p r.
Proof.
  intros (A1 & E1 & l1 & T1 & F1) (A2 & E2 & l2 & T2 & F2).
  split; [congruence|]. split; [congruence|].
  exists (l1 ++ l2). split; [eapply performs_trans; eassumption|].
  rewrite transactions_app. apply Forall_app. split; [exact F1|].
  rewrite <- A1. exact F2.
Qed.

Lemma builds_fee_updates_log l m p :
  builds_fee_updates cfg fee_rate index_value p (add_event (Log l m) p).
Proof.
  split; [reflexivity|]. split; [reflexivity|].
  exists [Log l m]. split; [reflexivity | constructor].
Qed.

Lemma send_iteration_builds attempt :
  safe (builds_fee_updates cfg fee_rate index_value)
    (BlockchainBridge.send_iteration cfg fee_rate index_value env attempt).
Proof.
  intro p.
  unfold BlockchainBridge.send_iteration, BlockchainBridge.send_attempt,
    try_except, external, builds_fee_updates, fee_update.
  run_monad.
  destruct (env attempt) as [g c n b s h r]; simpl.
  destruct (account p) as [address|] eqn:Ha.
  all: destruct (_ <? _);
    destruct g as [g|]; simpl; try builds_here Ha;
    destruct (g >? _); simpl;
    destruct c; simpl; rewrite ?Ha; simpl; try builds_here Ha;
    destruct n as [n|]; simpl; try builds_here Ha;
    destruct b; simpl; try builds_here Ha;
    destruct s as [s|]; simpl; try builds_here Ha;
    destruct h as [h|]; simpl; try builds_here Ha;
    destruct r as [r|]; simpl; try builds_here Ha;
    destruct (status r =? 1); simpl; builds_here Ha.
Qed.

Lemma send_fee_update_builds :
  safe (builds_fee_updates cfg fee_rate index_value)
    (BlockchainBridge.send_fee_update cfg fee_rate index_value env).
Proof.
  unfold BlockchainBridge.send_fee_update.
  repeat first [ apply send_iteration_builds
               | apply builds_fee_updates_refl
               | exact builds_fee_updates_trans
               | apply builds_fee_updates_log
               | frame_step ].
Qed.

End CommitEffort.

(** X13.  What a commit costs on an enabled bridge with its account
    loaded.  [send_fee_update] reads the gas price at most once per
    attempt.  When it returns a transaction hash, that hash comes from the
    first attempt [k] that did not raise, reached after [k + 1] gas price
    reads, [k] sleeps and a single receipt wait.  When it returns [None],
    either every attempt raised, with [BLOCKCHAIN_RETRY_COUNT - 1] sleeps
    and no receipt wait, or the first attempt [k] that did not raise
    submitted a transaction whose receipt reports a failure, after
    [k + 1] gas price reads, [k] sleeps and a single receipt wait: no
    attempt follows a submitted transaction. *)
Theorem send_fee_update_effort cfg fee_rate index_value env p address :
  enabled p = true -> account p = Some address ->
  exists returned p',
    BlockchainBridge.send_fee_update cfg fee_rate index_value env p = (Ok returned, p')
    /\ (count_events is_gas_price_read (trace p')
        <= count_events is_gas_price_read (trace p) + BLOCKCHAIN_RETRY_COUNT cfg)%nat
    /\ (forall tx_hash,
        returned = Some tx_hash ->
        exists k,
          (k < BLOCKCHAIN_RETRY_COUNT cfg)%nat
          /\ (forall j, (j < k)%nat -> attempt_return (env j) = None)
          /\ attempt_return (env k) = Some (Some tx_hash)
          /\ count_events is_gas_price_read (trace p')
             = (count_events is_gas_price_read (trace p) + (k + 1))%nat
          /\ count_events is_sleep (trace p')
             = (count_events is_sleep (trace p) + k)%nat
          /\ count_events is_receipt_wait (trace p')
             = (count_events is_receipt_wait (trace p) + 1)%nat)
    /\ (returned = None ->
        (count_events is_sleep (trace p')
         = (count_events is_sleep (trace p) + (BLOCKCHAIN_RETRY_COUNT cfg - 1))%nat
         /\ count_events is_receipt_wait (trace p')
            = count_events is_receipt_wait (trace p))
        \/ exists k,
            (k < BLOCKCHAIN_RETRY_COUNT cfg)%nat
            /\ (forall j, (j < k)%nat -> attempt_return (env j) = None)
            /\ attempt_return (env k) = Some None
            /\ count_events is_gas_price_read (trace p')
               = (count_events is_gas_price_read (trace p) + (k + 1))%nat
            /\ count_events is_sleep (trace p')
               = (count_events is_sleep (trace p) + k)%nat
            /\ count_events is_receipt_wait (trace p')
               = (count_events is_receipt_wait (trace p) + 1)%nat).
Proof.
  intros He Ha.
  destruct (send_fee_update_costs cfg fee_rate index_value env p address He Ha)
    as (returned & p' & E & Hnone & Hfirst).
  exists returned, p'. split; [exact E|].
  destruct (first_success (fun k => attempt_return (env k)) (BLOCKCHAIN_RETRY_COUNT cfg))
    as [Hall|(k & v & Hk & Hv & Hbefore)].
  - destruct (Hnone Hall) as (-> & G & Hs & Hw).
    split; [lia|]. split; [intros tx_hash H; discriminate H|].
    intros _. left. split; assumption.
  - destruct (Hfirst k v Hk Hbefore Hv) as (-> & G & Hs & Hw).
    split; [lia|]. split.
    + intros tx_hash ->. exists k. repeat split; assumption.
    + intros ->. right. exists k. repeat split; assumption.
Qed.

(** X14.  Whatever the node answers and whatever the state of the bridge,
    [send_fee_update] never raises, leaves the bridge's flag and account as
    they are, and every transaction it hands to [build_transaction] or to
    [sign_transaction] is the fee update asked for: it carries the given
    fee rate and the integer part of the index value, is sent from the
    loaded account with [GAS_LIMIT] and [CHAIN_ID], and its gas price is at
    most the configured cap. *)
Theorem built_transactions_are_capped_fee_updates cfg fee_rate index_value env p :
  exists returned p' performed,
    BlockchainBridge.send_fee_update cfg fee_rate index_value env p = (Ok returned, p')
    /\ performs p p' performed
    /\ Forall (fee_update cfg fee_rate index_value (account p)) (transactions performed)
    /\ account p' = account p /\ enabled p' = enabled p.
Proof.
  destruct (send_fee_update_builds cfg fee_rate index_value env p)
    as (returned & p' & E & Ha & He & performed & T & F).
  exists returned, p', performed. repeat split; assumption.
Qed.

Lemma send_fee_update_effort_witness :
  exists p',
    BlockchainBridge.send_fee_update Scenario.configured 64 1500
      (fun _ => Scenario.confirmed) Scenario.bridge_ready = (Ok (Some "0x5e1f"%string), p')
    /\ count_events is_gas_price_read (trace p') = 1%nat
    /\ count_events is_sleep (trace p') = 0%nat
    /\ count_events is_receipt_wait (trace p') = 1%nat.
Proof.
  destruct (send_fee_update_effort Scenario.configured 64 1500
              (fun _ => Scenario.confirmed) Scenario.bridge_ready "0x90f8bf6a")
    as (returned & p' & E & _ & Hsome & _); [reflexivity | reflexivity |].
  assert (fst (BlockchainBridge.send_fee_update Scenario.configured 64 1500
                 (fun _ => Scenario.confirmed) Scenario.bridge_ready)
          = Ok (Some "0x5e1f"%string)) as R by (vm_compute; reflexivity).
  rewrite E in R. simpl in R. injection R as ->.
  destruct (Hsome "0x5e1f"%string eq_refl) as (k & _ & Hbefore & _ & G & Hs & Hw).
  destruct k as [|k].
  - exists p'. split; [exact E|]. split; [exact G|]. split; [exact Hs | exact Hw].
  - exfalso. specialize (Hbefore 0%nat (Nat.lt_0_succ k)). discriminate Hbefore.
Defined.

Lemma bridge_enabled_iff_witness :
  exists p',
    BlockchainBridge.__init__ Scenario.configured Scenario.node_up IndexOracleSystem.initial
    = (Ok tt, p')
    /\ enabled p' = true.
Proof.
  destruct (bridge_enabled_iff Scenario.configured Scenario.node_up
              IndexOracleSystem.initial) as (p' & performed & E & _ & Hiff & _).
  exists p'. split; [exact E|]. apply Hiff.
  split; [reflexivity|]. repeat split; discriminate.
Defined.

(** ** What a run records and what it commits *)

Lemma saved_records_app l l' :
  saved_records (l ++ l') = saved_records l ++ saved_records l'.
Proof. apply flat_map_app. Qed.

Lemma fetch_effects_build_nothing l :
  forallb is_fetch_effect l = true -> transactions l = [] /\ saved_records l = [].
Proof.
  induction l as [|e l IH]; intro H; [split; reflexivity|].
  simpl in H. apply andb_true_iff in H as [He Hl]. destruct (IH Hl) as [IH1 IH2].
  destruct e; try discriminate; simpl; split; assumption.
Qed.

(** The value an extraction finds is that of the first attempt that
    succeeds. *)
Lemma extract_found_first cfg py env p found p' :
  IndexExtractor.extract_index_with_retry cfg py env p = (Ok (Some found), p') ->
  exists k, (k < MAX_RETRIES cfg)%nat
            /\ attempt_value py (http (env k)) = Some found
            /\ forall j, (j < k)%nat -> attempt_value py (http (env j)) = None.
Proof.
  intro E.
  destruct (extract_result cfg py env p) as (found' & p1 & E1 & _ & Hnone & Hfirst).
  rewrite E in E1. injection E1 as <- <-.
  destruct (first_success (fun k => attempt_value py (http (env k))) (MAX_RETRIES cfg))
    as [Hall|(k & v & Hk & Hv & Hbefore)].
  - apply Hnone in Hall. discriminate.
  - specialize (Hfirst k v Hk Hv Hbefore). injection Hfirst as <-.
    exists k. repeat split; assumption.
Qed.

Section RunAnatomy.
Variable cfg : OracleConfig.
Variable py : PyRuntime.
Variable env : RunEnv.

(** The commit step of a run, with what it performs. *)
Lemma commit_performs index_value p1 :
  exists tx status p2 sent,
    committed cfg env index_value p1 tx status p2
    /\ performs p1 p2 sent
    /\ Forall (fee_update cfg (DynamicFeeCalculator.calculate_fee_rate cfg index_value)
                 index_value (account p1)) (transactions sent)
    /\ forallb is_commit_effect sent = true
    /\ enabled p2 = enabled p1 /\ account p2 = account p1
    /\ current_session p2 = current_session p1
    /\ session_start_time p2 = session_start_time p1.
Proof.
  unfold committed. destruct (enabled p1) eqn:He.
  - destruct (send_fee_update_builds cfg
                (DynamicFeeCalculator.calculate_fee_rate cfg index_value) index_value
                (chain_env env) p1)
      as (tx & p2 & E & Ha & He2 & sent & T & F).
    destruct (send_commit_frame cfg
                (DynamicFeeCalculator.calculate_fee_rate cfg index_value) index_value
                (chain_env env) p1) as (tx' & p2' & E' & F2).
    rewrite E in E'. injection E' as <- <-.
    pose proof (moved_frozen _ _ CurrentSession _ _ F2 ltac:(simpl; tauto)) as Ks.
    pose proof (moved_frozen _ _ SessionStartTime _ _ F2 ltac:(simpl; tauto)) as Kt.
    simpl in Ks, Kt.
    destruct F2 as [(sent' & T' & Fc) _].
    unfold performs in T. rewrite T in T'. apply app_inv_head in T'. subst sent'.
    exists tx. eexists. exists p2, sent.
    split; [split; [exact E | reflexivity]|].
    split; [exact T|]. split; [exact F|]. split; [exact Fc|].
    split; [congruence|]. split; [exact Ha|]. split; assumption.
  - exists None, "disabled"%string, p1, [].
    split; [repeat split|]. split; [apply performs_refl|].
    split; [constructor|]. repeat split; assumption.
Qed.

Lemma commit_effects_save_nothing l :
  forallb is_commit_effect l = true -> saved_records l = [] /\ requests l = [].
Proof.
  induction l as [|e l IH]; intro H; [split; reflexivity|].
  simpl in H. apply andb_true_iff in H as [He Hl]. destruct (IH Hl) as [IH1 IH2].
  destruct e; try discriminate; simpl; split; assumption.
Qed.

(** A run, step by step: what the extraction performs, what the commit
    performs, and the process the run ends in. *)
Lemma run_anatomy p :
  exists found p1 fetched,
    IndexExtractor.extract_index_with_retry cfg py (fetch_env env) (started p)
    = (Ok found, p1)
    /\ performs (started p) p1 fetched
    /\ forallb is_fetch_effect fetched = true
    /\ enabled p1 = enabled p /\ account p1 = account p
    /\ match found with
       | None =>
           IndexOracleSystem.run_oracle_update cfg py env p
           = (Ok false, add_event (Log ERROR "Index extraction failed completely") p1)
       | Some (index_value, index_text) =>
           exists tx status p2 sent,
             committed cfg env index_value p1 tx status p2
             /\ performs p1 p2 sent
             /\ Forall (fee_update cfg
                          (DynamicFeeCalculator.calculate_fee_rate cfg index_value)
                          index_value (account p)) (transactions sent)
             /\ forallb is_commit_effect sent = true
             /\ enabled p2 = enabled p /\ account p2 = account p
             /\ current_session p2 = current_session p1
             /\ session_start_time p2 = session_start_time p1
             /\ IndexOracleSystem.run_oracle_update cfg py env p
                = (Ok (display_ok env),
                   reported env
                     (run_record cfg py env index_value index_text tx status p2) p2)
       end.
Proof.
  destruct (extract_fetch_frame cfg py (fetch_env env) (started p))
    as (found & p1 & E & F).
  pose proof (moved_frozen _ _ Enabled _ _ F ltac:(simpl; tauto)) as Ke.
  pose proof (moved_frozen _ _ Account _ _ F ltac:(simpl; tauto)) as Ka.
  simpl in Ke, Ka.
  destruct F as [(fetched & T & Ff) _].
  exists found, p1, fetched. split; [exact E|]. split; [exact T|]. split; [exact Ff|].
  split; [exact Ke|]. split; [exact Ka|].
  destruct found as [[index_value index_text]|].
  - destruct (commit_performs index_value p1)
      as (tx & status & p2 & sent & C & T2 & Fu & Fc & He2 & Ha2 & Ks & Kt).
    exists tx, status, p2, sent. split; [exact C|]. split; [exact T2|].
    split; [rewrite <- Ka; exact Fu|]. split; [exact Fc|].
    split; [congruence|]. split; [congruence|]. split; [exact Ks|]. split; [exact Kt|].
    exact (run_with_value cfg py env p p1 index_value index_text tx status p2 E C).
  - exact (run_without_value cfg py env p p1 E).
Qed.

Lemma status_tells_the_hash index_value p1 tx status p2 :
  committed cfg env index_value p1 tx status p2 ->
  (status = "success"%string \/ status = "failed"%string \/ status = "disabled"%string)
  /\ (status = "success"%string <-> Py.or_empty tx <> ""%string)
  /\ (status = "disabled"%string <-> enabled p1 = false).
Proof.
  unfold committed. destruct (enabled p1).
  - intros [_ ->]. destruct tx as [tx_hash|]; simpl.
    + destruct (String.eqb_spec tx_hash ""); simpl.
      * split; [right; left; reflexivity|].
        split; split; try discriminate; intro H; contradiction.
      * split; [left; reflexivity|].
        split; split; try discriminate; intro H; [exact n | reflexivity].
    + split; [right; left; reflexivity|].
      split; split; try discriminate; intro H; contradiction.
  - intros (_ & -> & ->). split; [right; right; reflexivity|].
    split; split; try discriminate; try reflexivity. intro H. contradiction.
Qed.

Lemma run_records p :
  exists outcome p' handed,
    IndexOracleSystem.run_oracle_update cfg py env p = (Ok outcome, p')
    /\ saved_records (trace p') = saved_records (trace p) ++ handed
    /\ (List.length handed <= 1)%nat
    /\ Forall (record_of_run cfg py env (enabled p)) handed
    /\ enabled p' = enabled p /\ account p' = account p.
Proof.
  destruct (run_anatomy p) as (found & p1 & fetched & E & T & Ff & Ke & Ka & Hrun).
  destruct (fetch_effects_build_nothing fetched Ff) as [_ Sf].
  assert (saved_records (trace p1) = saved_records (trace p)) as S1.
  { unfold performs in T. rewrite T, saved_records_app, Sf, app_nil_r.
    unfold started. simpl. rewrite saved_records_app. simpl. apply app_nil_r. }
  destruct found as [[index_value index_text]|].
  - destruct Hrun as (tx & status & p2 & sent & C & T2 & _ & Fc & He2 & Ha2 & _ & _ & Hrun).
    destruct (commit_effects_save_nothing sent Fc) as [S2 _].
    eexists. eexists. eexists [_]. split; [exact Hrun|].
    split.
    { rewrite saved_records_reported. unfold performs in T2.
      rewrite T2, saved_records_app, S2, app_nil_r, S1. reflexivity. }
    split; [simpl; lia|].
    split; [|split; [destruct (save_ok env), (display_ok env); exact He2
                    | destruct (save_ok env), (display_ok env); exact Ha2]].
    constructor; [|constructor].
    destruct (status_tells_the_hash index_value p1 tx status p2 C) as (H1 & H2 & H3).
    rewrite Ke in H3.
    destruct (extract_found_first cfg py (fetch_env env) (started p)
                (index_value, index_text) p1 E) as (k & Hk & Hv & Hbefore).
    unfold record_of_run, run_record. simpl.
    split; [reflexivity|]. split; [exists k; repeat split; assumption|].
    repeat (split; [reflexivity|]).
    split; [exact H1|]. split; [exact H2 | exact H3].
  - eexists. eexists. exists []. split; [exact Hrun|].
    split; [simpl; rewrite saved_records_app, S1; simpl; rewrite !app_nil_r; reflexivity|].
    split; [simpl; lia|]. split; [constructor|]. split; assumption.
Qed.

Lemma run_commits p :
  exists outcome p' performed,
    IndexOracleSystem.run_oracle_update cfg py env p = (Ok outcome, p')
    /\ performs p p' performed
    /\ (saved_records performed = [] -> transactions performed = [])
    /\ forall r, In r (saved_records performed) ->
                 Forall (fee_update cfg (fee_rate_bp r) (index_value r) (account p))
                        (transactions performed).
Proof.
  destruct (run_anatomy p) as (found & p1 & fetched & E & T & Ff & Ke & Ka & Hrun).
  destruct (fetch_effects_build_nothing fetched Ff) as [Tf Sf].
  destruct found as [[index_value index_text]|].
  - destruct Hrun as (tx & status & p2 & sent & C & T2 & Fu & Fc & He2 & Ha2 & _ & _ & Hrun).
    destruct (commit_effects_save_nothing sent Fc) as [S2 _].
    eexists. eexists.
    exists ([Log INFO "=== INDEX ORACLE UPDATE STARTED ==="] ++ fetched ++ sent
            ++ [SaveOracleData (run_record cfg py env index_value index_text tx status p2);
                if save_ok env
                then Log INFO "Oracle data saved successfully"
                else Log ERROR "Data save error";
                if display_ok env
                then Log INFO "Oracle update completed successfully"
                else Log ERROR "Oracle update error"]).
    split; [exact Hrun|].
    assert (forall e1 e2 : event,
               transactions ([Log INFO "=== INDEX ORACLE UPDATE STARTED ==="] ++ fetched
                             ++ sent
                             ++ [SaveOracleData
                                   (run_record cfg py env index_value index_text tx
                                      status p2); e1; e2])
               = transactions sent ++ transactions [e1; e2]) as Ht.
    { intros e1 e2. rewrite !transactions_app, Tf. reflexivity. }
    assert (forall e1 e2 : event,
               saved_records ([Log INFO "=== INDEX ORACLE UPDATE STARTED ==="] ++ fetched
                              ++ sent
                              ++ [SaveOracleData
                                    (run_record cfg py env index_value index_text tx
                                       status p2); e1; e2])
               = run_record cfg py env index_value index_text tx status p2
                 :: saved_records [e1; e2]) as Hs.
    { intros e1 e2. rewrite !saved_records_app, Sf, S2. reflexivity. }
    split; [|split].
    + unfold performs in *. unfold reported. simpl. rewrite T2, T. unfold started. simpl.
      rewrite <- !app_assoc. reflexivity.
    + rewrite Hs. discriminate.
    + intros r Hr. rewrite Hs in Hr. rewrite Ht.
      destruct (save_ok env), (display_ok env); simpl in Hr;
        (destruct Hr as [<-|[]]); simpl; rewrite app_nil_r; exact Fu.
  - eexists. eexists.
    exists ([Log INFO "=== INDEX ORACLE UPDATE STARTED ==="] ++ fetched
            ++ [Log ERROR "Index extraction failed completely"]).
    split; [exact Hrun|].
    assert (transactions ([Log INFO "=== INDEX ORACLE UPDATE STARTED ==="] ++ fetched
                          ++ [Log ERROR "Index extraction failed completely"]) = []) as Ht.
    { rewrite !transactions_app, Tf. reflexivity. }
    assert (saved_records ([Log INFO "=== INDEX ORACLE UPDATE STARTED ==="] ++ fetched
                           ++ [Log ERROR "Index extraction failed completely"]) = []) as Hs.
    { rewrite !saved_records_app, Sf. reflexivity. }
    split; [|split].
    + unfold performs in *. simpl. rewrite T. unfold started. simpl.
      rewrite <- !app_assoc. reflexivity.
    + intros _. exact Ht.
    + intros r Hr. rewrite Hs in Hr. destruct Hr.
Qed.

End RunAnatomy.

Section RunOrder.
Variable cfg : OracleConfig.
Variable py : PyRuntime.

(** Every iteration of the extraction leaves a session with its start
    time. *)
Lemma extract_iteration_starts_session env attempt p :
  exists found p' t,
    IndexExtractor.extract_iteration cfg py env attempt p = (Ok found, p')
    /\ session_start_time p' = Some t.
Proof.
  unfold IndexExtractor.extract_iteration, IndexExtractor.extract_attempt,
    Level5AntiDetection.human_delay, try_except.
  run_monad.
  match goal with
  | |- context [Level5AntiDetection.get_session ?c ?e ?q] =>
      destruct (get_session_stores c e q) as (s & t & p1 & E & _ & Ht & _)
  end.
  rewrite E.
  destruct (http (env attempt)) as [|status_code [element_text|]]; simpl.
  all: try destruct (_ && _); simpl.
  all: try destruct (float_of_str py _) as [index_value|]; simpl.
  all: try destruct (_ <? _).
  all: eexists; eexists; exists t; (split; [reflexivity | exact Ht]).
Qed.

Lemma extract_loop_starts_session env count :
  forall start p found p',
    for_range (IndexExtractor.extract_iteration cfg py env) count start p
    = (Ok (Some found), p') ->
    exists t, session_start_time p' = Some t.
Proof.
  induction count as [|n IH]; intros start p found p' E; [discriminate E|].
  simpl in E.
  destruct (extract_iteration_starts_session env start p) as (v & p1 & t & E1 & Ht).
  rewrite E1 in E. destruct v as [v|].
  - injection E as _ <-. exists t. exact Ht.
  - apply (IH (S start) p1 found p'). exact E.
Qed.

Lemma extract_starts_session env p found p' :
  IndexExtractor.extract_index_with_retry cfg py env p = (Ok (Some found), p') ->
  exists t, session_start_time p' = Some t.
Proof.
  unfold IndexExtractor.extract_index_with_retry, bind. intro E.
  destruct (for_range _ _ _ p) as [[[v|]|e] p1] eqn:L; try discriminate E.
  injection E as _ <-.
  apply (extract_loop_starts_session env (MAX_RETRIES cfg) 0%nat p v p1). exact L.
Qed.

Variable env : RunEnv.

Lemma run_phases p :
  holds_registered p ->
  exists outcome p' fetched sent closing,
    IndexOracleSystem.run_oracle_update cfg py env p = (Ok outcome, p')
    /\ performs p p'
         (Log INFO "=== INDEX ORACLE UPDATE STARTED ===" :: fetched ++ sent ++ closing)
    /\ forallb is_fetch_effect fetched = true
    /\ Forall (source_request cfg) (requests fetched)
    /\ forallb is_commit_effect sent = true
    /\ forallb is_closing_effect closing = true
    /\ (List.length (saved_records closing) <= 1)%nat
    /\ holds_registered p'.
Proof.
  intro Hp.
  destruct (run_anatomy cfg py env p)
    as (found & p1 & fetched & E & T & Ff & Ke & Ka & Hrun).
  destruct (extract_performs cfg py (fetch_env env) (started p))
    as (found' & p1' & fetched' & E' & T' & Fr & Hp1); [exact Hp|].
  rewrite E in E'. injection E' as <- <-.
  unfold performs in T, T'. rewrite T in T'. apply app_inv_head in T'. subst fetched'.
  destruct found as [[index_value index_text]|].
  - destruct Hrun as (tx & status & p2 & sent & C & T2 & _ & Fc & _ & _ & Ks & _ & Hrun).
    eexists. eexists. exists fetched, sent.
    exists [SaveOracleData (run_record cfg py env index_value index_text tx status p2);
            if save_ok env
            then Log INFO "Oracle data saved successfully"
            else Log ERROR "Data save error";
            if display_ok env
            then Log INFO "Oracle update completed successfully"
            else Log ERROR "Oracle update error"].
    split; [exact Hrun|].
    split.
    { unfold performs in *. unfold reported. simpl. rewrite T2, T. unfold started. simpl.
      rewrite <- !app_assoc. reflexivity. }
    split; [exact Ff|]. split; [exact Fr|]. split; [exact Fc|].
    split; [destruct (save_ok env), (display_ok env); reflexivity|].
    split; [destruct (save_ok env), (display_ok env); simpl; lia|].
    intros s Hs. apply Hp1. rewrite <- Ks.
    destruct (save_ok env), (display_ok env); exact Hs.
  - eexists. eexists. exists fetched, [], [Log ERROR "Index extraction failed completely"].
    split; [exact Hrun|].
    split.
    { unfold performs in *. simpl. rewrite T. unfold started. simpl.
      rewrite <- !app_assoc. reflexivity. }
    split; [exact Ff|]. split; [exact Fr|]. split; [reflexivity|].
    split; [reflexivity|]. split; [simpl; lia | exact Hp1].
Qed.

Lemma run_records_session_age p :
  exists outcome p' handed,
    IndexOracleSystem.run_oracle_update cfg py env p = (Ok outcome, p')
    /\ saved_records (trace p') = saved_records (trace p) ++ handed
    /\ Forall (fun r =>
                 exists t,
                   session_start_time p' = Some t
                   /\ session_age_minutes r
                      = (inject_Z (age_now env - t) / 1000000 / 60)%Q) handed.
Proof.
  destruct (run_anatomy cfg py env p)
    as (found & p1 & fetched & E & T & Ff & Ke & Ka & Hrun).
  destruct (fetch_effects_build_nothing fetched Ff) as [_ Sf].
  assert (saved_records (trace p1) = saved_records (trace p)) as S1.
  { unfold performs in T. rewrite T, saved_records_app, Sf, app_nil_r.
    unfold started. simpl. rewrite saved_records_app. simpl. apply app_nil_r. }
  destruct found as [[index_value index_text]|].
  - destruct Hrun as (tx & status & p2 & sent & C & T2 & _ & Fc & _ & _ & _ & Kt & Hrun).
    destruct (commit_effects_save_nothing sent Fc) as [S2 _].
    destruct (extract_starts_session (fetch_env env) (started p)
                (index_value, index_text) p1 E) as (t & Ht).
    eexists. eexists. eexists [_]. split; [exact Hrun|].
    split.
    { rewrite saved_records_reported. unfold performs in T2.
      rewrite T2, saved_records_app, S2, app_nil_r, S1. reflexivity. }
    constructor; [|constructor]. exists t.
    rewrite <- Kt in Ht.
    split; [destruct (save_ok env), (display_ok env); exact Ht|].
    unfold run_record, session_age. simpl. rewrite Ht. reflexivity.
  - eexists. eexists. exists []. split; [exact Hrun|].
    split; [simpl; rewrite saved_records_app, S1; simpl; rewrite !app_nil_r; reflexivity|].
    constructor.
Qed.

End RunOrder.

(** X15.  A run never raises and hands over at most one record, and every
    record it hands over is coherent.  Its value and text are those of the
    first extraction attempt that succeeded in this run; its fee rate is
    [calculate_fee_rate] of that value, shown in percent and explained by
    [get_fee_explanation] of the same value; its status is "success",
    "failed" or "disabled"; it is "success" exactly when the record carries
    a transaction hash, and "disabled" exactly when the bridge was
    disabled when the run began.  The run leaves the bridge's flag and
    account as they were. *)
Theorem run_hands_over_a_coherent_record cfg py env p :
  exists outcome p' handed,
    IndexOracleSystem.run_oracle_update cfg py env p = (Ok outcome, p')
    /\ saved_records (trace p') = saved_records (trace p) ++ handed
    /\ (List.length handed <= 1)%nat
    /\ Forall (record_of_run cfg py env (enabled p)) handed
    /\ enabled p' = enabled p /\ account p' = account p.
Proof. apply run_records. Qed.

(** X16.  What a run puts on the ledger is what it records.  Every
    transaction built or signed during a run is a fee update, from the
    loaded account and under the gas price cap, that carries the fee rate
    and the integer part of the index value of the record the run hands
    over; a run that hands over no record builds no transaction. *)
Theorem ledger_carries_what_is_recorded cfg py env p :
  exists outcome p' performed,
    IndexOracleSystem.run_oracle_update cfg py env p = (Ok outcome, p')
    /\ performs p p' performed
    /\ (saved_records performed = [] -> transactions performed = [])
    /\ forall r, In r (saved_records performed) ->
                 Forall (fee_update cfg (fee_rate_bp r) (index_value r) (account p))
                        (transactions performed).
Proof. apply run_commits. Qed.

(** X17.  The phases of a run come in order.  Started from a process that
    holds no identity or a registered one, a run performs its opening log
    line, then the effects of the extraction (log lines, sleeps and
    requests, each request a request to the source under a registered
    identity), then those of the commit (log lines, sleeps and ledger
    calls), then its closing effects (log lines and at most one record
    handed to the storage manager): no request follows a ledger call, and
    the record is handed over after the last ledger call.  The process
    afterwards again holds no identity or a registered one. *)
Theorem run_phases_are_ordered cfg py env p :
  holds_registered p ->
  exists outcome p' fetched sent closing,
    IndexOracleSystem.run_oracle_update cfg py env p = (Ok outcome, p')
    /\ performs p p'
         (Log INFO "=== INDEX ORACLE UPDATE STARTED ===" :: fetched ++ sent ++ closing)
    /\ forallb is_fetch_effect fetched = true
    /\ Forall (source_request cfg) (requests fetched)
    /\ forallb is_commit_effect sent = true
    /\ forallb is_closing_effect closing = true
    /\ (List.length (saved_records closing) <= 1)%nat
    /\ holds_registered p'.
Proof. apply run_phases. Qed.

(** X18.  The default session age is never recorded.  Every record a run
    hands over was built after an extraction attempt that went through
    [get_session], so the session has a start time [t] when the age is
    computed, and the record carries the age [(now - t)] in minutes; the
    initial value [0.0] of [session_age] never reaches a record. *)
Theorem recorded_session_age_is_measured cfg py env p :
  exists outcome p' handed,
    IndexOracleSystem.run_oracle_update cfg py env p = (Ok outcome, p')
    /\ saved_records (trace p') = saved_records (trace p) ++ handed
    /\ Forall (fun r =>
                 exists t,
                   session_start_time p' = Some t
                   /\ session_age_minutes r
                      = (inject_Z (age_now env - t) / 1000000 / 60)%Q) handed.
Proof. apply run_records_session_age. Qed.

Lemma run_phases_are_ordered_witness :
  exists outcome p' fetched sent closing,
    IndexOracleSystem.run_oracle_update Scenario.configured Scenario.py
      (Scenario.run_env Scenario.page Scenario.confirmed) Scenario.bridge_ready
    = (Ok outcome, p')
    /\ performs Scenario.bridge_ready p'
         (Log INFO "=== INDEX ORACLE UPDATE STARTED ===" :: fetched ++ sent ++ closing)
    /\ forallb is_fetch_effect fetched = true
    /\ Forall (source_request Scenario.configured) (requests fetched)
    /\ forallb is_commit_effect sent = true
    /\ forallb is_closing_effect closing = true
    /\ (List.length (saved_records closing) <= 1)%nat
    /\ holds_registered p'.
Proof.
  apply (run_phases_are_ordered Scenario.configured Scenario.py
           (Scenario.run_env Scenario.page Scenario.confirmed) Scenario.bridge_ready).
  intros s Hs. vm_compute in Hs. discriminate Hs.
Defined.

Lemma ledger_carries_what_is_recorded_witness :
  let run :=
    IndexOracleSystem.run_oracle_update Scenario.configured Scenario.py
      (Scenario.run_env Scenario.page Scenario.confirmed) Scenario.bridge_ready in
  exists performed,
    performs Scenario.bridge_ready (snd run) performed
    /\ List.length (saved_records performed) = 1%nat
    /\ List.length (transactions performed) = 2%nat
    /\ forall r, In r (saved_records performed) ->
                 Forall (fee_update Scenario.configured (fee_rate_bp r) (index_value r)
                           (account Scenario.bridge_ready))
                        (transactions performed).
Proof.
  intro run.
  destruct (ledger_carries_what_is_recorded Scenario.configured Scenario.py
              (Scenario.run_env Scenario.page Scenario.confirmed) Scenario.bridge_ready)
    as (outcome & p' & performed & E & T & _ & H).
  fold run in E.
  assert (p' = snd run) as -> by (rewrite E; reflexivity).
  exists performed. split; [exact T|].
  assert (List.length (trace Scenario.bridge_ready) = 5%nat) as L
      by (vm_compute; reflexivity).
  assert (performed = skipn 5 (trace (snd run))) as Hp.
  { unfold performs in T. rewrite T, <- L, skipn_app, skipn_all, Nat.sub_diag.
    reflexivity. }
  split; [rewrite Hp; vm_compute; reflexivity|].
  split; [rewrite Hp; vm_compute; reflexivity | exact H].
Defined.

(** ** The storage files *)

Lemma in_step_after_save env r records s :
  in_step records s -> all_goes_through env ->
  in_step (records ++ [r]) (DataStorageFiles.save_oracle_data env r s)
  /\ storage_log (DataStorageFiles.save_oracle_data env r s)
     = storage_log s ++ [(INFO, "Oracle data saved successfully"%string)].
Proof.
  intros [Hc Hj] (Wc & Rj & Wj).
  unfold DataStorageFiles.save_oracle_data, DataStorageFiles._save_to_csv,
    DataStorageFiles._save_to_json, DataStorageFiles.loaded, in_step.
  rewrite Wc. simpl. rewrite Hj, Rj, Hc.
  destruct records as [|r0 rest]; simpl; rewrite Wj; simpl.
  - repeat split.
  - rewrite !map_app. simpl. repeat split.
Qed.

(** X19.  The two files stay in step.  On a first start, with neither
    file present, [_initialize_csv] creates the CSV file with its header of
    ten names.  From then on, as long as every file operation goes
    through, each [save_oracle_data] appends one row to the CSV file and
    one entry to the JSON file, for the same record, keeps everything
    written before, and logs its success line; and [_initialize_csv] at a
    later start leaves both files as they are. *)
Theorem files_stay_in_step :
  (forall env s,
      csv_file s = None -> json_file s = None -> csv_write env = Completes ->
      exists s', DataStorageFiles._initialize_csv env s = (Returns, s')
                 /\ in_step [] s')
  /\ (forall env r records s,
         in_step records s -> all_goes_through env ->
         in_step (records ++ [r]) (DataStorageFiles.save_oracle_data env r s)
         /\ storage_log (DataStorageFiles.save_oracle_data env r s)
            = storage_log s ++ [(INFO, "Oracle data saved successfully"%string)])
  /\ (forall env records s,
         in_step records s -> DataStorageFiles._initialize_csv env s = (Returns, s))
  /\ forall r, List.length (DataStorageFiles.row r) = List.length DataStorageFiles.headers.
Proof.
  split; [|split; [|split]].
  - intros env s Hc Hj Wc. unfold DataStorageFiles._initialize_csv.
    rewrite Hc, Wc. eexists. split; [reflexivity|]. split; [reflexivity | exact Hj].
  - intros env r records s. apply in_step_after_save.
  - intros env records s [Hc _]. unfold DataStorageFiles._initialize_csv.
    rewrite Hc. reflexivity.
  - intro r. reflexivity.
Qed.

(** X20.  A backup that cannot be read is replaced without a word.  When
    the JSON file exists but cannot be opened, read or parsed, a save whose
    writes go through leaves a JSON file that holds the new record alone,
    whatever the file held before, and logs the success line: no error is
    reported for the entries lost. *)
Theorem unreadable_backup_is_replaced env r s content :
  json_file s = Some content ->
  content = Unparsable \/ json_read_ok env = false ->
  csv_write env = Completes -> json_write env = Completes ->
  json_file (DataStorageFiles.save_oracle_data env r s) = Some (Entries [JsonRecord r])
  /\ storage_log (DataStorageFiles.save_oracle_data env r s)
     = storage_log s ++ [(INFO, "Oracle data saved successfully"%string)].
Proof.
  intros Hj Hbad Wc Wj.
  unfold DataStorageFiles.save_oracle_data, DataStorageFiles._save_to_csv,
    DataStorageFiles._save_to_json, DataStorageFiles.loaded.
  rewrite Wc. simpl. rewrite Hj.
  destruct Hbad as [->| ->]; [destruct (json_read_ok env)|]; rewrite Wj; split; reflexivity.
Qed.

(** X21.  A save that fails is logged, and may leave the files out of
    step.  Whenever [save_oracle_data] does not end with its success line
    it ends with the error line.  When writing the CSV file fails, the
    JSON file is not touched.  When the CSV row is written and the JSON
    file then holds a value that is not a list, or cannot be written, the
    row stays in the CSV file although the save is reported as failed. *)
Theorem failed_save_is_logged env r s :
  saves env s = false ->
  storage_log (DataStorageFiles.save_oracle_data env r s)
  = storage_log s ++ [(ERROR, "Data save error"%string)]
  /\ (forall left_behind,
         csv_write env = Breaks left_behind ->
         csv_file (DataStorageFiles.save_oracle_data env r s) = left_behind
         /\ json_file (DataStorageFiles.save_oracle_data env r s) = json_file s)
  /\ (csv_write env = Completes ->
      csv_file (DataStorageFiles.save_oracle_data env r s)
      = Some (match csv_file s with Some rows => rows | None => [] end
              ++ [DataStorageFiles.row r])
      /\ (DataStorageFiles.loaded env s = None ->
          json_file (DataStorageFiles.save_oracle_data env r s) = json_file s)).
Proof.
  unfold saves, DataStorageFiles.save_oracle_data, DataStorageFiles._save_to_csv,
    DataStorageFiles._save_to_json.
  destruct (csv_write env) as [|left_behind]; simpl.
  - change (DataStorageFiles.loaded env
              (DataStorageFiles.set_csv
                 (Some (match csv_file s with Some rows => rows | None => [] end
                        ++ [DataStorageFiles.row r])) s))
      with (DataStorageFiles.loaded env s).
    destruct (DataStorageFiles.loaded env s) as [json_data|]; simpl.
    + destruct (json_write env) as [|left_behind]; [discriminate|]. intros _.
      split; [reflexivity|]. split; [intros l H; discriminate H|].
      intros _. split; [reflexivity | discriminate].
    + intros _. split; [reflexivity|]. split; [intros l H; discriminate H|].
      intros _. split; reflexivity.
  - intros _. split; [reflexivity|]. split.
    + intros l H. injection H as <-. split; reflexivity.
    + discriminate.
Qed.

(** X22.  The flag [save_ok] of [DataStorageManager.save_oracle_data] is
    what the files decide: handed a record, the storage manager of a run
    logs exactly the line that the storage manager on its files logs when
    [save_ok] is [saves], and when that is the success line the record
    handed over is the last row of the CSV file and the last entry of the
    JSON file. *)
Theorem save_ok_is_decided_by_the_files env r s p :
  exists p' line,
    DataStorageManager.save_oracle_data r (saves env s) p = (Ok tt, p')
    /\ performs p p' [SaveOracleData r; Log (fst line) (snd line)]
    /\ storage_log (DataStorageFiles.save_oracle_data env r s) = storage_log s ++ [line]
    /\ (saves env s = true ->
        exists rows entries,
          csv_file (DataStorageFiles.save_oracle_data env r s)
          = Some (rows ++ [DataStorageFiles.row r])
          /\ json_file (DataStorageFiles.save_oracle_data env r s)
             = Some (Entries (entries ++ [JsonRecord r]))).
Proof.
  unfold saves, DataStorageManager.save_oracle_data,
    DataStorageFiles.save_oracle_data, DataStorageFiles._save_to_csv,
    DataStorageFiles._save_to_json, performs.
  run_monad.
  destruct (csv_write env) as [|left_behind]; simpl.
  - change (DataStorageFiles.loaded env
              (DataStorageFiles.set_csv
                 (Some (match csv_file s with Some rows => rows | None => [] end
                        ++ [DataStorageFiles.row r])) s))
      with (DataStorageFiles.loaded env s).
    destruct (DataStorageFiles.loaded env s) as [json_data|]; simpl.
    + destruct (json_write env) as [|left_behind]; simpl.
      * eexists. exists (INFO, "Oracle data saved successfully"%string).
        split; [reflexivity|]. split; [simpl; rewrite <- app_assoc; reflexivity|].
        split; [reflexivity|]. intros _. eexists. eexists. split; reflexivity.
      * eexists. exists (ERROR, "Data save error"%string).
        split; [reflexivity|]. split; [simpl; rewrite <- app_assoc; reflexivity|].
        split; [reflexivity | discriminate].
    + eexists. exists (ERROR, "Data save error"%string).
      split; [reflexivity|]. split; [simpl; rewrite <- app_assoc; reflexivity|].
      split; [reflexivity | discriminate].
  - eexists. exists (ERROR, "Data save error"%string).
    split; [reflexivity|]. split; [simpl; rewrite <- app_assoc; reflexivity|].
    split; [reflexivity | discriminate].
Qed.

Lemma files_stay_in_step_witness :
  exists s,
    DataStorageFiles._initialize_csv StorageScenario.disk_ok StorageScenario.first_start
    = (Returns, s)
    /\ in_step [StorageScenario.record]
         (DataStorageFiles.save_oracle_data StorageScenario.disk_ok
            StorageScenario.record s).
Proof.
  destruct files_stay_in_step as (Hinit & Hsave & _).
  destruct (Hinit StorageScenario.disk_ok StorageScenario.first_start)
    as (s & E & Hs); [reflexivity | reflexivity | reflexivity |].
  exists s. split; [exact E|].
  apply (Hsave StorageScenario.disk_ok StorageScenario.record [] s Hs).
  repeat split.
Defined.

Lemma unreadable_backup_is_replaced_witness :
  json_file (DataStorageFiles.save_oracle_data StorageScenario.disk_ok
               StorageScenario.record StorageScenario.truncated_backup)
  = Some (Entries [JsonRecord StorageScenario.record])
  /\ storage_log (DataStorageFiles.save_oracle_data StorageScenario.disk_ok
                    StorageScenario.record StorageScenario.truncated_backup)
     = storage_log StorageScenario.truncated_backup
       ++ [(INFO, "Oracle data saved successfully"%string)].
Proof.
  apply (unreadable_backup_is_replaced StorageScenario.disk_ok StorageScenario.record
           StorageScenario.truncated_backup Unparsable).
  - reflexivity.
  - left. reflexivity.
  - reflexivity.
  - reflexivity.
Defined.

Lemma failed_save_is_logged_witness :
  storage_log (DataStorageFiles.save_oracle_data StorageScenario.disk_full
                 StorageScenario.record StorageScenario.first_start)
  = storage_log StorageScenario.first_start ++ [(ERROR, "Data save error"%string)]
  /\ json_file (DataStorageFiles.save_oracle_data StorageScenario.disk_full
                  StorageScenario.record StorageScenario.first_start)
     = json_file StorageScenario.first_start.
Proof.
  destruct (failed_save_is_logged StorageScenario.disk_full StorageScenario.record
              StorageScenario.first_start) as (Hlog & Hcsv & _); [reflexivity|].
  split; [exact Hlog|]. apply (Hcsv None). reflexivity.
Defined.

Lemma save_ok_is_decided_by_the_files_witness :
  exists rows entries,
    csv_file (DataStorageFiles.save_oracle_data StorageScenario.disk_ok
                StorageScenario.record StorageScenario.truncated_backup)
    = Some (rows ++ [DataStorageFiles.row StorageScenario.record])
    /\ json_file (DataStorageFiles.save_oracle_data StorageScenario.disk_ok
                    StorageScenario.record StorageScenario.truncated_backup)
       = Some (Entries (entries ++ [JsonRecord StorageScenario.record])).
Proof.
  destruct (save_ok_is_decided_by_the_files StorageScenario.disk_ok StorageScenario.record
              StorageScenario.truncated_backup IndexOracleSystem.initial)
    as (p' & line & _ & _ & _ & H).
  apply H. reflexivity.
Defined.

(** ** Doubles and exact arithmetic *)

Lemma upto_In count : forall from n, from <= n < from + Z.of_nat count -> In n (upto count from).
Proof.
  induction count as [|c IH]; intros from n H; [lia|].
  simpl. destruct (Z.eq_dec from n) as [->|N]; [left; reflexivity|].
  right. apply IH. lia.
Qed.

Lemma doubles_agree_upto_4000 :
  forallb (fun n => Binary64.calculate_fee_rate (whole_index n)
                    =? DynamicFeeCalculator.calculate_fee_rate source_config (inject_Z n))
          (upto 4001 0) = true.
Proof. vm_compute. reflexivity. Qed.

(** X23.  On every whole index value from 0 to 4000, which covers the
    band of the source's constants and both flat regions, the fee rate
    computed on IEEE doubles, as Python computes it, is the fee rate of
    exact arithmetic: rounding errors of the interpolation never reach the
    rounded result. *)
Theorem doubles_agree_on_whole_index_values n :
  0 <= n <= 4000 ->
  Binary64.calculate_fee_rate (whole_index n)
  = DynamicFeeCalculator.calculate_fee_rate source_config (inject_Z n).
Proof.
  intro H. pose proof doubles_agree_upto_4000 as A.
  rewrite forallb_forall in A. apply Z.eqb_eq. apply A. apply upto_In. lia.
Qed.

Lemma doubles_agree_witness :
  Binary64.calculate_fee_rate (whole_index 1500)
  = DynamicFeeCalculator.calculate_fee_rate source_config (inject_Z 1500).
Proof. apply (doubles_agree_on_whole_index_values 1500). lia. Defined.
